(** * K3C giving platform: payment reconciliation, gateway adapters, campaign virtuals

    A shallow embedding of the backend's payment path:

    - [services/mpesa.service.ts]     [formatPhoneNumber], [processCallback]
    - [services/paystack.service.ts]  [processWebhook]
    - [services/socket.service.ts]    the three [emit...] operations
    - [models/Campaign.ts]            the record and its two virtuals
    - [models/Contribution.ts], [models/Transaction.ts]
    - [controllers/payment.controller.ts]           [handleMPESACallback]
    - [controllers/payment.controller.paystack.ts]  [verifyPaystackPayment],
                                                    [handlePaystackWebhook]

    Conventions of the embedding.

    - A JavaScript [number] is a binary64 float.  A finite one is kept as
      the rational it denotes ([Q]); the results of [+], [-], [*] and [/]
      are rounded to 53 significant bits, ties to even ([binary64]).  The
      exponent range is not represented: no overflow to [Infinity], no
      gradual underflow.  [===] on numbers is [Qeq_bool], [>=] is
      [Qle_bool], [Math.round x] is [Qfloor (x + 1/2)], which is exact.
    - A request body is an untyped JSON [value]; reading a property of
      [undefined] or [null] throws a [TypeError], as in the language.
    - A Mongo collection is the list of its documents in natural order.
      [findOne] returns the first match, [findById] the first document with
      that [_id], [save] rewrites the documents carrying the saved [_id].
      Stored documents are taken to satisfy their schema validators, so a
      [save] of a document read back from the store succeeds unless a value
      assigned to it in between cannot be cast.
    - Mongoose is not among the sources.  What it makes of a value that is
      not a string, in a filter on a String path or assigned to one, is a
      parameter of the model ([Mongoose]); for strings the filter is the
      comparison and the assignment stores the string.
    - Handlers run in a state-and-exception monad over the [World]: the four
      collections, the socket service and the console.  A handler's [try]
      block is [try_catch]; writes made before a throw stay in the store.
    - Timestamps ([new Date()], [updatedAt]) are not represented. *)

From Stdlib Require Import List String Ascii Bool ZArith NArith QArith Qround Qminmax Lia Lqa.
From Stdlib Require Import Qpower SpecFloat.
From Stdlib Require Import DecimalString.
Import ListNotations.

Local Open Scope string_scope.
Local Open Scope Z_scope.
Local Open Scope Q_scope.

(* ================================================================== *)
(** * Part I. Phone-number normalisation ([MPESAService.formatPhoneNumber]) *)
(* ================================================================== *)

(** The two regular expressions of [formatPhoneNumber] have no [u] flag, so
    they act on UTF-16 code units.  A phone number is therefore a list of
    code units. *)
Definition jsstring := list N.

Definition units (s : string) : jsstring :=
  List.map N_of_ascii (list_ascii_of_string s).

(** The class [\s] of ECMAScript: WhiteSpace and LineTerminator. *)
Definition is_space (u : N) : bool :=
  (N.leb 9 u && N.leb u 13            (* TAB LF VT FF CR *)
   || N.eqb u 32 || N.eqb u 160       (* SP, NBSP *)
   || N.eqb u 5760                    (* U+1680 *)
   || N.leb 8192 u && N.leb u 8202    (* U+2000 .. U+200A *)
   || N.eqb u 8232 || N.eqb u 8233    (* LS, PS *)
   || N.eqb u 8239 || N.eqb u 8287    (* U+202F, U+205F *)
   || N.eqb u 12288 || N.eqb u 65279  (* U+3000, U+FEFF *))%bool%N.

Definition is_digit (u : N) : bool := (N.leb 48 u && N.leb u 57)%bool%N.

(** The class [[0-9+]]; the source removes its complement. *)
Definition is_digit_or_plus (u : N) : bool := (is_digit u || N.eqb u 43)%bool%N.

(** [s.replace(/\s+/g, '')]: every maximal run of white space is dropped. *)
Definition strip_spaces (s : jsstring) : jsstring :=
  List.filter (fun u => negb (is_space u)) s.

(** [s.replace(/[^0-9+]/g, '')]. *)
Definition strip_non_phone (s : jsstring) : jsstring :=
  List.filter is_digit_or_plus s.

Fixpoint startsWith (prefix s : jsstring) : bool :=
  match prefix, s with
  | [], _ => true
  | _ :: _, [] => false
  | p :: prefix', u :: s' => (N.eqb p u && startsWith prefix' s')%bool
  end.

(** [s.substring(1)]. *)
Definition substring1 (s : jsstring) : jsstring := List.tl s.

Definition formatPhoneNumber (phoneNumber : jsstring) : jsstring :=
  let formatted := strip_non_phone (strip_spaces phoneNumber) in
  if startsWith (units "+254") formatted then
    substring1 formatted
  else if startsWith (units "0") formatted then
    (units "254" ++ substring1 formatted)%list
  else if negb (startsWith (units "254") formatted) then
    (units "254" ++ formatted)%list
  else
    formatted.

(* ================================================================== *)
(** * Part II. The Campaign document and its virtuals ([models/Campaign.ts]) *)
(* ================================================================== *)

Definition ObjectId := string.

Inductive CampaignStatus := draft | active | paused | completed.

Definition CampaignStatus_eqb (a b : CampaignStatus) : bool :=
  match a, b with
  | draft, draft | active, active | paused, paused | completed, completed => true
  | _, _ => false
  end.

(** The fields of [ICampaign] that the payment path reads or writes, and the
    title.  Description, currency, dates, image and category are carried by
    the stored document and never touched here. *)
Record Campaign := mkCampaign {
  campaign_id : ObjectId;
  title : string;
  goalAmount : Q;
  currentAmount : Q;
  status : CampaignStatus
}.

(** ** Arithmetic in double precision *)

(** For [0 < x], the exponent [e] with [2^e <= x < 2^(e+1)]. *)
Definition binade (x : Q) : Z :=
  let d := (Z.log2 (Qnum x) - Z.log2 (Zpos (Qden x)))%Z in
  if Qle_bool (2 ^ d) x then d else (d - 1)%Z.

(** The nearest integer, a tie going to the even one. *)
Definition nearest_even (y : Q) : Z :=
  let f := Qfloor y in
  match Qcompare (y - inject_Z f) (1 # 2) with
  | Lt => f
  | Gt => (f + 1)%Z
  | Eq => if Z.even f then f else (f + 1)%Z
  end.

(** [0 < x] rounded to 53 significant bits: the significand [x / ulp] lies
    in [2^52, 2^53) and is rounded to an integer. *)
Definition round53 (x : Q) : Q :=
  let ulp := 2 ^ (binade x - 52) in
  Qred (inject_Z (nearest_even (x / ulp)) * ulp).

(** The double nearest to [x], ties to even. *)
Definition binary64 (x : Q) : Q :=
  match Qcompare x 0 with
  | Eq => 0
  | Gt => round53 x
  | Lt => - round53 (- x)
  end.

(** [x] is a double. *)
Definition is_double (x : Q) : bool := Qeq_bool (binary64 x) x.

(** [x + y].  The operands of the code are doubles and their sum is
    rounded; on rationals that are not doubles, which no stored number is,
    the sum is left as it is. *)
Definition add64 (x y : Q) : Q :=
  if (is_double x && is_double y)%bool then binary64 (x + y) else x + y.

(** [x - y], [x * y] and [x / y] for a non-zero [y]. *)
Definition sub64 (x y : Q) : Q := binary64 (x - y).
Definition mul64 (x y : Q) : Q := binary64 (x * y).
Definition div64 (x y : Q) : Q := binary64 (x / y).

(** The same operations by the Standard Library's specification of IEEE 754
    arithmetic, for the cross-check of [binary64] below. *)
Definition ieee_of_Z (n : Z) : spec_float := binary_normalize 53 1024 n 0 false.

Definition Q_of_ieee (f : spec_float) : option Q :=
  match f with
  | S754_zero _ => Some 0
  | S754_finite s m e =>
      Some (Qred ((if s then -1 else 1) * inject_Z (Zpos m) * 2 ^ e))
  | S754_infinity _ | S754_nan => None
  end.

(** [Math.round]: the nearest integer, ties towards plus infinity. *)
Definition Math_round (x : Q) : Z := Qfloor (x + (1 # 2)).

(** [Math.max(a, b)] and [Math.min(a, b)] on numbers. *)
Definition Math_max (a b : Q) : Q := if Qle_bool a b then b else a.
Definition Math_min (a b : Z) : Z := Z.min a b.

(** The virtual [completionPercentage]. *)
Definition completionPercentage (this : Campaign) : Z :=
  if Qeq_bool (goalAmount this) 0 then 0%Z
  else Math_min
         (Math_round (mul64 (div64 (currentAmount this) (goalAmount this)) 100)) 100.

(** The virtual [remainingAmount]. *)
Definition remainingAmount (this : Campaign) : Q :=
  Math_max (sub64 (goalAmount this) (currentAmount this)) 0.

(** The derivation as the specification words it, in exact arithmetic:
    min(round(100 x currentAmount / goalAmount), 100), and 0 for a zero goal. *)
Definition spec_completionPercentage (c : Campaign) : Z :=
  if Qeq_bool (goalAmount c) 0 then 0%Z
  else Z.min (Qfloor (100 * currentAmount c / goalAmount c + (1 # 2))) 100.

(** The remaining amount as the specification words it:
    max(goalAmount - currentAmount, 0). *)
Definition spec_remainingAmount (c : Campaign) : Q :=
  Qmax (goalAmount c - currentAmount c) 0.

(* ================================================================== *)
(** * Part III. JSON values and the two notification parsers *)
(* ================================================================== *)

(** A JavaScript value as a request body can hold it, plus [undefined] (the
    value of a missing property) and [NaN] (arithmetic on a non-number). *)
#[warnings="-register-all"]
Inductive value :=
| VUndefined
| VNull
| VBool (b : bool)
| VNum (q : Q)
| VNaN
| VStr (s : string)
| VArr (items : list value)
| VObj (fields : list (string * value)).

Inductive js_error :=
| TypeError                      (* property read on undefined or null, call of a non-function *)
| GatewayError (message : string) (* thrown by the adapter when the provider call fails *)
| MongooseError (path : string)  (* thrown by the object mapper: a value it cannot cast *).

(** A computation that may throw. *)
Definition Exc (A : Type) := (js_error + A)%type.

Fixpoint assoc (k : string) (fields : list (string * value)) : value :=
  match fields with
  | [] => VUndefined
  | (k', v) :: rest => if String.eqb k k' then v else assoc k rest
  end.

(** [o.k] for one of the property names the parsers use.  None of them is
    defined on the prototype of a string, number, boolean or array, so only
    an object can answer with something else than [undefined]. *)
Definition get (o : value) (k : string) : Exc value :=
  match o with
  | VUndefined | VNull => inl TypeError
  | VObj fields => inr (assoc k fields)
  | _ => inr VUndefined
  end.

(** Truthiness, as [if (v)] and [a && b] test it. *)
Definition truthy (v : value) : bool :=
  match v with
  | VUndefined | VNull | VNaN => false
  | VBool b => b
  | VNum q => negb (Qeq_bool q 0)
  | VStr s => negb (String.eqb s "")
  | VArr _ | VObj _ => true
  end.

(** [v === 0]. *)
Definition strict_eq_zero (v : value) : bool :=
  match v with VNum q => Qeq_bool q 0 | _ => false end.

(** [v === 'literal']. *)
Definition strict_eq_str (v : value) (lit : string) : bool :=
  match v with VStr s => String.eqb s lit | _ => false end.

Definition rbind {A B} (m : Exc A) (k : A -> Exc B) : Exc B :=
  match m with
  | inl e => inl e
  | inr a => k a
  end.

Declare Scope exc_scope.
Delimit Scope exc_scope with exc.
Notation "'let?' x ':=' m 'in' k" := (rbind m (fun x => k))
  (at level 10, x name, m at level 100, k at level 200) : exc_scope.
Local Open Scope exc_scope.

(** ** M-Pesa: [MPESAService.processCallback] *)

Record CallbackResult := mkCallbackResult {
  cb_success : bool;
  merchantRequestID : value;
  checkoutRequestID : value;
  resultCode : value;
  resultDescription : value;
  cb_amount : value;
  mpesaReceiptNumber : value;
  transactionDate : value;
  phoneNumber : value
}.

(** The body of the [forEach] callback: one metadata item applied to [result]. *)
Definition apply_item (result : CallbackResult) (item : value) : Exc CallbackResult :=
  let? name := get item "Name" in
  if strict_eq_str name "Amount" then
    let? v := get item "Value" in
    inr (mkCallbackResult (cb_success result) (merchantRequestID result)
           (checkoutRequestID result) (resultCode result) (resultDescription result)
           v (mpesaReceiptNumber result) (transactionDate result) (phoneNumber result))
  else if strict_eq_str name "MpesaReceiptNumber" then
    let? v := get item "Value" in
    inr (mkCallbackResult (cb_success result) (merchantRequestID result)
           (checkoutRequestID result) (resultCode result) (resultDescription result)
           (cb_amount result) v (transactionDate result) (phoneNumber result))
  else if strict_eq_str name "TransactionDate" then
    let? v := get item "Value" in
    inr (mkCallbackResult (cb_success result) (merchantRequestID result)
           (checkoutRequestID result) (resultCode result) (resultDescription result)
           (cb_amount result) (mpesaReceiptNumber result) v (phoneNumber result))
  else if strict_eq_str name "PhoneNumber" then
    let? v := get item "Value" in
    inr (mkCallbackResult (cb_success result) (merchantRequestID result)
           (checkoutRequestID result) (resultCode result) (resultDescription result)
           (cb_amount result) (mpesaReceiptNumber result) (transactionDate result) v)
  else inr result.

(** [items.forEach(...)] over an array. *)
Fixpoint forEach_items (items : list value) (result : CallbackResult) : Exc CallbackResult :=
  match items with
  | [] => inr result
  | item :: rest =>
      let? result' := apply_item result item in
      forEach_items rest result'
  end.

Definition processCallback (callbackData : value) : Exc CallbackResult :=
  let? Body := get callbackData "Body" in
  let? stkCallback := get Body "stkCallback" in
  let? ResultCode := get stkCallback "ResultCode" in
  let? MerchantRequestID := get stkCallback "MerchantRequestID" in
  let? CheckoutRequestID := get stkCallback "CheckoutRequestID" in
  let? ResultDesc := get stkCallback "ResultDesc" in
  let result :=
    mkCallbackResult (strict_eq_zero ResultCode) MerchantRequestID CheckoutRequestID
      ResultCode ResultDesc VUndefined VUndefined VUndefined VUndefined in
  let? CallbackMetadata := get stkCallback "CallbackMetadata" in
  if (strict_eq_zero ResultCode && truthy CallbackMetadata)%bool then
    let? items := get CallbackMetadata "Item" in
    match items with
    | VArr l => forEach_items l result
    | _ => inl TypeError       (* [items.forEach] is not a function *)
    end
  else inr result.

(** ** Paystack: [PaystackService.processWebhook] *)

Record WebhookResult := mkWebhookResult {
  wh_event : value;
  wh_success : bool;
  wh_reference : value;
  wh_amount : value;
  wh_status : value;
  paidAt : value;
  customer : value;
  authorization : value
}.

Section Paystack_parser.

(** The operator [/] of the language on arbitrary operands, with its
    coercion of strings, arrays and objects to numbers. *)
Variable js_div : value -> value -> value.

Definition processWebhook (payload : value) : Exc WebhookResult :=
  let? event := get payload "event" in
  let? data := get payload "data" in
  let? status := get data "status" in
  let? reference := get data "reference" in
  let? amount := get data "amount" in
  let? paid_at := get data "paid_at" in
  let? customer := get data "customer" in
  let? authorization := get data "authorization" in
  inr (mkWebhookResult event (strict_eq_str status "success") reference
         (js_div amount (VNum 100)) status paid_at customer authorization).

End Paystack_parser.

(* ================================================================== *)
(** * Part IV. The ledger documents and the world the handlers act on *)
(* ================================================================== *)

Inductive PaymentMethod := mpesa | card.
Inductive PaymentStatus := ps_pending | ps_success | ps_failed.
Inductive Provider := prov_mpesa | prov_paystack.
Inductive TransactionStatus :=
  ts_initiated | ts_pending | ts_success | ts_failed | ts_cancelled.

Definition PaymentStatus_eqb (a b : PaymentStatus) : bool :=
  match a, b with
  | ps_pending, ps_pending | ps_success, ps_success | ps_failed, ps_failed => true
  | _, _ => false
  end.

(** [IContribution], without the currency and the free-text message, which
    the payment path never reads.  [mpesaReceiptNumber] holds the value the
    path holds once the assigned value is cast ([null] by default). *)
Record Contribution := mkContribution {
  contribution_id : ObjectId;
  userId : option ObjectId;
  campaignId : ObjectId;
  amount : Q;
  paymentMethod : PaymentMethod;
  paymentStatus : PaymentStatus;
  paymentReference : string;
  transactionId : option string;
  contribution_mpesaReceiptNumber : value;
  isAnonymous : bool;
  guestEmail : option string;
  guestName : option string
}.

(** [ITransaction].  [errorMessage] holds the value of the path, as for the
    receipt number above. *)
Record Transaction := mkTransaction {
  transaction_id : ObjectId;
  contributionId : ObjectId;
  provider : Provider;
  transactionReference : string;
  transaction_amount : Q;
  transaction_status : TransactionStatus;
  providerResponse : value;
  callbackData : value;
  errorMessage : value
}.

(** Modelled from the spec: [models/User.ts] is not among the sources.  The
    reconciliation step resolves a donor display name as "the linked user's
    name", so a user is an identity and a name. *)
Record User := mkUser {
  user_id : ObjectId;
  name : string
}.

(** ** Collections *)

Section Collection.
Context {Doc : Type} (id_of : Doc -> ObjectId).

(** [Model.findOne(filter)]. *)
Definition findOne (filter : Doc -> bool) (docs : list Doc) : option Doc :=
  List.find filter docs.

(** [Model.findById(id)]. *)
Definition findById (id : ObjectId) (docs : list Doc) : option Doc :=
  findOne (fun d => String.eqb (id_of d) id) docs.

(** [doc.save()] for a document loaded from the collection. *)
Definition save (doc : Doc) (docs : list Doc) : list Doc :=
  List.map (fun d => if String.eqb (id_of d) (id_of doc) then doc else d) docs.

(** [Model.countDocuments(filter)]. *)
Definition countDocuments (filter : Doc -> bool) (docs : list Doc) : nat :=
  List.length (List.filter filter docs).
End Collection.

(** ** Socket events and console entries *)

(** The payloads broadcast to a campaign room; the [timestamp] field is not
    represented. *)
Inductive socket_event :=
| campaign_updated (room : string) (campaign : ObjectId) (current : Q)
    (percentage : Z) (contributed : Q) (anonymous : bool) (donorName : option string)
| new_contribution (room : string) (campaign : ObjectId) (contributed : Q)
    (anonymous : bool) (donorName : option string) (method : string)
| campaign_completed (room : string) (campaign : ObjectId) (goal : Q)
    (current : Q) (totalContributions : nat).

Inductive log_entry :=
| LogInfo (label : string) (detail : value)
| LogWarn (label : string)
| LogError (label : string) (detail : value)
| LogException (label : string) (e : js_error).

(** ** The world *)

Record World := mkWorld {
  transactions : list Transaction;
  contributions : list Contribution;
  campaigns : list Campaign;
  users : list User;
  io : bool;                     (* [socketService.io] is not [null] *)
  emitted : list socket_event;   (* broadcasts, oldest first *)
  console : list log_entry       (* console output, oldest first *)
}.

Record Response := mkResponse {
  statusCode : Z;
  json : value
}.

(** ** The handler monad: state and exceptions *)

Definition M (A : Type) := World -> World * Exc A.

Definition ret {A} (a : A) : M A := fun w => (w, inr a).

Definition bind {A B} (m : M A) (k : A -> M B) : M B :=
  fun w =>
    match m w with
    | (w', inl e) => (w', inl e)
    | (w', inr a) => k a w'
    end.

(** A pure computation that may throw, run inside a handler. *)
Definition lift {A} (r : Exc A) : M A := fun w => (w, r).

(** [try { body } catch (error) { handler(error) }]. *)
Definition try_catch {A} (body : M A) (handler : js_error -> M A) : M A :=
  fun w =>
    match body w with
    | (w', inl e) => handler e w'
    | (w', inr a) => (w', inr a)
    end.

Declare Scope handler_scope.
Delimit Scope handler_scope with handler.
Notation "x <- m ;; k" := (bind m (fun x => k))
  (at level 61, m at next level, right associativity) : handler_scope.
Notation "m ;; k" := (bind m (fun _ => k))
  (at level 61, right associativity) : handler_scope.
Local Open Scope handler_scope.

Definition console_write (e : log_entry) : M unit :=
  fun w => (mkWorld (transactions w) (contributions w) (campaigns w) (users w)
              (io w) (emitted w) (console w ++ [e]), inr tt).

Definition broadcast (ev : socket_event) : M unit :=
  fun w => (mkWorld (transactions w) (contributions w) (campaigns w) (users w)
              (io w) (emitted w ++ [ev]) (console w), inr tt).

Definition socket_ready : M bool := fun w => (w, inr (io w)).

(** [res.status(code).json(body)]. *)
Definition respond (code : Z) (body : value) : M Response :=
  ret (mkResponse code body).

(** *** The object mapper on String paths

    [transactionReference], [errorMessage] and [mpesaReceiptNumber] are
    declared [String] in the schemas, and the handlers hand values of the
    request body to them unchecked. *)
Record Mongoose := mkMongoose {
  (** the filter [{ path: v }] for a [v] that is not a string: the test it
      applies to the stored string (an operator object such as
      [{ $ne: x }] selects documents), or the error its cast throws *)
  filter_String : value -> Exc (string -> bool);
  (** the assignment [doc.path = v] for a [v] that is not a string: the
      value the path then holds, or [None] when [v] cannot be cast, which
      makes the next [save()] reject *)
  cast_String : value -> option value
}.

Section Reconciliation.

Variable mongoose : Mongoose.

(** *** Store operations *)

(** The filter [{ transactionReference: token }] as a test on the stored
    reference. *)
Definition reference_filter (token : value) : Exc (string -> bool) :=
  match token with
  | VStr s => inr (fun reference => String.eqb reference s)
  | _ => filter_String mongoose token
  end.

(** The document [findOne({ transactionReference: token })] returns from a
    list of transactions. *)
Definition Transaction_lookup (token : value) (ts : list Transaction)
    : Exc (option Transaction) :=
  let? selects := reference_filter token in
  inr (findOne (fun t => selects (transactionReference t)) ts).

(** [Transaction.findOne({ transactionReference: token }).populate('contributionId')].
    The populated contribution is only ever used through its [_id]. *)
Definition Transaction_findOne (token : value) : M (option Transaction) :=
  fun w => (w, Transaction_lookup token (transactions w)).

(** [doc.path = v] on a String path: the value the path then holds, or the
    validation error that [save()] reports for it.  The handlers call
    [save()] right after the assignment, so the error is raised here. *)
Definition set_String (path : string) (v : value) : Exc value :=
  match v with
  | VStr s => inr (VStr s)
  | _ =>
      match cast_String mongoose v with
      | Some stored => inr stored
      | None => inl (MongooseError path)
      end
  end.

Definition Transaction_save (t : Transaction) : M unit :=
  fun w => (mkWorld (save transaction_id t (transactions w)) (contributions w)
              (campaigns w) (users w) (io w) (emitted w) (console w), inr tt).

Definition Contribution_findById (id : ObjectId) : M (option Contribution) :=
  fun w => (w, inr (findById contribution_id id (contributions w))).

Definition Contribution_save (c : Contribution) : M unit :=
  fun w => (mkWorld (transactions w) (save contribution_id c (contributions w))
              (campaigns w) (users w) (io w) (emitted w) (console w), inr tt).

(** [Contribution.countDocuments({ campaignId, paymentStatus: 'success' })]. *)
Definition successful_for (campaign : ObjectId) (c : Contribution) : bool :=
  (String.eqb (campaignId c) campaign && PaymentStatus_eqb (paymentStatus c) ps_success)%bool.

Definition Contribution_countSuccessful (campaign : ObjectId) : M nat :=
  fun w => (w, inr (countDocuments (successful_for campaign) (contributions w))).

Definition Campaign_findById (id : ObjectId) : M (option Campaign) :=
  fun w => (w, inr (findById campaign_id id (campaigns w))).

Definition Campaign_save (c : Campaign) : M unit :=
  fun w => (mkWorld (transactions w) (contributions w)
              (save campaign_id c (campaigns w)) (users w) (io w) (emitted w)
              (console w), inr tt).

Definition User_findById (id : ObjectId) : M (option User) :=
  fun w => (w, inr (findById user_id id (users w))).

(* ================================================================== *)
(** * Part V. The live progress notifier ([SocketService]) *)
(* ================================================================== *)

Definition roomName (campaign : ObjectId) : string := "campaign-" ++ campaign.

(** An optional string as a JavaScript value. *)
Definition optional (o : option string) : value :=
  match o with Some s => VStr s | None => VUndefined end.

(** The console messages are those of the source without the pictograph
    that opens each of them. *)

Definition emitCampaignUpdate (campaign : ObjectId) (current : Q) (percentage : Z)
    (contributed : Q) (anonymous : bool) (donorName : option string) : M unit :=
  ready <- socket_ready ;;
  if negb ready then
    console_write (LogWarn "Socket.IO not initialized. Cannot emit campaign update.")
  else
    broadcast (campaign_updated (roomName campaign) campaign current percentage
                 contributed anonymous donorName) ;;
    console_write
      (LogInfo ("Emitted campaign update to room: " ++ roomName campaign)
         (VObj [("campaignId", VStr campaign);
                ("currentAmount", VNum current);
                ("completionPercentage", VNum (inject_Z percentage))])).

Definition emitNewContribution (campaign : ObjectId) (contributed : Q)
    (anonymous : bool) (donorName : option string) (method : string) : M unit :=
  ready <- socket_ready ;;
  if negb ready then
    console_write (LogWarn "Socket.IO not initialized. Cannot emit new contribution.")
  else
    broadcast (new_contribution (roomName campaign) campaign contributed anonymous
                 donorName method) ;;
    console_write
      (LogInfo ("Emitted new contribution to room: " ++ roomName campaign)
         (VObj [("amount", VNum contributed);
                ("isAnonymous", VBool anonymous);
                ("donorName", optional donorName);
                ("paymentMethod", VStr method)])).

Definition emitCampaignCompleted (campaign : ObjectId) (goal current : Q)
    (totalContributions : nat) : M unit :=
  ready <- socket_ready ;;
  if negb ready then
    console_write (LogWarn "Socket.IO not initialized. Cannot emit campaign completion.")
  else
    broadcast (campaign_completed (roomName campaign) campaign goal current
                 totalContributions) ;;
    console_write
      (LogInfo ("Emitted campaign completion to room: " ++ roomName campaign)
         VUndefined).

(* ================================================================== *)
(** * Part VI. Reconciliation: the three handlers *)
(* ================================================================== *)

(** ** Field assignments on loaded documents *)

Definition with_currentAmount (c : Campaign) (a : Q) : Campaign :=
  mkCampaign (campaign_id c) (title c) (goalAmount c) a (status c).

Definition with_status (c : Campaign) (s : CampaignStatus) : Campaign :=
  mkCampaign (campaign_id c) (title c) (goalAmount c) (currentAmount c) s.

Definition with_paymentStatus (c : Contribution) (s : PaymentStatus) : Contribution :=
  mkContribution (contribution_id c) (userId c) (campaignId c) (amount c)
    (paymentMethod c) s (paymentReference c) (transactionId c)
    (contribution_mpesaReceiptNumber c) (isAnonymous c) (guestEmail c) (guestName c).

Definition with_mpesaReceiptNumber (c : Contribution) (v : value) : Contribution :=
  mkContribution (contribution_id c) (userId c) (campaignId c) (amount c)
    (paymentMethod c) (paymentStatus c) (paymentReference c) (transactionId c)
    v (isAnonymous c) (guestEmail c) (guestName c).

Definition with_transactionId (c : Contribution) (s : string) : Contribution :=
  mkContribution (contribution_id c) (userId c) (campaignId c) (amount c)
    (paymentMethod c) (paymentStatus c) (paymentReference c) (Some s)
    (contribution_mpesaReceiptNumber c) (isAnonymous c) (guestEmail c) (guestName c).

Definition with_transaction_status (t : Transaction) (s : TransactionStatus) : Transaction :=
  mkTransaction (transaction_id t) (contributionId t) (provider t)
    (transactionReference t) (transaction_amount t) s (providerResponse t)
    (callbackData t) (errorMessage t).

Definition with_callbackData (t : Transaction) (v : value) : Transaction :=
  mkTransaction (transaction_id t) (contributionId t) (provider t)
    (transactionReference t) (transaction_amount t) (transaction_status t)
    (providerResponse t) v (errorMessage t).

Definition with_errorMessage (t : Transaction) (v : value) : Transaction :=
  mkTransaction (transaction_id t) (contributionId t) (provider t)
    (transactionReference t) (transaction_amount t) (transaction_status t)
    (providerResponse t) (callbackData t) v.

(** [transaction.errorMessage = v] and [contribution.mpesaReceiptNumber = v]
    for a value of the request body.  The handlers call [save()] right after
    these assignments, and it is [save()] that rejects when the cast failed:
    nothing is written then. *)
Definition set_errorMessage (t : Transaction) (v : value) : M Transaction :=
  lift (let? stored := set_String "errorMessage" v in
        inr (with_errorMessage t stored)).

Definition set_mpesaReceiptNumber (c : Contribution) (v : value) : M Contribution :=
  lift (let? stored := set_String "mpesaReceiptNumber" v in
        inr (with_mpesaReceiptNumber c stored)).

(** [n || 0] on a number. *)
Definition or_zero (n : Z) : Z := if Z.eqb n 0 then 0%Z else n.

(** The donor display name of the handlers:
    [if (!isAnonymous) { if (userId) donorName = user?.name; else donorName = guestName }]. *)
Definition resolveDonorName (contribution : Contribution) : M (option string) :=
  if negb (isAnonymous contribution) then
    match userId contribution with
    | Some uid =>
        user <- User_findById uid ;;
        ret (option_map name user)
    | None => ret (guestName contribution)
    end
  else ret None.

(** ** The block run on a successful outcome once the campaign is loaded

    The three handlers repeat it word for word; they differ in the payment
    method they announce and in their closing console line. *)
Definition creditCampaign (method : string) (closing : Campaign -> log_entry)
    (contribution : Contribution) (campaign : Campaign) : M unit :=
  let campaign :=
    with_currentAmount campaign
      (add64 (currentAmount campaign) (amount contribution)) in
  Campaign_save campaign ;;
  donorName <- resolveDonorName contribution ;;
  emitCampaignUpdate (campaign_id campaign) (currentAmount campaign)
    (or_zero (completionPercentage campaign))
    (amount contribution) (isAnonymous contribution) donorName ;;
  emitNewContribution (campaign_id campaign) (amount contribution)
    (isAnonymous contribution) donorName method ;;
  campaign <-
    (if (Qle_bool (goalAmount campaign) (currentAmount campaign)
         && negb (CampaignStatus_eqb (status campaign) completed))%bool
     then
       let campaign := with_status campaign completed in
       Campaign_save campaign ;;
       totalContributions <- Contribution_countSuccessful (campaign_id campaign) ;;
       emitCampaignCompleted (campaign_id campaign) (goalAmount campaign)
         (currentAmount campaign) totalContributions ;;
       ret campaign
     else ret campaign) ;;
  console_write (closing campaign).

Definition closing_with_percentage (campaign : Campaign) : log_entry :=
  LogInfo "Campaign updated:"
    (VObj [("campaignId", VStr (campaign_id campaign));
           ("newAmount", VNum (currentAmount campaign));
           ("completionPercentage", VNum (inject_Z (completionPercentage campaign)))]).

Definition closing_webhook (campaign : Campaign) : log_entry :=
  LogInfo "Campaign updated via webhook:"
    (VObj [("campaignId", VStr (campaign_id campaign));
           ("newAmount", VNum (currentAmount campaign))]).

(** ** [handleMPESACallback] *)

Definition handleMPESACallback (body : value) : M Response :=
  try_catch
    (console_write (LogInfo "MPESA Callback received:" body) ;;
     callbackResult <- lift (processCallback body) ;;
     transaction <- Transaction_findOne (checkoutRequestID callbackResult) ;;
     match transaction with
     | None =>
         console_write (LogError "Transaction not found for CheckoutRequestID:"
                          (checkoutRequestID callbackResult)) ;;
         respond 404 (VObj [("ResultCode", VNum 1);
                            ("ResultDesc", VStr "Transaction not found")])
     | Some transaction =>
         let transaction :=
           with_transaction_status transaction
             (if cb_success callbackResult then ts_success else ts_failed) in
         let transaction := with_callbackData transaction body in
         transaction <-
           (if negb (cb_success callbackResult)
            then set_errorMessage transaction (resultDescription callbackResult)
            else ret transaction) ;;
         Transaction_save transaction ;;
         contribution <- Contribution_findById (contributionId transaction) ;;
         match contribution with
         | Some contribution =>
             let contribution :=
               with_paymentStatus contribution
                 (if cb_success callbackResult then ps_success else ps_failed) in
             contribution <-
               (if truthy (mpesaReceiptNumber callbackResult)
                then set_mpesaReceiptNumber contribution
                       (mpesaReceiptNumber callbackResult)
                else ret contribution) ;;
             Contribution_save contribution ;;
             if cb_success callbackResult then
               campaign <- Campaign_findById (campaignId contribution) ;;
               match campaign with
               | Some campaign =>
                   creditCampaign "mpesa" closing_with_percentage contribution campaign
               | None => ret tt
               end
             else ret tt
         | None => ret tt
         end ;;
         respond 200 (VObj [("ResultCode", VNum 0); ("ResultDesc", VStr "Accepted")])
     end)
    (fun error =>
       console_write (LogException "MPESA callback error:" error) ;;
       respond 500 (VObj [("ResultCode", VNum 1);
                          ("ResultDesc", VStr "Internal server error")])).

(** ** [verifyPaystackPayment] *)

(** The fields of [VerifyTransactionResponse['data']] that the handler
    reads, and the whole object as it is stored in [callbackData]. *)
Record VerifyData := mkVerifyData {
  vd_id : Z;
  vd_status : string;
  vd_reference : string;
  vd_amount : Q;
  gateway_response : string;
  paid_at : string;
  vd_object : value
}.

(** [n.toString()] on an integer. *)
Definition toString (n : Z) : string := NilZero.string_of_int (Z.to_int n).

Section Verify.

(** [paystackService.verifyTransaction]: the provider's answer for a
    reference, or the error the adapter throws when the call fails.  The
    adapter's own console lines are not represented. *)
Variable verifyTransaction : string -> Exc VerifyData.

Definition verifyPaystackPayment (reference : string) : M Response :=
  try_catch
    (verificationResult <- lift (verifyTransaction reference) ;;
     let succeeded := String.eqb (vd_status verificationResult) "success" in
     transaction <- Transaction_findOne (VStr reference) ;;
     match transaction with
     | None =>
         respond 404 (VObj [("success", VBool false);
                            ("message", VStr "Transaction not found.")])
     | Some transaction =>
         let transaction :=
           with_transaction_status transaction
             (if succeeded then ts_success else ts_failed) in
         let transaction := with_callbackData transaction (vd_object verificationResult) in
         let transaction :=
           if negb succeeded
           then with_errorMessage transaction (VStr (gateway_response verificationResult))
           else transaction in
         Transaction_save transaction ;;
         contribution <- Contribution_findById (contributionId transaction) ;;
         contribution <-
           match contribution with
           | Some contribution =>
               let contribution :=
                 with_paymentStatus contribution
                   (if succeeded then ps_success else ps_failed) in
               let contribution :=
                 with_transactionId contribution (toString (vd_id verificationResult)) in
               Contribution_save contribution ;;
               (if succeeded then
                  campaign <- Campaign_findById (campaignId contribution) ;;
                  match campaign with
                  | Some campaign =>
                      creditCampaign "card" closing_with_percentage contribution campaign
                  | None => ret tt
                  end
                else ret tt) ;;
               ret (Some contribution)
           | None => ret None
           end ;;
         respond 200
           (VObj [("success", VBool true);
                  ("message", VStr (if succeeded then "Payment successful!"
                                    else "Payment failed"));
                  ("data",
                   VObj [("status", VStr (vd_status verificationResult));
                         ("amount", VNum (div64 (vd_amount verificationResult) 100));
                         ("reference", VStr (vd_reference verificationResult));
                         ("paid_at", VStr (paid_at verificationResult));
                         ("contributionId",
                          match contribution with
                          | Some c => VStr (contribution_id c)
                          | None => VUndefined
                          end)])])
     end)
    (fun error =>
       console_write (LogException "Verify Paystack payment error:" error) ;;
       respond 500 (VObj [("success", VBool false);
                          ("message", VStr "Failed to verify payment.")])).

End Verify.

(** ** [handlePaystackWebhook] *)

Section Webhook.

Variable js_div : value -> value -> value.

Definition handlePaystackWebhook (body : value) : M Response :=
  try_catch
    (console_write (LogInfo "Paystack Webhook received:" body) ;;
     webhookResult <- lift (processWebhook js_div body) ;;
     if negb (strict_eq_str (wh_event webhookResult) "charge.success") then
       respond 200 (VObj [("status", VStr "ignored")])
     else
       transaction <- Transaction_findOne (wh_reference webhookResult) ;;
       match transaction with
       | None =>
           console_write (LogError "Transaction not found for reference:"
                            (wh_reference webhookResult)) ;;
           respond 404 (VObj [("status", VStr "transaction not found")])
       | Some transaction =>
           let transaction :=
             with_transaction_status transaction
               (if wh_success webhookResult then ts_success else ts_failed) in
           let transaction := with_callbackData transaction body in
           Transaction_save transaction ;;
           contribution <- Contribution_findById (contributionId transaction) ;;
           match contribution with
           | Some contribution =>
               let contribution :=
                 with_paymentStatus contribution
                   (if wh_success webhookResult then ps_success else ps_failed) in
               Contribution_save contribution ;;
               if wh_success webhookResult then
                 campaign <- Campaign_findById (campaignId contribution) ;;
                 match campaign with
                 | Some campaign =>
                     creditCampaign "card" closing_webhook contribution campaign
                 | None => ret tt
                 end
               else ret tt
           | None => ret tt
           end ;;
           respond 200 (VObj [("status", VStr "success")])
       end)
    (fun error =>
       console_write (LogException "Paystack webhook error:" error) ;;
       respond 500 (VObj [("status", VStr "error")])).

End Webhook.

(** ** One name for the three ways reconciliation is invoked *)

Inductive trigger :=
| MpesaCallback (body : value)
| PaystackVerify (verifyTransaction : string -> Exc VerifyData) (reference : string)
| PaystackWebhook (js_div : value -> value -> value) (body : value).

Definition reconcile (t : trigger) : M Response :=
  match t with
  | MpesaCallback body => handleMPESACallback body
  | PaystackVerify verifyTransaction reference =>
      verifyPaystackPayment verifyTransaction reference
  | PaystackWebhook js_div body => handlePaystackWebhook js_div body
  end.


(* ================================================================== *)
(** * Part VII. Derived notions used to state the properties *)
(* ================================================================== *)

(** The donor name [resolveDonorName] computes, read off the user list. *)
Definition donor_of (k : Contribution) (us : list User) : option string :=
  if isAnonymous k then None
  else match userId k with
       | Some uid => option_map name (findById user_id uid us)
       | None => guestName k
       end.

(** The campaign after the credit of [k]. *)
Definition credited (k : Contribution) (c : Campaign) : Campaign :=
  with_currentAmount c (add64 (currentAmount c) (amount k)).

(** The completion test of the handlers, on the credited campaign. *)
Definition goal_reached (k : Contribution) (c : Campaign) : bool :=
  (Qle_bool (goalAmount c) (add64 (currentAmount c) (amount k))
   && negb (CampaignStatus_eqb (status c) completed))%bool.

(** The document the credit block leaves on file for the campaign. *)
Definition settled (k : Contribution) (c : Campaign) : Campaign :=
  if goal_reached k c then with_status (credited k c) completed else credited k c.

Definition campaigns_credited (k : Contribution) (c : Campaign)
    (cs : list Campaign) : list Campaign :=
  if goal_reached k c
  then save campaign_id (with_status (credited k c) completed)
         (save campaign_id (credited k c) cs)
  else save campaign_id (credited k c) cs.

Definition events_credited (method : string) (k : Contribution) (c : Campaign)
    (us : list User) (ks : list Contribution) : list socket_event :=
  [ campaign_updated (roomName (campaign_id c)) (campaign_id c)
      (add64 (currentAmount c) (amount k))
      (or_zero (completionPercentage (credited k c)))
      (amount k) (isAnonymous k) (donor_of k us);
    new_contribution (roomName (campaign_id c)) (campaign_id c) (amount k)
      (isAnonymous k) (donor_of k us) method ]
  ++ (if goal_reached k c
      then [ campaign_completed (roomName (campaign_id c)) (campaign_id c)
               (goalAmount c) (add64 (currentAmount c) (amount k))
               (countDocuments (successful_for (campaign_id c)) ks) ]
      else []).




(** Two contributions that differ at most in the fields reconciliation
    writes: payment status, provider transaction id and receipt number. *)
Definition same_pledge (k k' : Contribution) : Prop :=
  contribution_id k' = contribution_id k /\ userId k' = userId k /\
  campaignId k' = campaignId k /\ amount k' = amount k /\
  paymentMethod k' = paymentMethod k /\ paymentReference k' = paymentReference k /\
  isAnonymous k' = isAnonymous k /\ guestEmail k' = guestEmail k /\
  guestName k' = guestName k.


(** The same ledger: the four collections agree. *)
Definition same_ledger (w w' : World) : Prop :=
  transactions w' = transactions w /\ contributions w' = contributions w /\
  campaigns w' = campaigns w /\ users w' = users w.

(** ** A worked scenario

    One campaign, one pending guest contribution towards it and the
    provider transaction opened for that contribution. *)

Definition demo_campaign (goal : Q) : Campaign :=
  mkCampaign "c1" "Roof fund" goal 0 active.

Definition demo_contribution (anonymous : bool) : Contribution :=
  mkContribution "k1" None "c1" 1000 mpesa ps_pending "ws_CO_1" None VNull
    anonymous (Some "guest@example.org") (Some "Wanjiru").

Definition demo_transaction : Transaction :=
  mkTransaction "t1" "k1" prov_mpesa "ws_CO_1" 1000 ts_pending
    (VObj [("ResponseCode", VStr "0")]) VNull VNull.

Definition demo_world (goal : Q) (anonymous : bool) : World :=
  mkWorld [demo_transaction] [demo_contribution anonymous] [demo_campaign goal]
    [] true [] [].

(** An object mapper that takes strings only, for running the handlers on
    notifications that carry strings ([plain]), where the choice of the
    mapper does not matter. *)
Definition strings_only : Mongoose :=
  mkMongoose (fun _ => inl (MongooseError "transactionReference")) (fun _ => None).

(** An M-Pesa callback for checkout request [token] with result code [code]. *)
Definition stk_callback (token : string) (code : Q) : value :=
  VObj [("Body",
    VObj [("stkCallback",
      VObj [("MerchantRequestID", VStr "29115-34620561-1");
            ("CheckoutRequestID", VStr token);
            ("ResultCode", VNum code);
            ("ResultDesc", VStr "The service request is processed.");
            ("CallbackMetadata",
             VObj [("Item",
               VArr [VObj [("Name", VStr "Amount"); ("Value", VNum 1000)];
                     VObj [("Name", VStr "MpesaReceiptNumber"); ("Value", VStr "NLJ7RT61SV")];
                     VObj [("Name", VStr "PhoneNumber"); ("Value", VNum 254703757369)]])])])])].

(** A Paystack webhook body. *)
Definition paystack_event (event reference status : string) : value :=
  VObj [("event", VStr event);
        ("data", VObj [("id", VNum 302961); ("status", VStr status);
                       ("reference", VStr reference); ("amount", VNum 100000)])].

(** A division that is right on numbers, for running the webhook parser. *)
Definition num_div (a b : value) : value :=
  match a, b with
  | VNum x, VNum y => if Qeq_bool y 0 then VNaN else VNum (div64 x y)
  | _, _ => VNaN
  end.

(** A provider answer for the verify endpoint. *)
Definition demo_verification (status : string) (reference : string) : Exc VerifyData :=
  inr (mkVerifyData 302961 status reference 100000 "Declined" "2026-01-05T10:00:00.000Z"
         (VObj [("id", VNum 302961); ("status", VStr status)])).

(** ** Shapes of the two notification payloads

    [STKPushCallbackResponse] and [WebhookPayload] as the services declare
    them, restricted for the webhook to the fields [processWebhook] reads.
    The declarations are compile-time only; nothing checks them at run time. *)

Definition is_string (v : value) : bool :=
  match v with VStr _ => true | _ => false end.

Definition is_number (v : value) : bool :=
  match v with VNum _ => true | _ => false end.

(** The notification of [t] hands strings only to the object mapper: its
    token is a string, and so is the value it assigns to a String path, if
    it assigns one. *)
Definition plain (t : trigger) : bool :=
  match t with
  | MpesaCallback body =>
      match processCallback body with
      | inr r =>
          (is_string (checkoutRequestID r)
           && (if cb_success r
               then negb (truthy (mpesaReceiptNumber r))
                    || is_string (mpesaReceiptNumber r)
               else is_string (resultDescription r)))%bool
      | inl _ => true
      end
  | PaystackVerify _ _ => true
  | PaystackWebhook div body =>
      match processWebhook div body with
      | inr r =>
          (negb (strict_eq_str (wh_event r) "charge.success")
           || is_string (wh_reference r))%bool
      | inl _ => true
      end
  end.

Definition well_formed_item (v : value) : bool :=
  match v with
  | VObj item => is_string (assoc "Name" item)
  | _ => false
  end.

Definition well_formed_callback (v : value) : bool :=
  match v with
  | VObj top =>
      match assoc "Body" top with
      | VObj body =>
          match assoc "stkCallback" body with
          | VObj stk =>
              (is_string (assoc "MerchantRequestID" stk)
               && is_string (assoc "CheckoutRequestID" stk)
               && is_number (assoc "ResultCode" stk)
               && is_string (assoc "ResultDesc" stk)
               && match assoc "CallbackMetadata" stk with
                  | VUndefined => true
                  | VObj meta =>
                      match assoc "Item" meta with
                      | VArr items => List.forallb well_formed_item items
                      | _ => false
                      end
                  | _ => false
                  end)%bool
          | _ => false
          end
      | _ => false
      end
  | _ => false
  end.


(** ** Several calls in a row *)

Definition reconcile_all (calls : list trigger) (w : World) : World :=
  List.fold_left (fun w t => fst (reconcile t w)) calls w.




(* ================================================================== *)
(** * Part VII-b. More of the gateway adapters *)
(* ================================================================== *)

(** ** The phone-number pattern of the M-Pesa initiation schema

    [/^(\+?254|0)[17]\d{8}$/].  The three ways through the group start with
    different characters, so the match is decided by the prefix. *)

Definition is_1_or_7 (u : N) : bool := (N.eqb u 49 || N.eqb u 55)%bool.

(** [[17]\d{8}$] *)
Definition subscriber_part (s : jsstring) : bool :=
  match s with
  | c :: ds => (is_1_or_7 c && Nat.eqb (List.length ds) 8 && List.forallb is_digit ds)%bool
  | [] => false
  end.

Definition kenyan_phone (s : jsstring) : bool :=
  if startsWith (units "+254") s then subscriber_part (List.skipn 4 s)
  else if startsWith (units "254") s then subscriber_part (List.skipn 3 s)
  else if startsWith (units "0") s then subscriber_part (List.skipn 1 s)
  else false.

(** ** [MPESAService.generateTimestamp]

    The six readings of the [Date] object are the input. *)
Record DateParts := mkDateParts {
  getFullYear : Z;
  getMonth : Z;      (* 0 .. 11 *)
  getDate : Z;
  getHours : Z;
  getMinutes : Z;
  getSeconds : Z
}.

(** [s.padStart(2, '0')]. *)
Definition padStart2 (s : string) : string :=
  match String.length s with
  | O => "00"
  | S O => "0" ++ s
  | _ => s
  end.

Definition generateTimestamp (date : DateParts) : string :=
  let year := getFullYear date in
  let month := padStart2 (toString (getMonth date + 1)) in
  let day := padStart2 (toString (getDate date)) in
  let hour := padStart2 (toString (getHours date)) in
  let minute := padStart2 (toString (getMinutes date)) in
  let second := padStart2 (toString (getSeconds date)) in
  toString year ++ month ++ day ++ hour ++ minute ++ second.

(** A date of the common era with a four-digit year. *)
Definition plausible_date (d : DateParts) : bool :=
  ((1000 <=? getFullYear d) && (getFullYear d <=? 9999)
   && (0 <=? getMonth d) && (getMonth d <=? 11)
   && (1 <=? getDate d) && (getDate d <=? 31)
   && (0 <=? getHours d) && (getHours d <=? 23)
   && (0 <=? getMinutes d) && (getMinutes d <=? 59)
   && (0 <=? getSeconds d) && (getSeconds d <=? 59))%bool%Z.

Definition is_digit_char (a : ascii) : bool := is_digit (N_of_ascii a).

Definition all_digits (s : string) : bool :=
  List.forallb is_digit_char (list_ascii_of_string s).

(** ** The metadata of an M-Pesa callback, read as a table

    The value of the last item called [name], [undefined] when there is
    none: what the [forEach] of [processCallback] leaves in the field it
    assigns for that name. *)
Definition named (name : string) (item : value) : bool :=
  match get item "Name" with
  | inr n => strict_eq_str n name
  | inl _ => false
  end.

Definition value_of (item : value) : value :=
  match get item "Value" with
  | inr v => v
  | inl _ => VUndefined
  end.

Definition last_named (name : string) (items : list value) : value :=
  List.fold_left (fun found item => if named name item then value_of item else found)
    items VUndefined.

Definition is_object (v : value) : bool :=
  match v with VObj _ => true | _ => false end.

(** ** Addressing of the broadcasts *)

Definition event_room (e : socket_event) : string :=
  match e with
  | campaign_updated room _ _ _ _ _ _ => room
  | new_contribution room _ _ _ _ _ => room
  | campaign_completed room _ _ _ _ => room
  end.

Definition event_campaign (e : socket_event) : ObjectId :=
  match e with
  | campaign_updated _ campaign _ _ _ _ _ => campaign
  | new_contribution _ campaign _ _ _ _ => campaign
  | campaign_completed _ campaign _ _ _ => campaign
  end.

(* ================================================================== *)
(** * Part VII-c. Initiation, status and statistics *)
(* ================================================================== *)

(** ** What can be thrown on these paths *)

Inductive fault :=
| ZodError (issues : value)       (* [schema.parse] rejected the body *)
| CastError (given : string)      (* a string that is no ObjectId reached [findById] *)
| DuplicateKey (path : string)    (* a unique index is violated (code 11000) *)
| ValidatorError (path : string)  (* a schema validator of the document failed *)
| AxiosError (response_data : option value) (message : string)
                                  (* a rejected HTTP call, with [error.response?.data] *)
| PlainError (message : string).  (* [new Error(message)] *)

(** The libraries the handlers lean on, as far as their answers matter here.
    Nothing below depends on what these functions compute. *)
Record Library := mkLibrary {
  castable : string -> bool;          (* the string is accepted as an ObjectId *)
  is_email : string -> bool;          (* [z.string().email()] *)
  zod_issues : value -> value;        (* the issue list reported for a rejected body *)
  set_guestEmail : string -> string;  (* the [trim] and [lowercase] setters of the path *)
  set_guestName : string -> string;   (* the [trim] setter of the path *)
  js_String : value -> string;        (* [String(v)] for a value that is no string *)
  base64 : string -> string;          (* [Buffer.from(s).toString('base64')] *)
  library_message : fault -> string   (* [error.message] of an error the libraries throw *)
}.

(** The outcome of an HTTP call made through axios: the body of a 2xx
    answer, taken to have its declared type, or a rejection with the body of
    the error answer, if there was one, and the error's own message. *)
Inductive Http (A : Type) :=
| Answered (data : A)
| Refused (response_data : option value) (message : string).
#[global] Arguments Answered {A} data.
#[global] Arguments Refused {A} response_data message.

(** [STKPushResponse], and the object itself as it is stored. *)
Record STKPushResponse := mkSTKPushResponse {
  MerchantRequestID : string;
  CheckoutRequestID : string;
  ResponseCode : string;
  ResponseDescription : string;
  CustomerMessage : string;
  stk_object : value
}.

(** The M-Pesa settings of [env]. *)
Record MpesaEnv := mkMpesaEnv {
  MPESA_SHORTCODE : string;
  MPESA_PASSKEY : string;
  BACKEND_URL : string
}.

(** What a request reads from the clock and from the id generator. *)
Record Moment := mkMoment {
  Date_now : Z;                    (* [Date.now()] *)
  new_Date : DateParts;            (* [new Date()] *)
  contribution_oid : ObjectId;     (* the [_id] given to the new contribution *)
  transaction_oid : ObjectId       (* the [_id] given to the new transaction *)
}.

(** The body of the STK push request. *)
Record STKPushBody := mkSTKPushBody {
  BusinessShortCode : string;
  Password : string;
  Timestamp : string;
  TransactionType : string;
  Amount : Z;
  PartyA : jsstring;
  PartyB : string;
  PhoneNumber : jsstring;
  CallBackURL : string;
  AccountReference : string;
  TransactionDesc : string
}.

(** The validated body of an M-Pesa initiation. *)
Record MpesaInitiation := mkMpesaInitiation {
  in_campaignId : string;
  in_amount : Q;
  in_phoneNumber : string;
  in_isAnonymous : bool;
  in_guestEmail : option string;
  in_guestName : option string
}.

Definition string_of_units (s : jsstring) : string :=
  string_of_list_ascii (List.map ascii_of_N s).

Definition PaymentStatus_name (s : PaymentStatus) : string :=
  match s with
  | ps_pending => "pending"
  | ps_success => "success"
  | ps_failed => "failed"
  end.

Definition TransactionStatus_name (s : TransactionStatus) : string :=
  match s with
  | ts_initiated => "initiated"
  | ts_pending => "pending"
  | ts_success => "success"
  | ts_failed => "failed"
  | ts_cancelled => "cancelled"
  end.

(** ** Handlers that may throw a [fault] *)

Definition Action (A : Type) := World -> World * (fault + A).

Definition aret {A} (a : A) : Action A := fun w => (w, inr a).

Definition abind {A B} (m : Action A) (k : A -> Action B) : Action B :=
  fun w =>
    match m w with
    | (w', inl e) => (w', inl e)
    | (w', inr a) => k a w'
    end.

Definition throw {A} (e : fault) : Action A := fun w => (w, inl e).

(** [try { body } catch (error) { handler(error) }]. *)
Definition attempt {A} (body : Action A) (handler : fault -> Action A) : Action A :=
  fun w =>
    match body w with
    | (w', inl e) => handler e w'
    | (w', inr a) => (w', inr a)
    end.

Definition console_line (e : log_entry) : Action unit :=
  fun w => (mkWorld (transactions w) (contributions w) (campaigns w) (users w)
              (io w) (emitted w) (console w ++ [e]), inr tt).

Definition answer (code : Z) (body : value) : Action Response :=
  aret (mkResponse code body).

Declare Scope action_scope.
Delimit Scope action_scope with action.
Notation "x <- m ;; k" := (abind m (fun x => k))
  (at level 61, m at next level, right associativity) : action_scope.
Notation "m ;; k" := (abind m (fun _ => k))
  (at level 61, right associativity) : action_scope.

Section Requests.

Variable lib : Library.

Local Open Scope action_scope.

(** [error.message]. *)
Definition message_of (e : fault) : string :=
  match e with
  | PlainError message => message
  | AxiosError _ message => message
  | _ => library_message lib e
  end.

(** The message [new Error(v)] carries. *)
Definition as_message (v : value) : string :=
  match v with
  | VStr s => s
  | _ => js_String lib v
  end.

(** *** Store operations of these paths *)

(** [Campaign.findById(id)] for an id that comes from the request. *)
Definition Campaign_findById_given (id : string) : Action (option Campaign) :=
  fun w =>
    if castable lib id
    then (w, inr (findById campaign_id id (campaigns w)))
    else (w, inl (CastError id)).

(** [Contribution.findById(id)] for an id that comes from the request. *)
Definition Contribution_findById_given (id : string) : Action (option Contribution) :=
  fun w =>
    if castable lib id
    then (w, inr (findById contribution_id id (contributions w)))
    else (w, inl (CastError id)).

Definition has_contribution_id (id : ObjectId) (ks : list Contribution) : bool :=
  List.existsb (fun k => String.eqb (contribution_id k) id) ks.

Definition has_paymentReference (ref : string) (ks : list Contribution) : bool :=
  List.existsb (fun k => String.eqb (paymentReference k) ref) ks.

Definition has_transaction_id (id : ObjectId) (ts : list Transaction) : bool :=
  List.existsb (fun t => String.eqb (transaction_id t) id) ts.

Definition has_transactionReference (ref : string) (ts : list Transaction) : bool :=
  List.existsb (fun t => String.eqb (transactionReference t) ref) ts.

(** [Contribution.create(doc)]: the validators of the schema (a required
    payment reference, an amount of at least 10), then the insertion, which
    the unique indexes on [_id] and [paymentReference] may refuse. *)
Definition Contribution_create (k : Contribution) : Action Contribution :=
  fun w =>
    if String.eqb (paymentReference k) "" then (w, inl (ValidatorError "paymentReference"))
    else if negb (Qle_bool 10 (amount k)) then (w, inl (ValidatorError "amount"))
    else if has_contribution_id (contribution_id k) (contributions w)
    then (w, inl (DuplicateKey "_id"))
    else if has_paymentReference (paymentReference k) (contributions w)
    then (w, inl (DuplicateKey "paymentReference"))
    else (mkWorld (transactions w) (contributions w ++ [k]) (campaigns w) (users w)
            (io w) (emitted w) (console w), inr k).

(** [Transaction.create(doc)]: a required reference, a non-negative amount,
    unique [_id] and [transactionReference]. *)
Definition Transaction_create (t : Transaction) : Action Transaction :=
  fun w =>
    if String.eqb (transactionReference t) ""
    then (w, inl (ValidatorError "transactionReference"))
    else if negb (Qle_bool 0 (transaction_amount t))
    then (w, inl (ValidatorError "amount"))
    else if has_transaction_id (transaction_id t) (transactions w)
    then (w, inl (DuplicateKey "_id"))
    else if has_transactionReference (transactionReference t) (transactions w)
    then (w, inl (DuplicateKey "transactionReference"))
    else (mkWorld (transactions w ++ [t]) (contributions w) (campaigns w) (users w)
            (io w) (emitted w) (console w), inr t).

(** [contribution.save()] after its payment reference was assigned: the
    reference is required, and unique among the other contributions. *)
Definition Contribution_save_reference (k : Contribution) : Action unit :=
  fun w =>
    if String.eqb (paymentReference k) "" then (w, inl (ValidatorError "paymentReference"))
    else if List.existsb
              (fun other => (negb (String.eqb (contribution_id other) (contribution_id k))
                             && String.eqb (paymentReference other) (paymentReference k))%bool)
              (contributions w)
    then (w, inl (DuplicateKey "paymentReference"))
    else (mkWorld (transactions w) (save contribution_id k (contributions w))
            (campaigns w) (users w) (io w) (emitted w) (console w), inr tt).

(** [Transaction.findOne({ contributionId })]. *)
Definition Transaction_findOne_of (contribution : ObjectId) : Action (option Transaction) :=
  fun w => (w, inr (findOne (fun t => String.eqb (contributionId t) contribution)
                      (transactions w))).

Definition with_paymentReference (c : Contribution) (ref : string) : Contribution :=
  mkContribution (contribution_id c) (userId c) (campaignId c) (amount c)
    (paymentMethod c) (paymentStatus c) ref (transactionId c)
    (contribution_mpesaReceiptNumber c) (isAnonymous c) (guestEmail c) (guestName c).

(** *** [MPESAService]: token, password, STK push *)

(** [error.response?.data]. *)
Definition response_data_of (error : fault) : value :=
  match error with
  | AxiosError (Some data) _ => data
  | _ => VUndefined
  end.

(** [error.response?.data || error.message], what the adapters log. *)
Definition response_or_message (error : fault) : value :=
  if truthy (response_data_of error) then response_data_of error
  else VStr (message_of error).

(** [error.response?.data?.key]. *)
Definition response_field (error : fault) (key : string) : value :=
  match get (response_data_of error) key with
  | inr v => v
  | inl _ => VUndefined
  end.

(** [await axios...]: the answer, or the rejection thrown. *)
Definition await {A} (call : Http A) : Action A :=
  match call with
  | Answered data => aret data
  | Refused response_data message => throw (AxiosError response_data message)
  end.

Definition generateToken (token_call : Http string) : Action string :=
  attempt
    (access_token <- await token_call ;;
     aret access_token)
    (fun error =>
       console_line (LogError "MPESA token generation error:"
                       (response_or_message error)) ;;
       throw (PlainError "Failed to generate MPESA access token")).

Definition generatePassword (mpesa : MpesaEnv) (timestamp : string) : string :=
  base64 lib (MPESA_SHORTCODE mpesa ++ MPESA_PASSKEY mpesa ++ timestamp).

(** [STKPushRequest]. *)
Record STKPushRequest := mkSTKPushRequest {
  stk_phoneNumber : string;
  stk_amount : Q;
  accountReference : string;
  transactionDesc : string
}.

(** The [requestBody] of [initiateSTKPush]. *)
Definition stkPushBody (mpesa : MpesaEnv) (date : DateParts) (data : STKPushRequest)
    : STKPushBody :=
  let timestamp := generateTimestamp date in
  let password := generatePassword mpesa timestamp in
  let phoneNumber := formatPhoneNumber (units (stk_phoneNumber data)) in
  mkSTKPushBody (MPESA_SHORTCODE mpesa) password timestamp "CustomerPayBillOnline"
    (Math_round (stk_amount data)) phoneNumber (MPESA_SHORTCODE mpesa) phoneNumber
    (BACKEND_URL mpesa ++ "/api/payments/mpesa/callback")
    (accountReference data) (transactionDesc data).

(** The request as it is logged, [{ ...requestBody, Password: '[REDACTED]' }]. *)
Definition redacted (b : STKPushBody) : value :=
  VObj [("BusinessShortCode", VStr (BusinessShortCode b));
        ("Password", VStr "[REDACTED]");
        ("Timestamp", VStr (Timestamp b));
        ("TransactionType", VStr (TransactionType b));
        ("Amount", VNum (inject_Z (Amount b)));
        ("PartyA", VStr (string_of_units (PartyA b)));
        ("PartyB", VStr (PartyB b));
        ("PhoneNumber", VStr (string_of_units (PhoneNumber b)));
        ("CallBackURL", VStr (CallBackURL b));
        ("AccountReference", VStr (AccountReference b));
        ("TransactionDesc", VStr (TransactionDesc b))].

(** [initiateSTKPush].  [push_call] is the provider: the outcome of the
    POST of a request body. *)
Definition initiateSTKPush (mpesa : MpesaEnv) (date : DateParts)
    (token_call : Http string) (push_call : STKPushBody -> Http STKPushResponse)
    (data : STKPushRequest) : Action STKPushResponse :=
  attempt
    (token <- generateToken token_call ;;
     let requestBody := stkPushBody mpesa date data in
     console_line (LogInfo "MPESA STK Push Request:" (redacted requestBody)) ;;
     response <- await (push_call requestBody) ;;
     console_line (LogInfo "MPESA STK Push Response:" (stk_object response)) ;;
     aret response)
    (fun error =>
       console_line (LogError "MPESA STK Push error:" (response_or_message error)) ;;
       throw (PlainError
                (if truthy (response_field error "errorMessage")
                 then as_message (response_field error "errorMessage")
                 else "Failed to initiate MPESA payment"))).

(** *** The schema of the M-Pesa initiation,
    [initiateMPESAPaymentSchema.parse] *)

(** [z.string().min(1)]. *)
Definition nonempty_string (v : value) : option string :=
  match v with
  | VStr s => if String.eqb s "" then None else Some s
  | _ => None
  end.

(** [z.number().min(10)]. *)
Definition number_min_10 (v : value) : option Q :=
  match v with
  | VNum q => if Qle_bool 10 q then Some q else None
  | _ => None
  end.

(** [z.string().regex(/^(\+?254|0)[17]\d{8}$/)]. *)
Definition phone_string (v : value) : option string :=
  match v with
  | VStr s => if kenyan_phone (units s) then Some s else None
  | _ => None
  end.

(** [z.boolean().optional().default(false)]. *)
Definition boolean_default_false (v : value) : option bool :=
  match v with
  | VUndefined => Some false
  | VBool b => Some b
  | _ => None
  end.

(** [z.string().email()]. *)
Definition email_string (v : value) : option string :=
  match v with
  | VStr s => if is_email lib s then Some s else None
  | _ => None
  end.

(** [schema.optional()]. *)
Definition optional_of {A} (schema : value -> option A) (v : value) : option (option A) :=
  match v with
  | VUndefined => Some None
  | _ => option_map Some (schema v)
  end.

Definition initiateMPESAPaymentSchema (body : value) : option MpesaInitiation :=
  match body with
  | VObj fields =>
      match nonempty_string (assoc "campaignId" fields),
            number_min_10 (assoc "amount" fields),
            phone_string (assoc "phoneNumber" fields),
            boolean_default_false (assoc "isAnonymous" fields),
            optional_of email_string (assoc "guestEmail" fields),
            optional_of nonempty_string (assoc "guestName" fields) with
      | Some campaign, Some amount, Some phone, Some anonymous, Some email, Some name =>
          Some (mkMpesaInitiation campaign amount phone anonymous email name)
      | _, _, _, _, _, _ => None
      end
  | _ => None
  end.

Definition parse_initiation (body : value) : Action MpesaInitiation :=
  match initiateMPESAPaymentSchema body with
  | Some validatedData => aret validatedData
  | None => throw (ZodError (zod_issues lib body))
  end.

(** [!s] on an optional string. *)
Definition missing (s : option string) : bool :=
  match s with
  | None => true
  | Some s => String.eqb s ""
  end.

(** *** [initiateMPESAPayment] *)

Definition initiateMPESAPayment (settings : MpesaEnv) (at_ : Moment)
    (token_call : Http string) (push_call : STKPushBody -> Http STKPushResponse)
    (user : option User) (body : value) : Action Response :=
  attempt
    (validatedData <- parse_initiation body ;;
     let userId := option_map user_id user in
     if (match userId with None => true | Some _ => false end
         && (missing (in_guestEmail validatedData)
             || missing (in_guestName validatedData)))%bool
     then
       answer 400 (VObj [("success", VBool false);
                         ("message", VStr "Guest donations require email and name.")])
     else
       campaign <- Campaign_findById_given (in_campaignId validatedData) ;;
       match campaign with
       | None =>
           answer 404 (VObj [("success", VBool false);
                             ("message", VStr "Campaign not found.")])
       | Some campaign =>
           if negb (CampaignStatus_eqb (status campaign) active) then
             answer 400 (VObj [("success", VBool false);
                               ("message", VStr "Campaign is not active.")])
           else
             contribution <-
               Contribution_create
                 (mkContribution (contribution_oid at_) userId
                    (in_campaignId validatedData) (in_amount validatedData)
                    mpesa ps_pending ("MPESA-" ++ toString (Date_now at_)) None VNull
                    (in_isAnonymous validatedData)
                    (option_map (set_guestEmail lib) (in_guestEmail validatedData))
                    (option_map (set_guestName lib) (in_guestName validatedData))) ;;
             mpesaResponse <-
               initiateSTKPush settings (new_Date at_) token_call push_call
                 (mkSTKPushRequest (in_phoneNumber validatedData)
                    (in_amount validatedData) (contribution_id contribution)
                    ("Donation to " ++ title campaign)) ;;
             Transaction_create
               (mkTransaction (transaction_oid at_) (contribution_id contribution)
                  prov_mpesa (CheckoutRequestID mpesaResponse)
                  (in_amount validatedData)
                  (if String.eqb (ResponseCode mpesaResponse) "0"
                   then ts_pending else ts_failed)
                  (stk_object mpesaResponse) VNull VNull) ;;
             let contribution :=
               with_paymentReference contribution (CheckoutRequestID mpesaResponse) in
             Contribution_save_reference contribution ;;
             answer 200
               (VObj [("success", VBool true);
                      ("message",
                       VStr (if String.eqb (CustomerMessage mpesaResponse) ""
                             then "Payment initiated successfully!"
                             else CustomerMessage mpesaResponse));
                      ("data",
                       VObj [("contributionId", VStr (contribution_id contribution));
                             ("checkoutRequestID",
                              VStr (CheckoutRequestID mpesaResponse));
                             ("merchantRequestID",
                              VStr (MerchantRequestID mpesaResponse))])])
       end)
    (fun error =>
       match error with
       | ZodError issues =>
           answer 400 (VObj [("success", VBool false);
                             ("message", VStr "Validation failed");
                             ("errors", issues)])
       | _ =>
           console_line (LogError "Initiate MPESA payment error:"
                           (VStr (message_of error))) ;;
           answer 500 (VObj [("success", VBool false);
                             ("message", VStr (message_of error))])
       end).

(** *** [checkMPESAPaymentStatus] *)

Definition checkMPESAPaymentStatus (user : option User) (contributionId : string)
    : Action Response :=
  attempt
    (contribution <- Contribution_findById_given contributionId ;;
     match contribution with
     | None =>
         answer 404 (VObj [("success", VBool false);
                           ("message", VStr "Contribution not found.")])
     | Some contribution =>
         if match user, userId contribution with
            | Some user, Some owner => negb (String.eqb owner (user_id user))
            | _, _ => false
            end
         then
           answer 403 (VObj [("success", VBool false);
                             ("message", VStr "Access denied.")])
         else
           transaction <- Transaction_findOne_of (contribution_id contribution) ;;
           answer 200
             (VObj [("success", VBool true);
                    ("data",
                     VObj [("contributionId", VStr (contribution_id contribution));
                           ("paymentStatus",
                            VStr (PaymentStatus_name (paymentStatus contribution)));
                           ("amount", VNum (amount contribution));
                           ("mpesaReceiptNumber",
                            contribution_mpesaReceiptNumber contribution);
                           ("transaction",
                            match transaction with
                            | Some transaction =>
                                VObj [("status",
                                       VStr (TransactionStatus_name
                                               (transaction_status transaction)));
                                      ("transactionReference",
                                       VStr (transactionReference transaction))]
                            | None => VNull
                            end)])])
     end)
    (fun error =>
       console_line (LogError "Check payment status error:"
                       (VStr (message_of error))) ;;
       answer 500 (VObj [("success", VBool false);
                         ("message", VStr "Failed to check payment status.")])).

(** *** [getMyContributionStats] *)

Record Stats := mkStats {
  totalAmount : Q;
  totalContributions : nat;
  averageContribution : Q;
  campaignsSupported : nat
}.

(** [Contribution.find({ userId: donorId, paymentStatus: 'success' })]. *)
Definition successful_of (donor : ObjectId) (k : Contribution) : bool :=
  (match userId k with
   | Some owner => String.eqb owner donor
   | None => false
   end && PaymentStatus_eqb (paymentStatus k) ps_success)%bool.

(** The statistics computed from the documents found. *)
Definition statistics (found : list Contribution) : Stats :=
  let totalAmount := List.fold_left (fun sum c => add64 sum (amount c)) found 0 in
  let totalContributions := List.length found in
  let averageContribution :=
    if Nat.ltb 0 totalContributions
    then div64 totalAmount (inject_Z (Z.of_nat totalContributions))
    else 0 in
  let uniqueCampaigns := List.nodup String.string_dec (List.map campaignId found) in
  mkStats totalAmount totalContributions averageContribution
    (List.length uniqueCampaigns).

Definition getMyContributionStats (user : option User) : Action Response :=
  attempt
    (match option_map user_id user with
     | None =>
         answer 401 (VObj [("success", VBool false);
                           ("message", VStr "User not authenticated")])
     | Some donorId =>
         fun w =>
           let stats := statistics (List.filter (successful_of donorId) (contributions w)) in
           answer 200
             (VObj [("success", VBool true);
                    ("data",
                     VObj [("totalAmount", VNum (totalAmount stats));
                           ("totalContributions",
                            VNum (inject_Z (Z.of_nat (totalContributions stats))));
                           ("averageContribution", VNum (averageContribution stats));
                           ("campaignsSupported",
                            VNum (inject_Z (Z.of_nat (campaignsSupported stats))))])])
             w
     end)
    (fun error =>
       console_line (LogError "Error fetching contribution stats:"
                       (VStr (message_of error))) ;;
       answer 500 (VObj [("success", VBool false);
                         ("message", VStr "Failed to fetch contribution statistics");
                         ("error", VStr (message_of error))])).

End Requests.

(** The guest test of the handler: no login and an email or a name missing. *)
Definition guest_without_contact (user : option User) (v : MpesaInitiation) : bool :=
  (match option_map user_id user with None => true | Some _ => false end
   && (missing (in_guestEmail v) || missing (in_guestName v)))%bool.

(** The documents an accepted initiation leaves on file. *)
Definition opened_contribution (lib : Library) (at_ : Moment) (user : option User)
    (v : MpesaInitiation) (r : STKPushResponse) : Contribution :=
  mkContribution (contribution_oid at_) (option_map user_id user) (in_campaignId v)
    (in_amount v) mpesa ps_pending (CheckoutRequestID r) None VNull
    (in_isAnonymous v) (option_map (set_guestEmail lib) (in_guestEmail v))
    (option_map (set_guestName lib) (in_guestName v)).

Definition opened_transaction (at_ : Moment) (v : MpesaInitiation)
    (r : STKPushResponse) : Transaction :=
  mkTransaction (transaction_oid at_) (contribution_oid at_) prov_mpesa
    (CheckoutRequestID r) (in_amount v)
    (if String.eqb (ResponseCode r) "0" then ts_pending else ts_failed)
    (stk_object r) VNull VNull.

(** ** A worked initiation *)

Definition demo_library : Library :=
  mkLibrary (fun _ => true) (fun _ => true) (fun _ => VArr []) (fun s => s)
    (fun s => s) (fun _ => "[object Object]") (fun s => s)
    (fun _ => "library error").

Definition demo_settings : MpesaEnv :=
  mkMpesaEnv "174379" "passkey" "https://api.example.org".

Definition demo_moment : Moment :=
  mkMoment 1767607387000 (mkDateParts 2026 0 5 9 3 7) "k9" "t9".

Definition demo_initiation : value :=
  VObj [("campaignId", VStr "c1"); ("amount", VNum 500);
        ("phoneNumber", VStr "0703757369");
        ("guestEmail", VStr "guest@example.org"); ("guestName", VStr "Wanjiru")].

Definition demo_response : STKPushResponse :=
  mkSTKPushResponse "29115-34620561-1" "ws_CO_9" "0"
    "Success. Request accepted for processing"
    "Success. Request accepted for processing"
    (VObj [("CheckoutRequestID", VStr "ws_CO_9")]).

Definition demo_push (b : STKPushBody) : Http STKPushResponse :=
  Answered demo_response.

Definition demo_validated : MpesaInitiation :=
  mkMpesaInitiation "c1" 500 "0703757369" false (Some "guest@example.org")
    (Some "Wanjiru").

Definition demo_open_world : World :=
  mkWorld [] [] [demo_campaign 1000] [] true [] [].

(* ================================================================== *)
(** * Part VIII. Properties *)
(* ================================================================== *)

(** ** Rounding to double precision *)

Lemma pow2_pos (e : Z) : 0 < 2 ^ e.
Proof. apply Qpower_0_lt. reflexivity. Qed.

Lemma pow2_succ (e : Z) : 2 ^ (e + 1) == 2 * 2 ^ e.
Proof. rewrite Qpower_plus by discriminate. change (2 ^ 1) with 2. ring. Qed.

Lemma pow2_le (a b : Z) : (a <= b)%Z -> 2 ^ a <= 2 ^ b.
Proof. intros H. apply Qpower_le_compat_l; [exact H|discriminate]. Qed.

Lemma pow2_of_Z (a : Z) : (0 <= a)%Z -> inject_Z (2 ^ a) == 2 ^ a.
Proof. intros H. now rewrite Zpower_Qpower. Qed.

Lemma binade_spec (x : Q) :
  0 < x -> 2 ^ binade x <= x /\ x < 2 ^ (binade x + 1).
Proof.
  intros Hx. destruct x as [p q]. unfold binade. cbn [Qnum Qden].
  assert (0 < p)%Z as Hp.
  { unfold Qlt in Hx. cbn in Hx. lia. }
  set (a := Z.log2 p). set (b := Z.log2 (Z.pos q)).
  destruct (Z.log2_spec p Hp) as [Ha1 Ha2]. fold a in Ha1, Ha2.
  destruct (Z.log2_spec (Z.pos q) (Pos2Z.is_pos q)) as [Hb1 Hb2]. fold b in Hb1, Hb2.
  assert (0 <= a)%Z as Ha0 by apply Z.log2_nonneg.
  assert (0 <= b)%Z as Hb0 by apply Z.log2_nonneg.
  rewrite Zle_Qle, pow2_of_Z in Ha1 by exact Ha0.
  rewrite Zlt_Qlt, pow2_of_Z in Ha2 by lia.
  rewrite Zle_Qle, pow2_of_Z in Hb1 by exact Hb0.
  rewrite Zlt_Qlt, pow2_of_Z in Hb2 by lia.
  change (Z.succ a) with (a + 1)%Z in Ha2. change (Z.succ b) with (b + 1)%Z in Hb2.
  rewrite pow2_succ in Ha2, Hb2.
  pose proof (pow2_pos a) as HA. pose proof (pow2_pos b) as HB.
  assert (p # q == inject_Z p / inject_Z (Z.pos q)) as Hpq by apply Qmake_Qdiv.
  assert (2 ^ (a - b) == 2 ^ a / 2 ^ b) as Hd by (apply Qpower_minus; discriminate).
  set (P := inject_Z p) in *. set (D := inject_Z (Z.pos q)) in *.
  set (A := 2 ^ a) in *. set (B := 2 ^ b) in *.
  assert (0 < D) as HD by lra.
  assert (A / (2 * B) < P / D) as Hlow.
  { apply Qlt_shift_div_l; [exact HD|].
    setoid_replace (A / (2 * B) * D) with (A * D / (2 * B)) by (field; lra).
    apply Qlt_shift_div_r; [lra|]. nra. }
  assert (P / D < 2 * A / B) as Hhigh.
  { apply Qlt_shift_div_r; [exact HD|].
    setoid_replace (2 * A / B * D) with (2 * A * D / B) by (field; lra).
    apply Qlt_shift_div_l; [lra|]. nra. }
  destruct (Qle_bool (2 ^ (a - b)) (p # q)) eqn:Hcmp.
  - apply Qle_bool_iff in Hcmp. split; [exact Hcmp|].
    rewrite pow2_succ, Hd, Hpq.
    setoid_replace (2 * (A / B)) with (2 * A / B) by (field; lra). exact Hhigh.
  - assert (p # q < 2 ^ (a - b)) as Hlt.
    { apply Qnot_le_lt. intros H. apply Qle_bool_iff in H. congruence. }
    replace (a - b - 1 + 1)%Z with (a - b)%Z by lia.
    split; [|exact Hlt].
    assert (2 ^ (a - b) == 2 * 2 ^ (a - b - 1)) as Hhalf.
    { rewrite <- pow2_succ. now replace (a - b - 1 + 1)%Z with (a - b)%Z by lia. }
    rewrite Hd in Hhalf. rewrite Hpq.
    assert (A / (2 * B) == A / B * (1 # 2)) as Hform by (field; lra).
    rewrite Hform in Hlow.
    set (h := 2 ^ (a - b - 1)) in *. set (AB := A / B) in *. lra.
Qed.

Lemma pow2_lt_inv (a b : Z) : 2 ^ a < 2 ^ b -> (a < b)%Z.
Proof. intros H. apply Qpower_lt_compat_l_inv with (q := 2); [exact H|reflexivity]. Qed.

Lemma binade_le (x y : Q) : 0 < x -> x <= y -> (binade x <= binade y)%Z.
Proof.
  intros Hx Hxy. assert (0 < y) as Hy by lra.
  destruct (binade_spec x Hx) as [Hx1 _]. destruct (binade_spec y Hy) as [_ Hy2].
  assert (2 ^ binade x < 2 ^ (binade y + 1)) as H by lra.
  apply pow2_lt_inv in H. lia.
Qed.

Lemma binade_eq (x y : Q) : 0 < x -> x == y -> binade x = binade y.
Proof.
  intros Hx Hxy. assert (0 < y) as Hy by lra.
  apply Z.le_antisymm; apply binade_le; lra.
Qed.

Lemma nearest_even_bounds (y : Q) :
  (Qfloor y <= nearest_even y <= Qfloor y + 1)%Z.
Proof.
  unfold nearest_even. destruct (Qcompare (y - inject_Z (Qfloor y)) (1 # 2));
    [destruct (Z.even (Qfloor y))| |]; lia.
Qed.

Lemma nearest_even_Z (n : Z) : nearest_even (inject_Z n) = n.
Proof.
  unfold nearest_even. rewrite Qfloor_Z.
  destruct (Qcompare_spec (inject_Z n - inject_Z n) (1 # 2)) as [H|H|H];
    [lra|reflexivity|lra].
Qed.

Lemma nearest_even_le (y1 y2 : Q) :
  y1 <= y2 -> (nearest_even y1 <= nearest_even y2)%Z.
Proof.
  intros Hle. pose proof (Qfloor_resp_le _ _ Hle) as Hfloor.
  pose proof (nearest_even_bounds y1) as H1. pose proof (nearest_even_bounds y2) as H2.
  destruct (Z.eq_dec (Qfloor y1) (Qfloor y2)) as [Heq|Hne]; [|lia].
  unfold nearest_even in *. rewrite <- Heq in *. set (f := Qfloor y1) in *.
  destruct (Qcompare_spec (y1 - inject_Z f) (1 # 2)) as [C1|C1|C1];
    destruct (Qcompare_spec (y2 - inject_Z f) (1 # 2)) as [C2|C2|C2];
    try lia; lra.
Qed.

Lemma nearest_even_near (y : Q) :
  inject_Z (nearest_even y) - (1 # 2) <= y /\ y <= inject_Z (nearest_even y) + (1 # 2).
Proof.
  pose proof (Qfloor_le y) as Hlo. pose proof (Qlt_floor y) as Hhi.
  rewrite inject_Z_plus in Hhi. change (inject_Z 1) with 1 in Hhi.
  unfold nearest_even. set (f := Qfloor y) in *.
  destruct (Qcompare_spec (y - inject_Z f) (1 # 2)) as [C|C|C].
  - destruct (Z.even f); rewrite ?inject_Z_plus; change (inject_Z 1) with 1; lra.
  - lra.
  - rewrite inject_Z_plus. change (inject_Z 1) with 1. lra.
Qed.

(** The scaled value of a positive number lies in [2^52, 2^53). *)
Lemma scaled_range (x : Q) :
  0 < x ->
  inject_Z (2 ^ 52) <= x / 2 ^ (binade x - 52) /\
  x / 2 ^ (binade x - 52) < inject_Z (2 ^ 53).
Proof.
  intros Hx. destruct (binade_spec x Hx) as [Hlo Hhi].
  pose proof (pow2_pos (binade x - 52)) as Hulp.
  assert (2 ^ binade x == inject_Z (2 ^ 52) * 2 ^ (binade x - 52)) as E1.
  { rewrite pow2_of_Z by lia. rewrite <- Qpower_plus by discriminate.
    now replace (52 + (binade x - 52))%Z with (binade x) by lia. }
  assert (2 ^ (binade x + 1) == inject_Z (2 ^ 53) * 2 ^ (binade x - 52)) as E2.
  { rewrite pow2_of_Z by lia. rewrite <- Qpower_plus by discriminate.
    now replace (53 + (binade x - 52))%Z with (binade x + 1)%Z by lia. }
  split.
  - apply Qle_shift_div_l; [exact Hulp|]. now rewrite <- E1.
  - apply Qlt_shift_div_r; [exact Hulp|]. now rewrite <- E2.
Qed.

Lemma round53_range (x : Q) :
  0 < x -> 2 ^ binade x <= round53 x /\ round53 x <= 2 ^ (binade x + 1).
Proof.
  intros Hx. destruct (scaled_range x Hx) as [Hlo Hhi].
  pose proof (pow2_pos (binade x - 52)) as Hulp. unfold round53.
  rewrite Qred_correct.
  set (u := 2 ^ (binade x - 52)) in *.
  assert (2 ^ binade x == inject_Z (2 ^ 52) * u) as E1.
  { unfold u. rewrite pow2_of_Z by lia. rewrite <- Qpower_plus by discriminate.
    now replace (52 + (binade x - 52))%Z with (binade x) by lia. }
  assert (2 ^ (binade x + 1) == inject_Z (2 ^ 53) * u) as E2.
  { unfold u. rewrite pow2_of_Z by lia. rewrite <- Qpower_plus by discriminate.
    now replace (53 + (binade x - 52))%Z with (binade x + 1)%Z by lia. }
  rewrite E1, E2.
  assert (2 ^ 52 <= nearest_even (x / u) <= 2 ^ 53)%Z as [H1 H2].
  { split.
    - rewrite <- (nearest_even_Z (2 ^ 52)). now apply nearest_even_le.
    - rewrite <- (nearest_even_Z (2 ^ 53)). apply nearest_even_le. lra. }
  rewrite Zle_Qle in H1, H2.
  split; apply Qmult_le_compat_r; lra.
Qed.

Lemma round53_le (x y : Q) : 0 < x -> x <= y -> round53 x <= round53 y.
Proof.
  intros Hx Hxy. assert (0 < y) as Hy by lra.
  pose proof (binade_le x y Hx Hxy) as He.
  destruct (Z.eq_dec (binade x) (binade y)) as [Heq|Hne].
  - unfold round53. rewrite Heq, !Qred_correct.
    pose proof (pow2_pos (binade y - 52)) as Hulp.
    apply Qmult_le_compat_r; [|lra].
    rewrite <- Zle_Qle. apply nearest_even_le.
    apply Qmult_le_compat_r; [exact Hxy|].
    apply Qlt_le_weak, Qinv_lt_0_compat, Hulp.
  - destruct (round53_range x Hx) as [_ Hx2]. destruct (round53_range y Hy) as [Hy1 _].
    apply Qle_trans with (2 ^ (binade x + 1)); [exact Hx2|].
    apply Qle_trans with (2 ^ binade y); [|exact Hy1].
    apply pow2_le. lia.
Qed.

Lemma round53_pos (x : Q) : 0 < x -> 0 < round53 x.
Proof.
  intros Hx. destruct (round53_range x Hx) as [H _].
  pose proof (pow2_pos (binade x)). lra.
Qed.

Lemma binary64_pos (x : Q) : 0 < x -> binary64 x = round53 x.
Proof. intros H. unfold binary64. destruct (Qcompare_spec x 0); [lra|lra|reflexivity]. Qed.

Lemma binary64_neg (x : Q) : x < 0 -> binary64 x = - round53 (- x).
Proof. intros H. unfold binary64. destruct (Qcompare_spec x 0); [lra|reflexivity|lra]. Qed.

Lemma binary64_zero (x : Q) : x == 0 -> binary64 x = 0.
Proof. intros H. unfold binary64. destruct (Qcompare_spec x 0); [reflexivity|lra|lra]. Qed.

(** Rounding keeps the sign. *)
Lemma binary64_sign (x : Q) :
  (0 < x -> 0 < binary64 x) /\ (x < 0 -> binary64 x < 0) /\ (x == 0 -> binary64 x == 0).
Proof.
  repeat split; intros H.
  - rewrite binary64_pos by exact H. now apply round53_pos.
  - rewrite binary64_neg by exact H.
    assert (0 < round53 (- x)) by (apply round53_pos; lra). lra.
  - now rewrite binary64_zero.
Qed.

(** Rounding is monotone. *)
Lemma binary64_le (x y : Q) : x <= y -> binary64 x <= binary64 y.
Proof.
  intros Hxy. destruct (binary64_sign x) as (Hx1 & Hx2 & Hx3).
  destruct (binary64_sign y) as (Hy1 & Hy2 & Hy3).
  destruct (Qcompare_spec x 0) as [Hx|Hx|Hx];
    destruct (Qcompare_spec y 0) as [Hy|Hy|Hy];
    try (exfalso; clear - Hxy Hx Hy; lra);
    try specialize (Hx1 Hx); try specialize (Hx2 Hx); try specialize (Hx3 Hx);
    try specialize (Hy1 Hy); try specialize (Hy2 Hy); try specialize (Hy3 Hy).
  - lra.
  - lra.
  - lra.
  - rewrite (binary64_neg x Hx), (binary64_neg y Hy).
    assert (round53 (- y) <= round53 (- x)) by (apply round53_le; lra). lra.
  - lra.
  - rewrite (binary64_pos x Hx), (binary64_pos y Hy). apply round53_le; lra.
Qed.

#[local] Instance binary64_comp : Proper (Qeq ==> Qeq) binary64.
Proof.
  intros x y Hxy. apply Qle_antisym; apply binary64_le; lra.
Qed.

(** The relative error of rounding is at most 2^-53. *)
Lemma round53_error (x : Q) :
  0 < x ->
  x - x / inject_Z (2 ^ 53) <= round53 x /\ round53 x <= x + x / inject_Z (2 ^ 53).
Proof.
  intros Hx. destruct (scaled_range x Hx) as [Hlo _].
  pose proof (pow2_pos (binade x - 52)) as Hulp. unfold round53.
  rewrite Qred_correct.
  set (u := 2 ^ (binade x - 52)) in *.
  destruct (nearest_even_near (x / u)) as [H1 H2].
  set (n := inject_Z (nearest_even (x / u))) in *.
  assert (x == x / u * u) as Hxu by (field; lra).
  set (y := x / u) in *.
  assert (inject_Z (2 ^ 53) == 2 * inject_Z (2 ^ 52)) as E by reflexivity.
  set (K := inject_Z (2 ^ 52)) in *.
  assert (0 < K) as HK by reflexivity.
  assert (x / inject_Z (2 ^ 53) == y * u / (2 * K)) as ->.
  { rewrite E, Hxu at 1. reflexivity. }
  assert (u / 2 <= y * u / (2 * K)) as Hhalf.
  { apply Qle_shift_div_l; [lra|].
    setoid_replace (u / 2 * (2 * K)) with (K * u) by field. nra. }
  set (t := y * u / (2 * K)) in *.
  assert ((n - (1 # 2)) * u <= y * u) as A1 by (apply Qmult_le_compat_r; lra).
  assert (y * u <= (n + (1 # 2)) * u) as A2 by (apply Qmult_le_compat_r; lra).
  assert ((n - (1 # 2)) * u == n * u - u / 2) as B1 by field.
  assert ((n + (1 # 2)) * u == n * u + u / 2) as B2 by field.
  rewrite B1 in A1. rewrite B2 in A2.
  set (yu := y * u) in *. set (nu := n * u) in *. split; lra.
Qed.

Lemma binary64_error (x : Q) :
  0 <= x ->
  x - x / inject_Z (2 ^ 53) <= binary64 x /\ binary64 x <= x + x / inject_Z (2 ^ 53).
Proof.
  intros Hx. destruct (Qcompare_spec x 0) as [H|H|H]; [|lra|].
  - rewrite (binary64_zero x H). rewrite H. split; apply Qle_lteq; right; reflexivity.
  - rewrite (binary64_pos x H). now apply round53_error.
Qed.

Lemma Math_round_le (x y : Q) : x <= y -> (Math_round x <= Math_round y)%Z.
Proof. intros H. apply Qfloor_resp_le. lra. Qed.

Lemma Math_round_close (x y : Q) :
  y - (1 # 2) <= x -> x <= y + (1 # 2) ->
  (Math_round y - 1 <= Math_round x <= Math_round y + 1)%Z.
Proof.
  intros Hlo Hhi. unfold Math_round. split.
  - assert (Qfloor (y + (1 # 2) - 1) <= Qfloor (x + (1 # 2)))%Z as H
      by (apply Qfloor_resp_le; lra).
    assert (Qfloor (y + (1 # 2) - 1) = Qfloor (y + (1 # 2)) - 1)%Z as E.
    { pose proof (Qfloor_le (y + (1 # 2))) as A. pose proof (Qlt_floor (y + (1 # 2))) as B.
      pose proof (Qfloor_le (y + (1 # 2) - 1)) as C.
      pose proof (Qlt_floor (y + (1 # 2) - 1)) as D.
      rewrite inject_Z_plus in B, D. change (inject_Z 1) with 1 in B, D.
      set (a := Qfloor (y + (1 # 2))) in *. set (b := Qfloor (y + (1 # 2) - 1)) in *.
      assert (inject_Z b < inject_Z a) as L1 by lra.
      assert (inject_Z a - 1 < inject_Z b + 1) as L2 by lra.
      rewrite <- Zlt_Qlt in L1.
      assert (inject_Z (a - 1) < inject_Z (b + 1)) as L3.
      { unfold Zminus. rewrite !inject_Z_plus, inject_Z_opp. change (inject_Z 1) with 1. lra. }
      rewrite <- Zlt_Qlt in L3. lia. }
    lia.
  - assert (Qfloor (x + (1 # 2)) <= Qfloor (y + (1 # 2) + 1))%Z as H
      by (apply Qfloor_resp_le; lra).
    assert (Qfloor (y + (1 # 2) + 1) = Qfloor (y + (1 # 2)) + 1)%Z as E.
    { pose proof (Qfloor_le (y + (1 # 2))) as A. pose proof (Qlt_floor (y + (1 # 2))) as B.
      pose proof (Qfloor_le (y + (1 # 2) + 1)) as C.
      pose proof (Qlt_floor (y + (1 # 2) + 1)) as D.
      rewrite inject_Z_plus in B, D. change (inject_Z 1) with 1 in B, D.
      set (a := Qfloor (y + (1 # 2))) in *. set (b := Qfloor (y + (1 # 2) + 1)) in *.
      assert (inject_Z a < inject_Z b) as L1 by lra.
      assert (inject_Z b - 1 < inject_Z a + 1) as L2 by lra.
      rewrite <- Zlt_Qlt in L1.
      assert (inject_Z (b - 1) < inject_Z (a + 1)) as L3.
      { unfold Zminus. rewrite !inject_Z_plus, inject_Z_opp. change (inject_Z 1) with 1. lra. }
      rewrite <- Zlt_Qlt in L3. lia. }
    lia.
Qed.


Lemma floor_at_least (n : Z) (x : Q) : (n <= Qfloor x)%Z <-> inject_Z n <= x.
Proof.
  split; intros H.
  - apply Qle_trans with (inject_Z (Qfloor x)); [|apply Qfloor_le].
    now rewrite <- Zle_Qle.
  - rewrite <- (Qfloor_Z n). now apply Qfloor_resp_le.
Qed.

Lemma round_is_within_half (x : Q) :
  inject_Z (Math_round x) - (1 # 2) <= x /\ x < inject_Z (Math_round x) + (1 # 2).
Proof.
  unfold Math_round.
  pose proof (Qfloor_le (x + (1 # 2))) as Hle.
  pose proof (Qlt_floor (x + (1 # 2))) as Hlt.
  rewrite inject_Z_plus in Hlt. change (inject_Z 1) with 1 in Hlt.
  split; lra.
Qed.

Lemma percentage_close (cur goal : Q) :
  0 <= cur -> 0 < goal ->
  (Z.min (Qfloor (100 * cur / goal + (1 # 2))) 100 - 1
   <= Z.min (Math_round (mul64 (div64 cur goal) 100)) 100
   <= Z.min (Qfloor (100 * cur / goal + (1 # 2))) 100 + 1)%Z.
Proof.
  intros Hcur Hgoal. unfold mul64, div64.
  change (Qfloor (100 * cur / goal + (1 # 2))) with (Math_round (100 * cur / goal)).
  set (q := cur / goal).
  assert (0 <= q) as Hq.
  { unfold q. apply Qle_shift_div_l; [exact Hgoal|]. lra. }
  assert (Math_round (100 * cur / goal) = Math_round (100 * q)) as ->.
  { apply Qfloor_comp. unfold q. field. lra. }
  set (E := inject_Z (2 ^ 53)). assert (E == 9007199254740992) as HE by reflexivity.
  destruct (binary64_error q Hq) as [F1 F2]. fold E in F1, F2.
  set (f := binary64 q) in *.
  assert (0 <= q / E) as Hd by (apply Qle_shift_div_l; lra).
  assert (q / E <= q * (1 # 1000000)) as Hd3.
  { apply Qle_shift_div_r; [lra|]. nra. }
  destruct (Qlt_le_dec (100 * q) 101) as [Hsmall|Hbig].
  - assert (q / E <= 2 / E) as Hd2.
    { apply Qle_shift_div_l; [lra|]. setoid_replace (q / E * E) with q by (field; lra). lra. }
    assert (0 <= f * 100) as Hw by lra.
    destruct (binary64_error (f * 100) Hw) as [V1 V2]. fold E in V1, V2.
    set (v := binary64 (f * 100)) in *.
    assert (2 / E <= 1 # 1000000) as Htiny by (rewrite HE; unfold Qle; cbn; lia).
    assert (0 <= f * 100 / E) as Hw0 by (apply Qle_shift_div_l; lra).
    assert (f * 100 / E <= 200 / E) as Hw2.
    { apply Qle_shift_div_l; [lra|].
      setoid_replace (f * 100 / E * E) with (f * 100) by (field; lra). lra. }
    assert (f * 100 / E <= f * 100 * (1 # 1000000)) as Hw3.
    { apply Qle_shift_div_r; [lra|]. nra. }
    assert (200 / E == 100 * (2 / E)) as Hform by (field; lra).
    assert (Math_round (100 * q) - 1 <= Math_round v <= Math_round (100 * q) + 1)%Z
      by (apply Math_round_close; lra).
    lia.
  - assert (1 <= f) as Hf by lra.
    assert (0 <= f * 100) as Hw by lra.
    destruct (binary64_error (f * 100) Hw) as [V1 _]. fold E in V1.
    set (v := binary64 (f * 100)) in *.
    assert (f * 100 / E <= f * 100 * (1 # 1000000)) as Hw2.
    { apply Qle_shift_div_r; [lra|]. nra. }
    assert (101 <= Math_round v)%Z.
    { change 101%Z with (Math_round (201 # 2)). apply Math_round_le. lra. }
    assert (101 <= Math_round (100 * q))%Z.
    { change 101%Z with (Math_round (201 # 2)). apply Math_round_le. lra. }
    lia.
Qed.

Lemma is_double_fixed (x : Q) : is_double x = true -> binary64 x == x.
Proof. unfold is_double. apply Qeq_bool_iff. Qed.

#[local] Instance is_double_comp : Proper (Qeq ==> eq) is_double.
Proof.
  intros x y Hxy. unfold is_double.
  destruct (Qeq_bool (binary64 x) x) eqn:Hx; destruct (Qeq_bool (binary64 y) y) eqn:Hy;
    try reflexivity.
  - apply Qeq_bool_iff in Hx. apply Qeq_bool_neq in Hy. elim Hy.
    now rewrite <- Hxy, Hx.
  - apply Qeq_bool_iff in Hy. apply Qeq_bool_neq in Hx. elim Hx.
    now rewrite Hxy, Hy.
Qed.

#[local] Instance add64_comp : Proper (Qeq ==> Qeq ==> Qeq) add64.
Proof.
  intros x x' Hx y y' Hy. unfold add64. rewrite <- Hx, <- Hy.
  destruct (is_double x && is_double y)%bool; now rewrite Hx, Hy.
Qed.

(** A sum is never below an operand when the other is not negative. *)
Lemma add64_increases (x y : Q) : 0 <= y -> x <= add64 x y.
Proof.
  intros Hy. unfold add64.
  destruct (is_double x) eqn:Hx; cbn [andb]; [|lra].
  destruct (is_double y); [|lra].
  rewrite <- (is_double_fixed x Hx) at 1. apply binary64_le. lra.
Qed.

(** ** Collections *)

Section Collection_facts.
Context {Doc : Type} (id_of : Doc -> ObjectId).

Lemma findById_id (id : ObjectId) (docs : list Doc) (x : Doc) :
  findById id_of id docs = Some x -> id_of x = id.
Proof.
  unfold findById, findOne. intros H.
  apply List.find_some in H. destruct H as [_ H].
  now apply String.eqb_eq.
Qed.

(** A saved document is what the next matching query returns, provided it
    replaces the match and still satisfies the filter. *)
Lemma findOne_save_hit (p : Doc -> bool) (docs : list Doc) (x d : Doc) :
  findOne p docs = Some x -> id_of d = id_of x -> p d = true ->
  findOne p (save id_of d docs) = Some d.
Proof.
  unfold findOne, save. intros Hfind Hid Hp.
  induction docs as [|a docs IH]; cbn in *; [discriminate|].
  destruct (p a) eqn:Hpa.
  - injection Hfind as ->. rewrite Hid, String.eqb_refl. now rewrite Hp.
  - destruct (String.eqb (id_of a) (id_of d)).
    + now rewrite Hp.
    + rewrite Hpa. now apply IH.
Qed.

Lemma findById_save_same (id : ObjectId) (docs : list Doc) (x d : Doc) :
  findById id_of id docs = Some x -> id_of d = id ->
  findById id_of id (save id_of d docs) = Some d.
Proof.
  intros Hfind Hid. unfold findById.
  apply findOne_save_hit with (x := x); auto.
  - apply findById_id in Hfind. congruence.
  - now apply String.eqb_eq.
Qed.

Lemma findById_save_other (id : ObjectId) (docs : list Doc) (d : Doc) :
  id_of d <> id ->
  findById id_of id (save id_of d docs) = findById id_of id docs.
Proof.
  unfold findById, findOne, save. intros Hne.
  induction docs as [|a docs IH]; cbn; [reflexivity|].
  destruct (String.eqb (id_of a) (id_of d)) eqn:Had.
  - apply String.eqb_eq in Had.
    assert (String.eqb (id_of d) id = false) as -> by now apply String.eqb_neq.
    assert (String.eqb (id_of a) id = false) as ->
      by (apply String.eqb_neq; congruence).
    exact IH.
  - destruct (String.eqb (id_of a) id); [reflexivity|exact IH].
Qed.


End Collection_facts.

(** ** The monad *)

(** Unfolding of the monad and of the store operations, without touching
    the collection functions or arithmetic. *)
Ltac run :=
  cbv beta iota delta
    [bind ret lift try_catch respond console_write broadcast socket_ready
     Transaction_findOne Transaction_save Contribution_findById Contribution_save
     Contribution_countSuccessful Campaign_findById Campaign_save User_findById
     transactions contributions campaigns users io emitted console].

Lemma resolveDonorName_run (k : Contribution) (w : World) :
  resolveDonorName k w = (w, inr (donor_of k (users w))).
Proof.
  unfold resolveDonorName, donor_of.
  destruct (isAnonymous k); cbn; [reflexivity|].
  destruct (userId k); reflexivity.
Qed.

(** The effect of the credit block on every component but the console. *)
Lemma creditCampaign_run (method : string) (closing : Campaign -> log_entry)
    (k : Contribution) (c : Campaign) (w : World) :
  exists out,
    creditCampaign method closing k c w =
    (mkWorld (transactions w) (contributions w)
       (campaigns_credited k c (campaigns w)) (users w) (io w)
       (emitted w ++ if io w then events_credited method k c (users w) (contributions w)
                     else [])
       out,
     inr tt).
Proof.
  destruct w as [ts ks cs us rdy em out]. cbn [transactions contributions campaigns users io emitted].
  unfold creditCampaign, emitCampaignUpdate, emitNewContribution,
    emitCampaignCompleted, campaigns_credited, events_credited.
  unfold bind at 1. unfold Campaign_save at 1.
  unfold bind at 1. rewrite resolveDonorName_run.
  change (goal_reached k c) with
    (Qle_bool (goalAmount (credited k c)) (currentAmount (credited k c))
     && negb (CampaignStatus_eqb (status (credited k c)) completed))%bool.
  fold (credited k c).
  destruct (Qle_bool (goalAmount (credited k c)) (currentAmount (credited k c))
            && negb (CampaignStatus_eqb (status (credited k c)) completed))%bool;
    run; destruct rdy; cbn [negb app].
  all: rewrite <- ?app_assoc, ?app_nil_r; cbn [app].
  all: eexists; reflexivity.
Qed.

(** ** Running the handlers *)

#[local] Arguments creditCampaign : simpl never.
#[local] Arguments binary64 : simpl never.
#[local] Arguments is_double : simpl never.
#[local] Arguments add64 : simpl never.
#[local] Arguments sub64 : simpl never.
#[local] Arguments mul64 : simpl never.
#[local] Arguments div64 : simpl never.
#[local] Arguments completionPercentage : simpl never.
#[local] Arguments remainingAmount : simpl never.
#[local] Arguments save : simpl never.
#[local] Arguments findOne : simpl never.
#[local] Arguments findById : simpl never.
#[local] Arguments countDocuments : simpl never.
#[local] Arguments campaigns_credited : simpl never.
#[local] Arguments events_credited : simpl never.
#[local] Arguments processCallback : simpl never.
#[local] Arguments processWebhook : simpl never.
#[local] Arguments toString : simpl never.
#[local] Arguments Transaction_lookup : simpl never.
#[local] Arguments set_String : simpl never.

(** Open a handler on a world given by its components. *)
Ltac open_handler :=
  unfold reconcile, handleMPESACallback, verifyPaystackPayment,
    handlePaystackWebhook, set_errorMessage, set_mpesaReceiptNumber,
    try_catch, bind, lift, rbind, Transaction_findOne,
    Transaction_save, Contribution_findById, Contribution_save,
    Campaign_findById, console_write, respond, ret;
  cbn.

(** Replace a run of the credit block by its effect. *)
Ltac credit :=
  match goal with
  | |- context [creditCampaign ?m ?cl ?k ?c ?w] =>
      let out := fresh "out" in
      let E := fresh "E" in
      destruct (creditCampaign_run m cl k c w) as [out E]; rewrite E; clear E; cbn
  end.

Ltac world w :=
  destruct w as [?ts ?ks ?cs ?us ?rdy ?em ?out];
  cbn [transactions contributions campaigns users io emitted console] in *.




(** ** Values that can be stored *)





(** Case analysis along the branches a handler takes. *)
Ltac branch :=
  match goal with
  | |- context [match ?X with _ => _ end] =>
      lazymatch X with
      | context [match _ with _ => _ end] => fail
      | _ => destruct X eqn:?
      end
  end.

Ltac explore := repeat (cbn; first [credit | branch]); cbn.

(** On the campaigns, a reconciliation call is either the identity or the
    credit of a contribution to the campaign on file for it. *)
Lemma reconcile_campaigns (t : trigger) (w : World) :
  campaigns (fst (reconcile t w)) = campaigns w
  \/ exists k c,
       findById campaign_id (campaignId k) (campaigns w) = Some c /\
       campaigns (fst (reconcile t w)) = campaigns_credited k c (campaigns w).
Proof.
  world w. destruct t as [body|f reference|div body]; open_handler; explore.
  all: try (left; reflexivity).
  all: right; do 2 eexists; (split; [|reflexivity]); cbn; assumption.
Qed.



(** The metadata items never touch the verdict or the token. *)
Lemma apply_item_keeps (res res' : CallbackResult) (item : value) :
  apply_item res item = inr res' ->
  cb_success res' = cb_success res /\
  checkoutRequestID res' = checkoutRequestID res.
Proof.
  unfold apply_item, rbind.
  destruct (get item "Name") as [|n]; [discriminate|].
  destruct (get item "Value") as [|v].
  - repeat match goal with
           | |- context [if ?b then _ else _] => destruct b
           end; try discriminate; intros [= <-]; auto.
  - repeat match goal with
           | |- context [if ?b then _ else _] => destruct b
           end; intros [= <-]; auto.
Qed.

Lemma forEach_items_keeps (items : list value) (res res' : CallbackResult) :
  forEach_items items res = inr res' ->
  cb_success res' = cb_success res /\
  checkoutRequestID res' = checkoutRequestID res.
Proof.
  revert res. induction items as [|item items IH]; intros res; cbn.
  - intros [= <-]. auto.
  - unfold rbind. destruct (apply_item res item) as [|res1] eqn:Hitem; [discriminate|].
    intros Hrest. apply IH in Hrest. apply apply_item_keeps in Hitem.
    destruct Hrest, Hitem. split; congruence.
Qed.

(** A failed M-Pesa result carries no receipt number: the metadata is read
    only under result code 0. *)
Lemma failed_callback_has_no_receipt (body : value) (r : CallbackResult) :
  processCallback body = inr r -> cb_success r = false ->
  mpesaReceiptNumber r = VUndefined.
Proof.
  unfold processCallback, rbind.
  destruct (get body "Body") as [|b]; [discriminate|].
  destruct (get b "stkCallback") as [|s]; [discriminate|].
  destruct (get s "ResultCode") as [|code]; [discriminate|].
  destruct (get s "MerchantRequestID") as [|m]; [discriminate|].
  destruct (get s "CheckoutRequestID") as [|c]; [discriminate|].
  destruct (get s "ResultDesc") as [|d]; [discriminate|].
  destruct (get s "CallbackMetadata") as [|meta]; [discriminate|].
  destruct (strict_eq_zero code) eqn:Hcode; cbn [andb].
  - destruct (truthy meta).
    + destruct (get meta "Item") as [|[]]; try discriminate.
      intros Hrun Hok. apply forEach_items_keeps in Hrun.
      cbn in Hrun. destruct Hrun as [Hrun _]. congruence.
    + intros [= <-]. cbn. discriminate.
  - intros [= <-]. reflexivity.
Qed.




(** ** The credited campaign, read back *)

Lemma settled_fields (k : Contribution) (c : Campaign) :
  campaign_id (settled k c) = campaign_id c /\
  goalAmount (settled k c) = goalAmount c /\
  currentAmount (settled k c) = add64 (currentAmount c) (amount k) /\
  status (settled k c) = if goal_reached k c then completed else status c.
Proof. unfold settled. destruct (goal_reached k c); cbn; auto. Qed.

Lemma campaigns_credited_find (k : Contribution) (c : Campaign) (cs : list Campaign) :
  findById campaign_id (campaignId k) cs = Some c ->
  findById campaign_id (campaignId k) (campaigns_credited k c cs) = Some (settled k c).
Proof.
  intros Hc. pose proof (findById_id _ _ _ _ Hc) as Hid.
  unfold campaigns_credited, settled.
  assert (findById campaign_id (campaignId k) (save campaign_id (credited k c) cs)
          = Some (credited k c)) as H1
    by (apply findById_save_same with (x := c); auto).
  destruct (goal_reached k c); [|exact H1].
  apply findById_save_same with (x := credited k c); auto.
Qed.

Lemma campaigns_credited_elsewhere (k : Contribution) (c : Campaign)
    (cs : list Campaign) (id : ObjectId) :
  campaign_id c <> id ->
  findById campaign_id id (campaigns_credited k c cs) = findById campaign_id id cs.
Proof.
  intros Hne. unfold campaigns_credited.
  destruct (goal_reached k c); rewrite ?findById_save_other; auto.
Qed.

Lemma completed_not_reached (k : Contribution) (c : Campaign) :
  status c = completed -> goal_reached k c = false.
Proof.
  intros H. unfold goal_reached. rewrite H. cbn. apply andb_false_r.
Qed.

(** The documents saved by a successful call are the ones the next call
    with the same token finds. *)
(** For a string token the lookup is the comparison of the references. *)
Lemma lookup_of_string (s : string) (ts : list Transaction) :
  Transaction_lookup (VStr s) ts
  = inr (findOne (fun t => String.eqb (transactionReference t) s) ts).
Proof. reflexivity. Qed.



(** ** C5 *)

Lemma completed_survives_call (t : trigger) (w : World) (id : ObjectId) (c : Campaign) :
  findById campaign_id id (campaigns w) = Some c -> status c = completed ->
  exists c', findById campaign_id id (campaigns (fst (reconcile t w))) = Some c'
             /\ status c' = completed.
Proof.
  intros Hc Hdone.
  destruct (reconcile_campaigns t w) as [-> | (k & c0 & Hc0 & ->)]; [now exists c|].
  destruct (String.eqb (campaignId k) id) eqn:Hid.
  - apply String.eqb_eq in Hid. subst id.
    assert (c0 = c) as -> by congruence.
    exists (settled k c). split; [now apply campaigns_credited_find|].
    destruct (settled_fields k c) as (_ & _ & _ & ->).
    now rewrite completed_not_reached.
  - apply String.eqb_neq in Hid. exists c. split; [|exact Hdone].
    rewrite campaigns_credited_elsewhere; auto.
    apply findById_id in Hc0. congruence.
Qed.

(** C5. Completion is monotonic: a campaign on file as [completed] is still
    on file as [completed] after any sequence of reconciliation calls,
    whatever the triggers and their outcomes. *)
Theorem completion_is_monotonic (calls : list trigger) (w : World)
    (id : ObjectId) (c : Campaign) :
  findById campaign_id id (campaigns w) = Some c ->
  status c = completed ->
  exists c',
    findById campaign_id id (campaigns (reconcile_all calls w)) = Some c' /\
    status c' = completed.
Proof.
  revert w c. induction calls as [|t calls IH]; intros w c Hc Hdone.
  - now exists c.
  - cbn. destruct (completed_survives_call t w id c Hc Hdone) as (c1 & Hc1 & Hdone1).
    exact (IH _ c1 Hc1 Hdone1).
Qed.

(** ** C1 *)



(** ** C3 *)


(** ** C9 *)



(** ** C2 *)


(** ** C8 *)



(** ** C4 *)




(** ** C6 *)

Lemma digit_survives (u : N) :
  is_digit u = true -> is_space u = false /\ is_digit_or_plus u = true.
Proof.
  unfold is_digit. rewrite andb_true_iff, !N.leb_le. intros [Hlo Hhi].
  assert (u = 48 \/ u = 49 \/ u = 50 \/ u = 51 \/ u = 52 \/ u = 53 \/ u = 54
          \/ u = 55 \/ u = 56 \/ u = 57)%N as Hcases by lia.
  repeat (destruct Hcases as [->|Hcases]; [split; reflexivity|]).
  subst u. split; reflexivity.
Qed.

Lemma strip_digits (d : jsstring) :
  List.forallb is_digit d = true -> strip_non_phone (strip_spaces d) = d.
Proof.
  unfold strip_non_phone, strip_spaces.
  induction d as [|u d IH]; cbn [List.forallb List.filter]; [reflexivity|].
  rewrite andb_true_iff. intros [Hu Hd].
  destruct (digit_survives u Hu) as [Hspace Hkeep].
  rewrite Hspace. cbn [negb List.filter]. rewrite Hkeep. now rewrite IH.
Qed.

Lemma strip_app (a b : jsstring) :
  strip_non_phone (strip_spaces (a ++ b)%list) =
  (strip_non_phone (strip_spaces a) ++ strip_non_phone (strip_spaces b))%list.
Proof. unfold strip_non_phone, strip_spaces. now rewrite !List.filter_app. Qed.

(** C6. The three sample inputs normalise to the same token, and for every
    digit string [d] the forms [+254 d], [0 d] and [254 d] all normalise to
    [254 d]. *)
Theorem phone_forms_normalise_alike (d : jsstring) :
  List.forallb is_digit d = true ->
  (formatPhoneNumber (units "0703757369") = units "254703757369" /\
   formatPhoneNumber (units "+254703757369") = units "254703757369" /\
   formatPhoneNumber (units "254703757369") = units "254703757369") /\
  (formatPhoneNumber (units "+254" ++ d) = units "254" ++ d /\
   formatPhoneNumber (units "0" ++ d) = units "254" ++ d /\
   formatPhoneNumber (units "254" ++ d) = units "254" ++ d)%list.
Proof.
  intros Hd. split; [repeat split; vm_compute; reflexivity|].
  unfold formatPhoneNumber.
  rewrite !strip_app, (strip_digits d Hd).
  repeat split; reflexivity.
Qed.

Lemma phone_forms_normalise_alike_witness :
  (formatPhoneNumber (units "+254" ++ units "703757369") = units "254" ++ units "703757369" /\
   formatPhoneNumber (units "0" ++ units "703757369") = units "254" ++ units "703757369" /\
   formatPhoneNumber (units "254" ++ units "703757369") = units "254" ++ units "703757369")%list.
Proof.
  exact (proj2 (phone_forms_normalise_alike (units "703757369") eq_refl)).
Defined.

(** ** C10 *)

Lemma Math_max_zero (x : Q) :
  Math_max x 0 == Qmax x 0 /\ 0 <= Math_max x 0.
Proof.
  unfold Math_max. destruct (Qle_bool x 0) eqn:Hx.
  - apply Qle_bool_iff in Hx. split; [|apply Qle_refl].
    symmetry. now apply Q.max_r.
  - assert (0 <= x) as H0.
    { apply Qlt_le_weak, Qnot_le_lt. intros Hle.
      apply Qle_bool_iff in Hle. congruence. }
    split; [|exact H0]. symmetry. now apply Q.max_l.
Qed.

(** C10, as the specification states it, fails.  With 115 collected of a
    goal of 200 the value of 100 x 115 / 200 is 57.5 and the formula of the
    specification gives 58; the virtual divides first, and the double nearest
    to 115/200, multiplied by 100 and rounded to a double again, is just
    below 57.5: the virtual gives 57.  So it does at 29 of 200 (14 against
    15) and at 69 of 120 (57 against 58).  The Standard Library's IEEE 754
    arithmetic gives the same product as [mul64] and [div64]. *)
Lemma percentage_is_not_the_exact_formula :
  let campaign goal current := mkCampaign "c1" "Roof fund" goal current active in
  (completionPercentage (campaign 200 115) = 57%Z /\
   spec_completionPercentage (campaign 200 115) = 58%Z) /\
  (completionPercentage (campaign 200 29) = 14%Z /\
   spec_completionPercentage (campaign 200 29) = 15%Z) /\
  (completionPercentage (campaign 120 69) = 57%Z /\
   spec_completionPercentage (campaign 120 69) = 58%Z) /\
  Q_of_ieee (SFmul 53 1024 (SFdiv 53 1024 (ieee_of_Z 115) (ieee_of_Z 200))
               (ieee_of_Z 100))
  = Some (mul64 (div64 115 200) 100) /\
  mul64 (div64 115 200) 100 < 115 # 2.
Proof. cbv zeta. repeat split; vm_compute; reflexivity. Qed.

(** C10, as the code has it.  The virtual [completionPercentage] is 0 for a
    zero goal and never above 100; otherwise it is
    min(Math.round(p), 100) for the double-precision product
    p = (currentAmount / goalAmount) x 100, quotient and product each
    rounded: it is 100 exactly when p is at least 99.5, and below 100 it is
    the integer within one half of p.  For a positive goal and an amount
    that is not negative it is within one of the exact
    min(round(100 x currentAmount / goalAmount), 100).  The virtual
    [remainingAmount] is max(goalAmount - currentAmount, 0) with the
    difference rounded to a double: never negative, 0 once the accumulated
    amount reaches or exceeds the goal, and otherwise within a relative
    error of 2^-53 of the exact difference. *)
Theorem campaign_virtuals (c : Campaign) :
  (goalAmount c == 0 -> completionPercentage c = 0%Z) /\
  (completionPercentage c <= 100)%Z /\
  (~ goalAmount c == 0 ->
   let p := mul64 (div64 (currentAmount c) (goalAmount c)) 100 in
   (completionPercentage c = 100%Z <-> 199 # 2 <= p) /\
   ((completionPercentage c < 100)%Z ->
    inject_Z (completionPercentage c) - (1 # 2) <= p /\
    p < inject_Z (completionPercentage c) + (1 # 2))) /\
  (0 < goalAmount c -> 0 <= currentAmount c ->
   (spec_completionPercentage c - 1 <= completionPercentage c
    <= spec_completionPercentage c + 1)%Z) /\
  remainingAmount c == Qmax (sub64 (goalAmount c) (currentAmount c)) 0 /\
  0 <= remainingAmount c /\
  (goalAmount c <= currentAmount c -> remainingAmount c == 0) /\
  (currentAmount c <= goalAmount c ->
   spec_remainingAmount c - spec_remainingAmount c / inject_Z (2 ^ 53)
   <= remainingAmount c /\
   remainingAmount c
   <= spec_remainingAmount c + spec_remainingAmount c / inject_Z (2 ^ 53)).
Proof.
  unfold completionPercentage, spec_completionPercentage, remainingAmount,
    spec_remainingAmount, Math_min.
  destruct (Math_max_zero (sub64 (goalAmount c) (currentAmount c))) as [Hmax Hpos].
  split.
  { intros Hzero. apply Qeq_bool_iff in Hzero. now rewrite Hzero. }
  split.
  { destruct (Qeq_bool (goalAmount c) 0); [discriminate|apply Z.le_min_r]. }
  split.
  { intros Hgoal. cbv zeta.
    destruct (Qeq_bool (goalAmount c) 0) eqn:E;
      [apply Qeq_bool_iff in E; contradiction|].
    set (p := mul64 (div64 (currentAmount c) (goalAmount c)) 100).
    destruct (round_is_within_half p) as [Hlo Hhi].
    assert ((100 <= Math_round p)%Z <-> 199 # 2 <= p) as Hfull.
    { unfold Math_round. rewrite floor_at_least. change (inject_Z 100) with 100.
      split; intros H; lra. }
    split.
    - rewrite <- Hfull. lia.
    - intros Hbelow. rewrite Z.min_l by lia. split; [exact Hlo|exact Hhi]. }
  split.
  { intros Hgoal Hcur.
    destruct (Qeq_bool (goalAmount c) 0) eqn:E;
      [apply Qeq_bool_iff in E; rewrite E in Hgoal; discriminate|].
    now apply percentage_close. }
  split; [exact Hmax|]. split; [exact Hpos|].
  assert (forall x, x <= 0 -> binary64 x <= 0) as Hneg.
  { intros x Hx. rewrite <- (binary64_zero 0) by reflexivity. now apply binary64_le. }
  split.
  { intros Hover. rewrite Hmax. apply Q.max_r. unfold sub64. apply Hneg. lra. }
  intros Hunder. unfold sub64 in *.
  assert (0 <= goalAmount c - currentAmount c) as Hd by lra.
  assert (0 <= binary64 (goalAmount c - currentAmount c)) as Hb.
  { rewrite <- (binary64_zero 0) by reflexivity. now apply binary64_le. }
  rewrite Hmax, !(Q.max_l _ 0) by assumption.
  now apply binary64_error.
Qed.

Lemma campaign_virtuals_witness :
  completionPercentage (mkCampaign "c0" "No goal" 0 250 active) = 0%Z /\
  (spec_completionPercentage (mkCampaign "c1" "Roof fund" 200 115 active) - 1
   <= completionPercentage (mkCampaign "c1" "Roof fund" 200 115 active))%Z /\
  remainingAmount (mkCampaign "c1" "Roof fund" 1000 1500 completed) == 0.
Proof.
  split; [|split].
  - exact (proj1 (campaign_virtuals (mkCampaign "c0" "No goal" 0 250 active)) eq_refl).
  - refine (proj1 (proj1 (proj2 (proj2 (proj2
             (campaign_virtuals (mkCampaign "c1" "Roof fund" 200 115 active)))))
             eq_refl _)).
    discriminate.
  - refine (proj1 (proj2 (proj2 (proj2 (proj2 (proj2 (proj2
             (campaign_virtuals (mkCampaign "c1" "Roof fund" 1000 1500 completed))))))))
             _).
    discriminate.
Defined.

(** ** C7 *)








(* ================================================================== *)
(** * Part IX. Further properties of the adapters *)
(* ================================================================== *)

(** ** Phone numbers *)

Lemma startsWith_split (p s : jsstring) :
  startsWith p s = true -> exists r, s = (p ++ r)%list.
Proof.
  revert s. induction p as [|a p IH]; intros s; cbn.
  - intros _. now exists s.
  - destruct s as [|u s]; [discriminate|].
    rewrite andb_true_iff, N.eqb_eq. intros [-> H].
    destruct (IH s H) as [r ->]. now exists r.
Qed.

Lemma startsWith_prefix (p r : jsstring) : startsWith p (p ++ r)%list = true.
Proof. induction p as [|a p IH]; cbn; [reflexivity|]. now rewrite N.eqb_refl. Qed.

Lemma phone_char_is_no_space (u : N) :
  is_digit_or_plus u = true -> is_space u = false.
Proof.
  unfold is_digit_or_plus. rewrite orb_true_iff, N.eqb_eq. intros [H| ->].
  - now apply digit_survives.
  - reflexivity.
Qed.

Lemma stripped_is_phone_chars (s : jsstring) :
  List.forallb is_digit_or_plus (strip_non_phone (strip_spaces s)) = true.
Proof.
  unfold strip_non_phone. apply List.forallb_forall. intros u Hu.
  now apply List.filter_In in Hu.
Qed.

Lemma strip_phone_chars (s : jsstring) :
  List.forallb is_digit_or_plus s = true -> strip_non_phone (strip_spaces s) = s.
Proof.
  unfold strip_non_phone, strip_spaces.
  induction s as [|u s IH]; cbn [List.forallb List.filter]; [reflexivity|].
  rewrite andb_true_iff. intros [Hu Hs].
  rewrite (phone_char_is_no_space u Hu). cbn [negb List.filter].
  rewrite Hu. now rewrite IH.
Qed.

Lemma formatPhoneNumber_shape (s : jsstring) :
  startsWith (units "254") (formatPhoneNumber s) = true /\
  List.forallb is_digit_or_plus (formatPhoneNumber s) = true.
Proof.
  unfold formatPhoneNumber.
  pose proof (stripped_is_phone_chars s) as Hchars.
  set (f := strip_non_phone (strip_spaces s)) in *.
  destruct (startsWith (units "+254") f) eqn:Hplus.
  - apply startsWith_split in Hplus. destruct Hplus as [r Hr].
    rewrite Hr in *. cbn in *. split; [reflexivity|exact Hchars].
  - destruct (startsWith (units "0") f) eqn:Hzero.
    + apply startsWith_split in Hzero. destruct Hzero as [r Hr].
      rewrite Hr in *. cbn in *. split; [reflexivity|exact Hchars].
    + destruct (startsWith (units "254") f) eqn:Hbare; cbn [negb].
      * split; [exact Hbare|exact Hchars].
      * split; [reflexivity|]. cbn. exact Hchars.
Qed.

(** X1.  Whatever it is given, [formatPhoneNumber] returns a string that begins
    with 254 and holds nothing but digits and plus signs. *)
Theorem formatted_phone_shape (s : jsstring) :
  startsWith (units "254") (formatPhoneNumber s) = true /\
  List.forallb is_digit_or_plus (formatPhoneNumber s) = true.
Proof. apply formatPhoneNumber_shape. Qed.

(** X2.  Normalising twice is normalising once. *)
Theorem formatPhoneNumber_idempotent (s : jsstring) :
  formatPhoneNumber (formatPhoneNumber s) = formatPhoneNumber s.
Proof.
  destruct (formatPhoneNumber_shape s) as [Hprefix Hchars].
  set (o := formatPhoneNumber s) in *.
  unfold formatPhoneNumber at 1. rewrite (strip_phone_chars o Hchars).
  apply startsWith_split in Hprefix. destruct Hprefix as [r Hr].
  rewrite Hr. reflexivity.
Qed.

(** X3.  Characters other than digits and plus signs (spaces, dashes,
    brackets, ...) may be put anywhere without changing the result. *)
Theorem formatPhoneNumber_ignores_separators (a b : jsstring) (u : N) :
  is_digit_or_plus u = false ->
  formatPhoneNumber (a ++ u :: b)%list = formatPhoneNumber (a ++ b)%list.
Proof.
  intros Hu. unfold formatPhoneNumber.
  assert (strip_non_phone (strip_spaces (a ++ u :: b)%list)
          = strip_non_phone (strip_spaces (a ++ b)%list)) as ->; [|reflexivity].
  change (a ++ u :: b)%list with (a ++ [u] ++ b)%list.
  rewrite !strip_app.
  assert (strip_non_phone (strip_spaces [u]) = []) as ->; [|reflexivity].
  unfold strip_non_phone, strip_spaces. cbn.
  destruct (is_space u); cbn; [reflexivity|]. now rewrite Hu.
Qed.

Lemma formatPhoneNumber_ignores_separators_witness :
  formatPhoneNumber (units "+254 703" ++ 45%N :: units "757369")%list
  = formatPhoneNumber (units "+254 703" ++ units "757369")%list.
Proof.
  exact (formatPhoneNumber_ignores_separators (units "+254 703") (units "757369")
           45%N eq_refl).
Defined.

Lemma subscriber_part_digits (s : jsstring) :
  subscriber_part s = true ->
  List.forallb is_digit s = true /\ List.length s = 9%nat /\
  exists c ds, s = c :: ds /\ is_1_or_7 c = true.
Proof.
  destruct s as [|c ds]; cbn; [discriminate|].
  rewrite !andb_true_iff, Nat.eqb_eq. intros [[Hc Hlen] Hds].
  split; [|split; [now rewrite Hlen|now exists c, ds]].
  split; [|exact Hds]. unfold is_1_or_7 in Hc. rewrite orb_true_iff, !N.eqb_eq in Hc.
  now destruct Hc as [-> | ->].
Qed.

Lemma kenyan_phone_normal_form (s : jsstring) :
  kenyan_phone s = true ->
  exists n,
    subscriber_part n = true /\
    (s = units "+254" ++ n \/ s = units "254" ++ n \/ s = units "0" ++ n)%list /\
    formatPhoneNumber s = (units "254" ++ n)%list /\
    List.length (formatPhoneNumber s) = 12%nat /\
    List.forallb is_digit (formatPhoneNumber s) = true.
Proof.
  unfold kenyan_phone. intros H.
  assert (forall n, subscriber_part n = true ->
            formatPhoneNumber (units "+254" ++ n)%list = (units "254" ++ n)%list /\
            formatPhoneNumber (units "254" ++ n)%list = (units "254" ++ n)%list /\
            formatPhoneNumber (units "0" ++ n)%list = (units "254" ++ n)%list /\
            List.length (units "254" ++ n)%list = 12%nat /\
            List.forallb is_digit (units "254" ++ n)%list = true) as Hforms.
  { intros n Hn. destruct (subscriber_part_digits n Hn) as (Hd & Hlen & _).
    unfold formatPhoneNumber. rewrite !strip_app, (strip_digits n Hd).
    repeat split; try reflexivity.
    - rewrite List.length_app, Hlen. reflexivity.
    - rewrite List.forallb_app, Hd. reflexivity. }
  destruct (startsWith (units "+254") s) eqn:Hplus.
  - apply startsWith_split in Hplus. destruct Hplus as [n ->].
    cbn in H. destruct (Hforms n H) as (E & _ & _ & Hlen & Hd).
    exists n. rewrite E. auto 10.
  - destruct (startsWith (units "254") s) eqn:Hbare.
    + apply startsWith_split in Hbare. destruct Hbare as [n ->].
      cbn in H. destruct (Hforms n H) as (_ & E & _ & Hlen & Hd).
      exists n. rewrite E. auto 10.
    + destruct (startsWith (units "0") s) eqn:Hzero; [|discriminate].
      apply startsWith_split in Hzero. destruct Hzero as [n ->].
      cbn in H. destruct (Hforms n H) as (_ & _ & E & Hlen & Hd).
      exists n. rewrite E. auto 10.
Qed.

(** X4.  A phone number accepted by the initiation schema is normalised to the
    twelve digits 254 followed by the nine-digit subscriber number, which
    starts with 1 or 7: the three accepted spellings of one subscriber give
    one token. *)
Theorem accepted_phone_is_canonical (s : jsstring) :
  kenyan_phone s = true ->
  exists n,
    subscriber_part n = true /\
    (s = units "+254" ++ n \/ s = units "254" ++ n \/ s = units "0" ++ n)%list /\
    formatPhoneNumber s = (units "254" ++ n)%list /\
    List.length (formatPhoneNumber s) = 12%nat /\
    List.forallb is_digit (formatPhoneNumber s) = true.
Proof. exact (kenyan_phone_normal_form s). Qed.

Lemma accepted_phone_is_canonical_witness :
  exists n,
    subscriber_part n = true /\
    (units "0703757369" = units "+254" ++ n \/ units "0703757369" = units "254" ++ n
     \/ units "0703757369" = units "0" ++ n)%list /\
    formatPhoneNumber (units "0703757369") = (units "254" ++ n)%list /\
    List.length (formatPhoneNumber (units "0703757369")) = 12%nat /\
    List.forallb is_digit (formatPhoneNumber (units "0703757369")) = true.
Proof.
  exact (accepted_phone_is_canonical (units "0703757369") eq_refl).
Defined.

(** ** The Campaign virtuals, further *)

Lemma positive_goal_is_nonzero (c : Campaign) :
  0 < goalAmount c -> Qeq_bool (goalAmount c) 0 = false.
Proof.
  intros Hpos. destruct (Qeq_bool (goalAmount c) 0) eqn:E; [|reflexivity].
  apply Qeq_bool_iff in E. rewrite E in Hpos. discriminate.
Qed.

Lemma percentage_of_positive_goal (c : Campaign) :
  0 < goalAmount c ->
  completionPercentage c
  = Z.min (Math_round (mul64 (div64 (currentAmount c) (goalAmount c)) 100)) 100.
Proof.
  intros Hpos. unfold completionPercentage, Math_min.
  now rewrite (positive_goal_is_nonzero c Hpos).
Qed.

(** X5.  From 99.5 % of the goal on the displayed percentage is 100: rounding
    shows a campaign as full before its goal is met.  Conversely a
    percentage of 100 means that at least 99.49 % of the goal is in. *)
Theorem percentage_is_full_from_199_200ths (c : Campaign) :
  0 < goalAmount c ->
  (199 * goalAmount c <= 200 * currentAmount c -> completionPercentage c = 100%Z) /\
  (completionPercentage c = 100%Z -> 9949 * goalAmount c <= 10000 * currentAmount c).
Proof.
  intros Hpos. rewrite (percentage_of_positive_goal c Hpos).
  unfold mul64, div64.
  set (q := currentAmount c / goalAmount c).
  assert (currentAmount c == q * goalAmount c) as Hq by (unfold q; field; lra).
  assert (forall a b, a * goalAmount c <= b * goalAmount c <-> a <= b) as Hscale.
  { intros a b. split; intros H; [|apply Qmult_le_compat_r; lra].
    apply Qmult_lt_0_le_reg_r with (goalAmount c); assumption. }
  split.
  - intros Hfull.
    assert (199 # 200 <= q) as Hq'.
    { apply (Hscale (199 # 200) q). rewrite <- Hq. lra. }
    assert (199 # 2 <= binary64 (binary64 q * 100)) as Hp.
    { apply Qle_trans with (binary64 (binary64 (199 # 200) * 100));
        [vm_compute; discriminate|].
      apply binary64_le. apply Qmult_le_compat_r; [|discriminate].
      now apply binary64_le. }
    assert (100 <= Math_round (binary64 (binary64 q * 100)))%Z.
    { change 100%Z with (Math_round (199 # 2)). now apply Math_round_le. }
    lia.
  - intros Hshown.
    assert (100 <= Math_round (binary64 (binary64 q * 100)))%Z as Hround by lia.
    unfold Math_round in Hround. apply floor_at_least in Hround.
    change (inject_Z 100) with 100 in Hround.
    assert (9949 # 10000 <= q) as Hq';
      [|apply (Hscale (9949 # 10000) q) in Hq'; rewrite <- Hq in Hq'; lra].
    destruct (Qlt_le_dec q (9949 # 10000)) as [Hlow|Hok]; [exfalso|exact Hok].
    set (E := inject_Z (2 ^ 53)). assert (E == 9007199254740992) as HE by reflexivity.
    destruct (Qlt_le_dec q 0) as [Hneg|Hnonneg].
    + assert (binary64 q <= 0) as Hf.
      { rewrite <- (binary64_zero 0) by reflexivity. apply binary64_le. lra. }
      assert (binary64 (binary64 q * 100) <= 0) as Hv.
      { rewrite <- (binary64_zero 0) by reflexivity. apply binary64_le. lra. }
      lra.
    + destruct (binary64_error q Hnonneg) as [_ F2]. fold E in F2.
      set (f := binary64 q) in *.
      assert (q / E <= q * (1 # 1000000)) as Hd.
      { apply Qle_shift_div_r; [lra|]. nra. }
      destruct (Qlt_le_dec (f * 100) 0) as [Hwneg|Hw].
      * assert (binary64 (f * 100) <= 0) as Hv.
        { rewrite <- (binary64_zero 0) by reflexivity. apply binary64_le. lra. }
        lra.
      * destruct (binary64_error (f * 100) Hw) as [_ V2]. fold E in V2.
        assert (f * 100 / E <= f * 100 * (1 # 1000000)) as Hw2.
        { apply Qle_shift_div_r; [lra|]. nra. }
        lra.
Qed.

Lemma percentage_is_full_from_199_200ths_witness :
  completionPercentage (mkCampaign "c1" "Roof fund" 1000 995 active) = 100%Z.
Proof.
  apply (proj1 (percentage_is_full_from_199_200ths
                  (mkCampaign "c1" "Roof fund" 1000 995 active) eq_refl)).
  discriminate.
Defined.

(** X6.  For a positive goal the percentage grows with the accumulated amount,
    and it is not negative when that amount is not. *)
Theorem percentage_is_monotone (c1 c2 : Campaign) :
  goalAmount c1 = goalAmount c2 -> 0 < goalAmount c1 ->
  currentAmount c1 <= currentAmount c2 ->
  (completionPercentage c1 <= completionPercentage c2)%Z /\
  (0 <= currentAmount c1 -> (0 <= completionPercentage c1)%Z).
Proof.
  intros Hgoal Hpos Hle.
  rewrite (percentage_of_positive_goal c1 Hpos).
  rewrite (percentage_of_positive_goal c2) by now rewrite <- Hgoal.
  rewrite <- Hgoal. unfold mul64, div64.
  assert (0 < / goalAmount c1) as Hinv by now apply Qinv_lt_0_compat.
  split.
  - apply Z.min_le_compat_r, Math_round_le, binary64_le.
    apply Qmult_le_compat_r; [|discriminate]. apply binary64_le.
    unfold Qdiv. apply Qmult_le_compat_r; [exact Hle|now apply Qlt_le_weak].
  - intros Hcur. apply Z.min_glb; [|lia].
    change 0%Z with (Math_round 0). apply Math_round_le.
    rewrite <- (binary64_zero 0) at 1 by reflexivity. apply binary64_le.
    assert (0 <= binary64 (currentAmount c1 / goalAmount c1)) as Hr.
    { rewrite <- (binary64_zero 0) at 1 by reflexivity. apply binary64_le.
      apply Qle_shift_div_l; [exact Hpos|now rewrite Qmult_0_l]. }
    lra.
Qed.

Lemma percentage_is_monotone_witness :
  (completionPercentage (mkCampaign "c1" "Roof fund" 1000 250 active)
   <= completionPercentage (mkCampaign "c1" "Roof fund" 1000 400 active))%Z.
Proof.
  refine (proj1 (percentage_is_monotone
                   (mkCampaign "c1" "Roof fund" 1000 250 active)
                   (mkCampaign "c1" "Roof fund" 1000 400 active) eq_refl eq_refl _)).
  discriminate.
Defined.

(** X7.  The remaining amount is zero exactly when the goal is met, and it
    is positive below the goal, where the accumulated and the remaining
    amounts add up to the goal up to the rounding of the difference. *)
Theorem remaining_complements_current (c : Campaign) :
  (remainingAmount c == 0 <-> goalAmount c <= currentAmount c) /\
  (currentAmount c < goalAmount c ->
   0 < remainingAmount c /\
   let gap := goalAmount c - currentAmount c in
   goalAmount c - gap / inject_Z (2 ^ 53) <= currentAmount c + remainingAmount c /\
   currentAmount c + remainingAmount c <= goalAmount c + gap / inject_Z (2 ^ 53)).
Proof.
  unfold remainingAmount, Math_max, sub64.
  set (gap := goalAmount c - currentAmount c).
  destruct (binary64_sign gap) as (Hpos & Hneg & Hzero).
  destruct (Qle_bool (binary64 gap) 0) eqn:E.
  - apply Qle_bool_iff in E.
    assert (gap <= 0) as Hgap.
    { apply Qnot_lt_le. intros H. specialize (Hpos H). lra. }
    split; [split; intros H; [unfold gap in Hgap; lra|reflexivity]|].
    intros H. exfalso. unfold gap in Hgap. lra.
  - assert (0 < binary64 gap) as Hb.
    { apply Qnot_le_lt. intros H. apply Qle_bool_iff in H. congruence. }
    assert (0 < gap) as Hgap.
    { apply Qnot_le_lt. intros H.
      destruct (Qle_lt_or_eq _ _ H) as [H'|H'];
        [specialize (Hneg H')|specialize (Hzero H')]; lra. }
    split; [split; intros H; [lra|unfold gap in Hgap; lra]|].
    intros _. split; [exact Hb|]. cbv zeta.
    destruct (binary64_error gap) as [B1 B2]; [lra|].
    unfold gap in *. split; lra.
Qed.

Lemma remaining_complements_current_witness :
  0 < remainingAmount (mkCampaign "c1" "Roof fund" 1000 250 active).
Proof.
  refine (proj1 (proj2 (remaining_complements_current
                          (mkCampaign "c1" "Roof fund" 1000 250 active)) _)).
  reflexivity.
Defined.

(** ** The M-Pesa timestamp *)

Lemma string_length_append (a b : string) :
  String.length (a ++ b) = (String.length a + String.length b)%nat.
Proof. induction a as [|x a IH]; cbn; [reflexivity|now rewrite IH]. Qed.

Lemma string_append_inj (a a' b b' : string) :
  String.length a = String.length a' -> a ++ b = a' ++ b' -> a = a' /\ b = b'.
Proof.
  revert a'. induction a as [|x a IH]; intros [|x' a']; cbn; try discriminate.
  - auto.
  - intros [= Hlen] [= -> Htail]. destruct (IH a' Hlen Htail) as [-> ->]. auto.
Qed.

Lemma list_ascii_append (a b : string) :
  list_ascii_of_string (a ++ b)
  = (list_ascii_of_string a ++ list_ascii_of_string b)%list.
Proof. induction a as [|x a IH]; cbn; [reflexivity|now rewrite IH]. Qed.

(** A boolean test run over a range of integers holds on the range. *)
Lemma holds_on_range (P : Z -> bool) (lo len : Z) :
  List.forallb (fun i => P (lo + Z.of_nat i)%Z) (List.seq 0 (Z.to_nat len)) = true ->
  forall z, (lo <= z < lo + len)%Z -> P z = true.
Proof.
  intros Hall z Hz. rewrite List.forallb_forall in Hall.
  specialize (Hall (Z.to_nat (z - lo))).
  replace (lo + Z.of_nat (Z.to_nat (z - lo)))%Z with z in Hall by lia.
  apply Hall. apply List.in_seq. lia.
Qed.

Lemma year_is_four_digits (y : Z) :
  (1000 <= y <= 9999)%Z ->
  String.length (toString y) = 4%nat /\ all_digits (toString y) = true.
Proof.
  intros Hy.
  pose proof (holds_on_range
                (fun y => (Nat.eqb (String.length (toString y)) 4
                           && all_digits (toString y))%bool) 1000 9000) as H.
  specialize (H ltac:(vm_compute; reflexivity) y ltac:(lia)). cbv beta in H.
  apply andb_true_iff in H. destruct H as [H1 H2].
  now apply Nat.eqb_eq in H1.
Qed.

Lemma field_is_two_digits (n : Z) :
  (0 <= n <= 99)%Z ->
  String.length (padStart2 (toString n)) = 2%nat /\
  all_digits (padStart2 (toString n)) = true.
Proof.
  intros Hn.
  pose proof (holds_on_range
                (fun n => (Nat.eqb (String.length (padStart2 (toString n))) 2
                           && all_digits (padStart2 (toString n)))%bool) 0 100) as H.
  specialize (H ltac:(vm_compute; reflexivity) n ltac:(lia)). cbv beta in H.
  apply andb_true_iff in H. destruct H as [H1 H2].
  now apply Nat.eqb_eq in H1.
Qed.

Lemma year_is_injective (a b : Z) :
  (1000 <= a <= 9999)%Z -> (1000 <= b <= 9999)%Z ->
  toString a = toString b -> a = b.
Proof.
  intros Ha Hb Heq.
  pose proof (holds_on_range
                (fun y => match NilZero.int_of_string (toString y) with
                          | Some d => (Z.of_int d =? y)%Z
                          | None => false
                          end) 1000 9000 ltac:(vm_compute; reflexivity)) as H.
  pose proof (H a ltac:(lia)) as Da. pose proof (H b ltac:(lia)) as Db.
  cbv beta in Da, Db. rewrite Heq in Da.
  destruct (NilZero.int_of_string (toString b)); [|discriminate].
  apply Z.eqb_eq in Da, Db. congruence.
Qed.

Lemma field_is_injective (a b : Z) :
  (0 <= a <= 99)%Z -> (0 <= b <= 99)%Z ->
  padStart2 (toString a) = padStart2 (toString b) -> a = b.
Proof.
  intros Ha Hb Heq.
  pose proof (holds_on_range
                (fun a => List.forallb
                            (fun j => implb (String.eqb (padStart2 (toString a))
                                               (padStart2 (toString (Z.of_nat j))))
                                        (a =? Z.of_nat j)%Z)
                            (List.seq 0 100)) 0 100) as H.
  specialize (H ltac:(vm_compute; reflexivity) a ltac:(lia)). cbv beta in H.
  rewrite List.forallb_forall in H. specialize (H (Z.to_nat b)).
  rewrite Z2Nat.id in H by lia.
  specialize (H ltac:(apply List.in_seq; lia)).
  rewrite Heq, String.eqb_refl in H. cbn in H. now apply Z.eqb_eq.
Qed.

Ltac date_ranges H :=
  unfold plausible_date in H;
  repeat (apply andb_true_iff in H; let H' := fresh "R" in destruct H as [H H']);
  repeat match goal with
         | R : (_ <=? _)%Z = true |- _ => apply Z.leb_le in R
         end.

(** X8.  For a date with a four-digit year the timestamp is fourteen decimal
    digits, the format the provider expects. *)
Theorem timestamp_is_fourteen_digits (d : DateParts) :
  plausible_date d = true ->
  String.length (generateTimestamp d) = 14%nat /\
  all_digits (generateTimestamp d) = true.
Proof.
  intros H. date_ranges H.
  destruct (year_is_four_digits (getFullYear d) ltac:(lia)) as [Ly Dy].
  destruct (field_is_two_digits (getMonth d + 1) ltac:(lia)) as [Lm Dm].
  destruct (field_is_two_digits (getDate d) ltac:(lia)) as [Ld Dd].
  destruct (field_is_two_digits (getHours d) ltac:(lia)) as [Lh Dh].
  destruct (field_is_two_digits (getMinutes d) ltac:(lia)) as [Li Di].
  destruct (field_is_two_digits (getSeconds d) ltac:(lia)) as [Ls Ds].
  unfold generateTimestamp. cbv zeta. split.
  - rewrite !string_length_append, Ly, Lm, Ld, Lh, Li, Ls. reflexivity.
  - unfold all_digits in *. rewrite !list_ascii_append, !List.forallb_app.
    now rewrite Dy, Dm, Dd, Dh, Di, Ds.
Qed.

Lemma timestamp_is_fourteen_digits_witness :
  generateTimestamp (mkDateParts 2026 0 5 9 3 7) = "20260105090307" /\
  String.length (generateTimestamp (mkDateParts 2026 0 5 9 3 7)) = 14%nat.
Proof.
  split; [reflexivity|].
  exact (proj1 (timestamp_is_fourteen_digits (mkDateParts 2026 0 5 9 3 7) eq_refl)).
Defined.

(** X9.  Two such dates that differ in a reading differ in their timestamps: the
    timestamp loses nothing down to the second. *)
Theorem timestamp_is_injective (d1 d2 : DateParts) :
  plausible_date d1 = true -> plausible_date d2 = true ->
  generateTimestamp d1 = generateTimestamp d2 -> d1 = d2.
Proof.
  intros H1 H2 Heq. date_ranges H1. date_ranges H2.
  unfold generateTimestamp in Heq. cbv zeta in Heq.
  apply string_append_inj in Heq;
    [|now rewrite (proj1 (year_is_four_digits (getFullYear d1) ltac:(lia))),
                  (proj1 (year_is_four_digits (getFullYear d2) ltac:(lia)))].
  destruct Heq as [Ey Heq]. apply year_is_injective in Ey; [|lia|lia].
  apply string_append_inj in Heq;
    [|now rewrite (proj1 (field_is_two_digits (getMonth d1 + 1) ltac:(lia))),
                  (proj1 (field_is_two_digits (getMonth d2 + 1) ltac:(lia)))].
  destruct Heq as [Em Heq]. apply field_is_injective in Em; [|lia|lia].
  apply string_append_inj in Heq;
    [|now rewrite (proj1 (field_is_two_digits (getDate d1) ltac:(lia))),
                  (proj1 (field_is_two_digits (getDate d2) ltac:(lia)))].
  destruct Heq as [Ed Heq]. apply field_is_injective in Ed; [|lia|lia].
  apply string_append_inj in Heq;
    [|now rewrite (proj1 (field_is_two_digits (getHours d1) ltac:(lia))),
                  (proj1 (field_is_two_digits (getHours d2) ltac:(lia)))].
  destruct Heq as [Eh Heq]. apply field_is_injective in Eh; [|lia|lia].
  apply string_append_inj in Heq;
    [|now rewrite (proj1 (field_is_two_digits (getMinutes d1) ltac:(lia))),
                  (proj1 (field_is_two_digits (getMinutes d2) ltac:(lia)))].
  destruct Heq as [Ei Es]. apply field_is_injective in Ei; [|lia|lia].
  apply field_is_injective in Es; [|lia|lia].
  destruct d1, d2. cbn in *. f_equal; lia.
Qed.

Lemma timestamp_is_injective_witness :
  generateTimestamp (mkDateParts 2026 0 5 9 3 7)
  <> generateTimestamp (mkDateParts 2026 0 5 9 3 8).
Proof.
  intros Heq.
  pose proof (timestamp_is_injective (mkDateParts 2026 0 5 9 3 7)
                (mkDateParts 2026 0 5 9 3 8) eq_refl eq_refl Heq) as Hsame.
  discriminate Hsame.
Defined.

(** ** The M-Pesa callback parser, further *)

(** Reading one metadata item off an object never throws and touches at
    most the field named by the item. *)
Lemma apply_item_object (res : CallbackResult) (item : value) :
  is_object item = true ->
  exists res',
    apply_item res item = inr res' /\
    cb_success res' = cb_success res /\
    merchantRequestID res' = merchantRequestID res /\
    checkoutRequestID res' = checkoutRequestID res /\
    resultCode res' = resultCode res /\
    resultDescription res' = resultDescription res /\
    cb_amount res' =
      (if named "Amount" item then value_of item else cb_amount res) /\
    mpesaReceiptNumber res' =
      (if named "MpesaReceiptNumber" item then value_of item
       else mpesaReceiptNumber res) /\
    transactionDate res' =
      (if named "TransactionDate" item then value_of item
       else transactionDate res) /\
    phoneNumber res' =
      (if named "PhoneNumber" item then value_of item else phoneNumber res).
Proof.
  destruct item as [| | | | | | |fields]; try discriminate. intros _.
  unfold apply_item, named, value_of, rbind, get.
  destruct (assoc "Name" fields) as [| | | | |n| |]; cbn;
    try (eexists; repeat split; reflexivity).
  destruct (String.eqb n "Amount") eqn:E1.
  { apply String.eqb_eq in E1. subst n. eexists. repeat split; reflexivity. }
  destruct (String.eqb n "MpesaReceiptNumber") eqn:E2.
  { apply String.eqb_eq in E2. subst n. eexists. repeat split; reflexivity. }
  destruct (String.eqb n "TransactionDate") eqn:E3.
  { apply String.eqb_eq in E3. subst n. eexists. repeat split; reflexivity. }
  destruct (String.eqb n "PhoneNumber") eqn:E4;
    eexists; repeat split; reflexivity.
Qed.

Lemma forEach_items_objects (items : list value) (res : CallbackResult) :
  List.forallb is_object items = true ->
  let step name := fun found item => if named name item then value_of item else found in
  exists res',
    forEach_items items res = inr res' /\
    cb_success res' = cb_success res /\
    merchantRequestID res' = merchantRequestID res /\
    checkoutRequestID res' = checkoutRequestID res /\
    resultCode res' = resultCode res /\
    resultDescription res' = resultDescription res /\
    cb_amount res' = List.fold_left (step "Amount") items (cb_amount res) /\
    mpesaReceiptNumber res' =
      List.fold_left (step "MpesaReceiptNumber") items (mpesaReceiptNumber res) /\
    transactionDate res' =
      List.fold_left (step "TransactionDate") items (transactionDate res) /\
    phoneNumber res' = List.fold_left (step "PhoneNumber") items (phoneNumber res).
Proof.
  cbv zeta. revert res.
  induction items as [|item items IH]; intros res; cbn [List.forallb].
  - intros _. exists res. cbn. repeat split; reflexivity.
  - rewrite andb_true_iff. intros [Hitem Hitems].
    destruct (apply_item_object res item Hitem)
      as (res1 & Hrun & H1 & H2 & H3 & H4 & H5 & H6 & H7 & H8 & H9).
    destruct (IH res1 Hitems)
      as (res' & Hrest & G1 & G2 & G3 & G4 & G5 & G6 & G7 & G8 & G9).
    exists res'. cbn [forEach_items List.fold_left]. unfold rbind. rewrite Hrun.
    split; [exact Hrest|].
    rewrite G1, G2, G3, G4, G5, G6, G7, G8, G9, H1, H2, H3, H4, H5, H6, H7, H8, H9.
    repeat split; reflexivity.
Qed.

(** X10.  A callback of the declared shape always parses: the parser returns the
    identifiers, code and description that the payload carries under
    [Body.stkCallback], and reports success exactly for result code 0. *)
Theorem well_formed_callback_parses (p : value) :
  well_formed_callback p = true ->
  exists b stk r merchant token code description,
    get p "Body" = inr b /\ get b "stkCallback" = inr (VObj stk) /\
    assoc "MerchantRequestID" stk = VStr merchant /\
    assoc "CheckoutRequestID" stk = VStr token /\
    assoc "ResultCode" stk = VNum code /\
    assoc "ResultDesc" stk = VStr description /\
    processCallback p = inr r /\
    merchantRequestID r = VStr merchant /\ checkoutRequestID r = VStr token /\
    resultCode r = VNum code /\ resultDescription r = VStr description /\
    cb_success r = Qeq_bool code 0.
Proof.
  unfold well_formed_callback.
  destruct p as [| | | | | | |top]; try discriminate.
  destruct (assoc "Body" top) as [| | | | | | |body] eqn:Hbody; try discriminate.
  destruct (assoc "stkCallback" body) as [| | | | | | |stk] eqn:Hstk; try discriminate.
  rewrite !andb_true_iff. intros [[[[Hm Ht] Hc] Hd] Hmeta].
  destruct (assoc "MerchantRequestID" stk) as [| | | | |merchant| |] eqn:Em;
    try discriminate.
  destruct (assoc "CheckoutRequestID" stk) as [| | | | |token| |] eqn:Et;
    try discriminate.
  destruct (assoc "ResultCode" stk) as [| | |code| | | |] eqn:Ec; try discriminate.
  destruct (assoc "ResultDesc" stk) as [| | | | |description| |] eqn:Ed;
    try discriminate.
  exists (VObj body), stk.
  unfold processCallback, rbind, get. rewrite Hbody, Hstk, Em, Et, Ec, Ed.
  cbn [strict_eq_zero].
  destruct (assoc "CallbackMetadata" stk) as [| | | | | | |meta] eqn:Emeta;
    try discriminate.
  - cbn [truthy]. rewrite andb_false_r.
    eexists. exists merchant, token, code, description.
    do 7 (split; [reflexivity|]). cbn. repeat split; reflexivity.
  - cbn [truthy]. rewrite andb_true_r.
    destruct (Qeq_bool code 0) eqn:Hcode.
    + destruct (assoc "Item" meta) as [| | | | | |items|]; try discriminate.
      assert (List.forallb is_object items = true) as Hobjects.
      { rewrite List.forallb_forall in *. intros x Hx. specialize (Hmeta x Hx).
        now destruct x. }
      match goal with
      | |- context [forEach_items items ?res] =>
          destruct (forEach_items_objects items res Hobjects)
            as (r & Hrun & H1 & H2 & H3 & H4 & H5 & _)
      end.
      cbn in H1, H2, H3, H4, H5.
      rewrite ?Hcode in H1.
      exists r, merchant, token, code, description. rewrite Hrun.
      do 7 (split; [reflexivity|]).
      repeat split; try assumption; congruence.
    + eexists. exists merchant, token, code, description.
      do 7 (split; [reflexivity|]). cbn. repeat split. now rewrite Hcode.
Qed.

Lemma well_formed_callback_parses_witness :
  exists b stk r merchant token code description,
    get (stk_callback "ws_CO_1" 0) "Body" = inr b /\
    get b "stkCallback" = inr (VObj stk) /\
    assoc "MerchantRequestID" stk = VStr merchant /\
    assoc "CheckoutRequestID" stk = VStr token /\
    assoc "ResultCode" stk = VNum code /\
    assoc "ResultDesc" stk = VStr description /\
    processCallback (stk_callback "ws_CO_1" 0) = inr r /\
    merchantRequestID r = VStr merchant /\ checkoutRequestID r = VStr token /\
    resultCode r = VNum code /\ resultDescription r = VStr description /\
    cb_success r = Qeq_bool code 0.
Proof.
  exact (well_formed_callback_parses (stk_callback "ws_CO_1" 0) eq_refl).
Defined.

(** X11.  A callback that does not report result code 0 yields none of the four
    metadata fields, whatever metadata the payload carries. *)
Theorem failed_callback_carries_no_metadata (body : value) (r : CallbackResult) :
  processCallback body = inr r -> cb_success r = false ->
  cb_amount r = VUndefined /\ mpesaReceiptNumber r = VUndefined /\
  transactionDate r = VUndefined /\ phoneNumber r = VUndefined.
Proof.
  unfold processCallback, rbind.
  destruct (get body "Body") as [|b]; [discriminate|].
  destruct (get b "stkCallback") as [|s]; [discriminate|].
  destruct (get s "ResultCode") as [|code]; [discriminate|].
  destruct (get s "MerchantRequestID") as [|m]; [discriminate|].
  destruct (get s "CheckoutRequestID") as [|c]; [discriminate|].
  destruct (get s "ResultDesc") as [|d]; [discriminate|].
  destruct (get s "CallbackMetadata") as [|meta]; [discriminate|].
  destruct (strict_eq_zero code) eqn:Hcode; cbn [andb].
  - destruct (truthy meta).
    + destruct (get meta "Item") as [|[]]; try discriminate.
      intros Hrun Hok. apply forEach_items_keeps in Hrun.
      cbn in Hrun. destruct Hrun as [Hrun _]. congruence.
    + intros [= <-]. cbn. discriminate.
  - intros [= <-]. cbn. auto.
Qed.

Lemma failed_callback_carries_no_metadata_witness :
  exists r,
    processCallback (stk_callback "ws_CO_1" 1032) = inr r /\
    cb_amount r = VUndefined /\ mpesaReceiptNumber r = VUndefined /\
    transactionDate r = VUndefined /\ phoneNumber r = VUndefined.
Proof.
  eexists. split; [reflexivity|].
  exact (failed_callback_carries_no_metadata (stk_callback "ws_CO_1" 1032) _
           eq_refl eq_refl).
Defined.

(** X12.  On result code 0 with a metadata array of objects, each of the four
    fields holds the value of the last item of that name, and is undefined
    when no item has the name; items of other names are ignored. *)
Theorem successful_callback_reads_metadata (p b : value)
    (stk meta : list (string * value)) (items : list value) :
  get p "Body" = inr b -> get b "stkCallback" = inr (VObj stk) ->
  strict_eq_zero (assoc "ResultCode" stk) = true ->
  assoc "CallbackMetadata" stk = VObj meta ->
  assoc "Item" meta = VArr items ->
  List.forallb is_object items = true ->
  exists r,
    processCallback p = inr r /\ cb_success r = true /\
    cb_amount r = last_named "Amount" items /\
    mpesaReceiptNumber r = last_named "MpesaReceiptNumber" items /\
    transactionDate r = last_named "TransactionDate" items /\
    phoneNumber r = last_named "PhoneNumber" items.
Proof.
  intros Hbody Hstk Hcode Hmeta Hitems Hobjects.
  unfold processCallback, rbind. rewrite Hbody, Hstk. cbn [get].
  rewrite Hcode, Hmeta. cbn [truthy andb get]. rewrite Hitems.
  match goal with
  | |- context [forEach_items items ?res] =>
      destruct (forEach_items_objects items res Hobjects)
        as (r & Hrun & H1 & _ & _ & _ & _ & H6 & H7 & H8 & H9)
  end.
  exists r. rewrite Hrun. cbn in H1.
  repeat split; assumption.
Qed.

Lemma successful_callback_reads_metadata_witness :
  exists r,
    processCallback (stk_callback "ws_CO_1" 0) = inr r /\ cb_success r = true /\
    cb_amount r = VNum 1000 /\ mpesaReceiptNumber r = VStr "NLJ7RT61SV" /\
    transactionDate r = VUndefined /\ phoneNumber r = VNum 254703757369.
Proof.
  refine (successful_callback_reads_metadata (stk_callback "ws_CO_1" 0) _ _ _ _
            eq_refl eq_refl eq_refl eq_refl eq_refl eq_refl).
Defined.

(* ================================================================== *)
(** * Part X. Further properties of reconciliation *)
(* ================================================================== *)

Section Saving.
Context {Doc : Type} (id_of : Doc -> ObjectId).

Lemma save_keeps_ids (d : Doc) (docs : list Doc) :
  List.map id_of (save id_of d docs) = List.map id_of docs.
Proof.
  unfold save. induction docs as [|a docs IH]; cbn; [reflexivity|].
  rewrite IH. destruct (String.eqb (id_of a) (id_of d)) eqn:E; [|reflexivity].
  apply String.eqb_eq in E. now rewrite E.
Qed.

Lemma in_save (x d : Doc) (docs : list Doc) :
  In x (save id_of d docs) -> x = d \/ In x docs.
Proof.
  unfold save. rewrite List.in_map_iff. intros (a & Ha & Hin).
  destruct (String.eqb (id_of a) (id_of d)); subst; auto.
Qed.

Lemma findById_in (id : ObjectId) (docs : list Doc) (x : Doc) :
  findById id_of id docs = Some x -> In x docs.
Proof. unfold findById, findOne. intros H. now apply List.find_some in H. Qed.
End Saving.

Lemma campaigns_credited_keeps_ids (k : Contribution) (c : Campaign) (cs : list Campaign) :
  List.map campaign_id (campaigns_credited k c cs) = List.map campaign_id cs.
Proof.
  unfold campaigns_credited. destruct (goal_reached k c);
    now rewrite !save_keeps_ids.
Qed.

(** ** Events other than [charge.success] *)


(** ** Documents are neither created nor deleted *)

(** X14.  A reconciliation call keeps the identities of the documents of every
    collection, in their order: it only rewrites documents in place. *)
Theorem reconcile_keeps_document_ids (t : trigger) (w : World) :
  let w' := fst (reconcile t w) in
  List.map transaction_id (transactions w') = List.map transaction_id (transactions w) /\
  List.map contribution_id (contributions w')
  = List.map contribution_id (contributions w) /\
  List.map campaign_id (campaigns w') = List.map campaign_id (campaigns w) /\
  users w' = users w.
Proof.
  cbv zeta. world w.
  destruct t as [body|f reference|div body]; open_handler; explore;
    rewrite ?save_keeps_ids, ?campaigns_credited_keeps_ids; auto.
Qed.

(** ** What a call leaves alone *)

(** A campaign other than the credited one reads the same afterwards. *)
Lemma other_campaigns_untouched (t : trigger) (w : World) :
  exists credited_id,
    forall id, id <> credited_id ->
      findById campaign_id id (campaigns (fst (reconcile t w)))
      = findById campaign_id id (campaigns w).
Proof.
  destruct (reconcile_campaigns t w) as [-> | (k & c & Hc & ->)].
  - exists "". reflexivity.
  - exists (campaign_id c). intros id Hne.
    apply campaigns_credited_elsewhere. congruence.
Qed.

(** For the transactions and the contributions: the call is the identity or
    one [save]. *)
Lemma reconcile_saves_at_most_one (t : trigger) (w : World) :
  (transactions (fst (reconcile t w)) = transactions w \/
   exists tx, transactions (fst (reconcile t w))
              = save transaction_id tx (transactions w)) /\
  (contributions (fst (reconcile t w)) = contributions w \/
   exists k0 k, findById contribution_id (contribution_id k) (contributions w) = Some k0 /\
                same_pledge k0 k /\
                contributions (fst (reconcile t w))
                = save contribution_id k (contributions w)).
Proof.
  world w. destruct t as [body|f reference|div body]; open_handler; explore.
  all: split; [first [left; reflexivity | right; eexists; reflexivity]|].
  all: try (left; reflexivity).
  all: right; do 2 eexists; (split; [|split; [|reflexivity]]);
    [cbn; match goal with
          | H : findById contribution_id _ ?ks = Some ?k |- _ =>
              rewrite <- (findById_id _ _ _ _ H) in H; exact H
          end
    | cbn; repeat split; reflexivity].
Qed.

(** X15.  A reconciliation call changes at most one transaction, one contribution
    and one campaign: every document with another identity reads the same
    before and after. *)
Theorem reconcile_touches_one_document_each (t : trigger) (w : World) :
  exists tid kid cid,
    let w' := fst (reconcile t w) in
    (forall id, id <> tid ->
       findById transaction_id id (transactions w')
       = findById transaction_id id (transactions w)) /\
    (forall id, id <> kid ->
       findById contribution_id id (contributions w')
       = findById contribution_id id (contributions w)) /\
    (forall id, id <> cid ->
       findById campaign_id id (campaigns w')
       = findById campaign_id id (campaigns w)).
Proof.
  destruct (reconcile_saves_at_most_one t w) as [Htx Hk].
  destruct (other_campaigns_untouched t w) as [cid Hc].
  assert (exists tid, forall id, id <> tid ->
            findById transaction_id id (transactions (fst (reconcile t w)))
            = findById transaction_id id (transactions w)) as [tid Ht].
  { destruct Htx as [-> | [tx ->]].
    - exists "". reflexivity.
    - exists (transaction_id tx). intros id Hne.
      apply findById_save_other. congruence. }
  assert (exists kid, forall id, id <> kid ->
            findById contribution_id id (contributions (fst (reconcile t w)))
            = findById contribution_id id (contributions w)) as [kid Hkid].
  { destruct Hk as [-> | (k0 & k & _ & _ & ->)].
    - exists "". reflexivity.
    - exists (contribution_id k). intros id Hne.
      apply findById_save_other. congruence. }
  exists tid, kid, cid. cbv zeta. auto.
Qed.

(** ** The accumulated amount never decreases *)

Lemma amounts_come_from_the_store (t : trigger) (w : World) (k' : Contribution) :
  In k' (contributions (fst (reconcile t w))) ->
  exists k, In k (contributions w) /\ amount k' = amount k.
Proof.
  destruct (reconcile_saves_at_most_one t w) as [_ [-> | (k0 & k & Hk0 & Hsame & ->)]].
  - intros H. now exists k'.
  - intros H. apply in_save in H. destruct H as [-> | H]; [|now exists k'].
    exists k0. split; [now apply findById_in in Hk0|].
    now destruct Hsame as (_ & _ & _ & -> & _).
Qed.

Lemma credit_comes_from_the_store (t : trigger) (w : World) :
  campaigns (fst (reconcile t w)) = campaigns w
  \/ exists k0 k c,
       In k0 (contributions w) /\ amount k = amount k0 /\
       findById campaign_id (campaignId k) (campaigns w) = Some c /\
       campaigns (fst (reconcile t w)) = campaigns_credited k c (campaigns w).
Proof.
  world w. destruct t as [body|f reference|div body]; open_handler; explore.
  all: try (left; reflexivity).
  all: right;
    match goal with
    | H : findById contribution_id _ _ = Some ?k0 |- _ =>
        exists k0; do 2 eexists;
        (split; [exact (findById_in _ _ _ _ H)|]);
        (split; [|split; [|reflexivity]]); [reflexivity|cbn; assumption]
    end.
Qed.

Lemma amount_does_not_decrease_in_a_call (t : trigger) (w : World)
    (id : ObjectId) (c : Campaign) :
  (forall k, In k (contributions w) -> 0 <= amount k) ->
  findById campaign_id id (campaigns w) = Some c ->
  exists c',
    findById campaign_id id (campaigns (fst (reconcile t w))) = Some c' /\
    currentAmount c <= currentAmount c' /\ goalAmount c' = goalAmount c.
Proof.
  intros Hpos Hc.
  destruct (credit_comes_from_the_store t w)
    as [-> | (k0 & k & c0 & Hin & Hamt & Hc0 & ->)].
  - exists c. split; [exact Hc|]. split; [apply Qle_refl|reflexivity].
  - destruct (String.eqb (campaignId k) id) eqn:Hid.
    + apply String.eqb_eq in Hid. subst id. assert (c0 = c) as -> by congruence.
      exists (settled k c). split; [now apply campaigns_credited_find|].
      destruct (settled_fields k c) as (_ & -> & -> & _).
      split; [|reflexivity]. specialize (Hpos k0 Hin).
      apply add64_increases. now rewrite Hamt.
    + apply String.eqb_neq in Hid. exists c.
      rewrite campaigns_credited_elsewhere
        by (apply findById_id in Hc0; congruence).
      split; [exact Hc|]. split; [apply Qle_refl|reflexivity].
Qed.

(** X16.  When no contribution on file has a negative amount, the accumulated
    amount of a campaign never decreases and its goal never changes, over
    any sequence of reconciliation calls. *)
Theorem accumulated_amount_never_decreases (calls : list trigger) (w : World)
    (id : ObjectId) (c : Campaign) :
  (forall k, In k (contributions w) -> 0 <= amount k) ->
  findById campaign_id id (campaigns w) = Some c ->
  exists c',
    findById campaign_id id (campaigns (reconcile_all calls w)) = Some c' /\
    currentAmount c <= currentAmount c' /\ goalAmount c' = goalAmount c.
Proof.
  revert w c. induction calls as [|t calls IH]; intros w c Hpos Hc.
  - exists c. split; [exact Hc|]. split; [apply Qle_refl|reflexivity].
  - destruct (amount_does_not_decrease_in_a_call t w id c Hpos Hc)
      as (c1 & Hc1 & Hle1 & Hgoal1).
    assert (forall k, In k (contributions (fst (reconcile t w))) -> 0 <= amount k)
      as Hpos1.
    { intros k' Hin. destruct (amounts_come_from_the_store t w k' Hin)
        as (k & Hk & ->). now apply Hpos. }
    destruct (IH _ c1 Hpos1 Hc1) as (c' & Hc' & Hle & Hgoal).
    exists c'. split; [exact Hc'|]. split; [|congruence].
    now apply Qle_trans with (currentAmount c1).
Qed.

(** ** No terminal state *)




(** ** The notifier *)


Lemma roomName_injective (a b : ObjectId) : roomName a = roomName b -> a = b.
Proof. unfold roomName. cbn. now intros [= ->]. Qed.

Lemma new_events (t : trigger) (w : World) :
  exists events,
    emitted (fst (reconcile t w)) = (emitted w ++ events)%list /\
    (events = [] \/ exists method k c us ks, events = events_credited method k c us ks).
Proof.
  world w. destruct t as [body|f reference|div body]; open_handler; explore.
  all: try (exists []; rewrite app_nil_r; split; [reflexivity|left; reflexivity]).
  all: eexists; split; [reflexivity|].
  all: first [right; do 5 eexists; reflexivity | left; reflexivity].
Qed.

(** X20.  Every event a reconciliation call broadcasts is addressed to the room
    of the campaign it is about, and two campaigns never share a room: a
    subscriber of one campaign receives nothing about another. *)
Theorem events_go_to_their_campaign_room (t : trigger) (w : World) :
  (forall e, In e (emitted (fst (reconcile t w))) ->
             In e (emitted w) \/ event_room e = roomName (event_campaign e)) /\
  (forall a b, roomName a = roomName b -> a = b).
Proof.
  split; [|exact roomName_injective].
  intros e. destruct (new_events t w) as (events & -> & Hevents).
  rewrite List.in_app_iff. intros [H|H]; [auto|right].
  destruct Hevents as [-> | (m & k & c & us & ks & ->)]; [contradiction|].
  unfold events_credited in H. apply List.in_app_iff in H.
  destruct H as [[<-|[<-|[]]]|H]; try reflexivity.
  destruct (goal_reached k c); [|contradiction].
  destruct H as [<-|[]]. reflexivity.
Qed.

(** ** Documents that are no longer on file *)





(* ================================================================== *)
(** * Part XI. Properties of initiation, status and statistics *)
(* ================================================================== *)

#[local] Arguments generateTimestamp : simpl never.
#[local] Arguments stkPushBody : simpl never.
#[local] Arguments redacted : simpl never.
#[local] Arguments formatPhoneNumber : simpl never.
#[local] Arguments initiateMPESAPaymentSchema : simpl never.
#[local] Arguments message_of : simpl never.
#[local] Arguments response_or_message : simpl never.
#[local] Arguments response_field : simpl never.
#[local] Arguments as_message : simpl never.
#[local] Arguments statistics : simpl never.
#[local] Arguments has_contribution_id : simpl never.
#[local] Arguments has_paymentReference : simpl never.
#[local] Arguments has_transaction_id : simpl never.
#[local] Arguments has_transactionReference : simpl never.
#[local] Arguments String.append : simpl never.
#[local] Arguments String.eqb : simpl never.
#[local] Arguments Qle_bool : simpl never.
#[local] Arguments List.existsb : simpl never.

Ltac open_action :=
  unfold initiateMPESAPayment, checkMPESAPaymentStatus, getMyContributionStats,
    initiateSTKPush, generateToken, await, parse_initiation,
    Campaign_findById_given, Contribution_findById_given, Contribution_create,
    Transaction_create, Contribution_save_reference, Transaction_findOne_of,
    attempt, abind, aret, throw, answer, console_line;
  cbn.

(** ** Donor statistics *)

Lemma nodup_length_le (l : list string) :
  (List.length (List.nodup String.string_dec l) <= List.length l)%nat.
Proof.
  induction l as [|x l IH]; cbn; [lia|].
  destruct (List.in_dec String.string_dec x l); cbn; lia.
Qed.

Lemma total_increases (found : list Contribution) (sum : Q) :
  (forall k, In k found -> 0 <= amount k) ->
  sum <= List.fold_left (fun sum c => add64 sum (amount c)) found sum.
Proof.
  revert sum. induction found as [|k found IH]; intros sum Hpos; cbn [List.fold_left].
  - apply Qle_refl.
  - apply Qle_trans with (add64 sum (amount k)).
    + apply add64_increases, Hpos. now left.
    + apply IH. intros k' Hin. apply Hpos. now right.
Qed.

(** X23.  The statistics endpoint is read-only and answers a logged-in donor
    200 with the four figures computed from the donor's successful
    contributions: their number, the sum of their amounts, the quotient of
    the two (0 for a donor without one: no division by zero), and the number
    of distinct campaigns, which is at least one and at most the number of
    contributions as soon as there is one.  When no amount is negative,
    neither is the total, and the average is the exact quotient up to a
    relative rounding error of 2^-53. *)
Theorem donor_statistics_are_consistent (lib : Library) (u : User) (w : World) :
  let found := List.filter (successful_of (user_id u)) (contributions w) in
  let stats := statistics found in
  let count := inject_Z (Z.of_nat (totalContributions stats)) in
  getMyContributionStats lib (Some u) w
  = (w, inr (mkResponse 200
               (VObj [("success", VBool true);
                      ("data",
                       VObj [("totalAmount", VNum (totalAmount stats));
                             ("totalContributions", VNum count);
                             ("averageContribution", VNum (averageContribution stats));
                             ("campaignsSupported",
                              VNum (inject_Z (Z.of_nat (campaignsSupported stats))))])]))) /\
  totalContributions stats = countDocuments (successful_of (user_id u)) (contributions w) /\
  totalAmount stats = List.fold_left (fun sum k => add64 sum (amount k)) found 0 /\
  (found = [] ->
   totalAmount stats = 0 /\ averageContribution stats = 0 /\
   campaignsSupported stats = 0%nat) /\
  (found <> [] ->
   averageContribution stats = div64 (totalAmount stats) count /\
   (1 <= campaignsSupported stats <= totalContributions stats)%nat) /\
  ((forall k, In k found -> 0 <= amount k) -> found <> [] ->
   0 <= totalAmount stats /\
   totalAmount stats / count - totalAmount stats / count / inject_Z (2 ^ 53)
   <= averageContribution stats /\
   averageContribution stats
   <= totalAmount stats / count + totalAmount stats / count / inject_Z (2 ^ 53)).
Proof.
  cbv zeta. split; [|split; [|split; [|split; [|split]]]].
  - open_action. reflexivity.
  - reflexivity.
  - reflexivity.
  - intros ->. cbn. auto.
  - set (found := List.filter _ _). intros Hne.
    unfold statistics. cbn [totalAmount averageContribution totalContributions
                              campaignsSupported].
    destruct found as [|k found]; [congruence|].
    cbn [List.length Nat.ltb Nat.leb]. split; [reflexivity|].
    split;
      [|pose proof (nodup_length_le (List.map campaignId (k :: found))) as Hle;
        rewrite List.length_map in Hle; exact Hle].
    assert (In (campaignId k)
              (List.nodup String.string_dec (List.map campaignId (k :: found)))) as Hin
      by (apply List.nodup_In; now left).
    destruct (List.nodup _ _); [contradiction|cbn; lia].
  - set (found := List.filter _ _). intros Hpos Hne.
    pose proof (total_increases found 0 Hpos) as Htotal.
    unfold statistics. cbn [totalAmount averageContribution totalContributions].
    set (total := List.fold_left _ found 0) in *.
    destruct found as [|k found]; [congruence|].
    cbn [List.length Nat.ltb Nat.leb]. split; [exact Htotal|].
    unfold div64. apply binary64_error.
    apply Qle_shift_div_l; [|lra].
    change 0 with (inject_Z 0). rewrite <- Zlt_Qlt. lia.
Qed.

Lemma donor_statistics_are_consistent_witness :
  let owned := mkContribution "k2" (Some "u1") "c1" 250 card ps_success "ref2"
                 None VNull false None None in
  let w := mkWorld [] [demo_contribution true; owned] [demo_campaign 1000]
             [mkUser "u1" "Achieng"] true [] [] in
  let stats := statistics (List.filter (successful_of "u1") (contributions w)) in
  averageContribution stats
  = div64 (totalAmount stats) (inject_Z (Z.of_nat (totalContributions stats))) /\
  (1 <= campaignsSupported stats <= totalContributions stats)%nat.
Proof.
  refine (proj1 (proj2 (proj2 (proj2 (proj2
            (donor_statistics_are_consistent
               (mkLibrary (fun _ => true) (fun _ => true) (fun v => v) (fun s => s)
                  (fun s => s) (fun _ => "") (fun s => s) (fun _ => ""))
               (mkUser "u1" "Achieng")
               (mkWorld [] [demo_contribution true;
                            mkContribution "k2" (Some "u1") "c1" 250 card ps_success
                              "ref2" None VNull false None None]
                  [demo_campaign 1000] [mkUser "u1" "Achieng"] true [] [])))))) _).
  discriminate.
Defined.

(** ** The payment status endpoint *)

Lemma payment_status_run (lib : Library) (user : option User)
    (id : string) (k : Contribution) (w : World) :
  castable lib id = true ->
  findById contribution_id id (contributions w) = Some k ->
  let denied :=
    match user, userId k with
    | Some u, Some owner => negb (String.eqb owner (user_id u))
    | _, _ => false
    end in
  exists resp,
    checkMPESAPaymentStatus lib user id w = (w, inr resp) /\
    (denied = true -> statusCode resp = 403%Z) /\
    (denied = false ->
     exists transaction,
       resp = mkResponse 200
                (VObj [("success", VBool true);
                       ("data",
                        VObj [("contributionId", VStr (contribution_id k));
                              ("paymentStatus", VStr (PaymentStatus_name (paymentStatus k)));
                              ("amount", VNum (amount k));
                              ("mpesaReceiptNumber", contribution_mpesaReceiptNumber k);
                              ("transaction", transaction)])])).
Proof.
  intros Hcast Hk. cbv zeta. open_action. rewrite Hcast, Hk. cbn.
  destruct (match user with
            | Some u => match userId k with
                        | Some owner => negb (String.eqb owner (user_id u))
                        | None => false
                        end
            | None => false
            end) eqn:Hdenied.
  - eexists. split; [reflexivity|]. split; [reflexivity|discriminate].
  - eexists. split; [reflexivity|]. split; [discriminate|].
    intros _. eexists. reflexivity.
Qed.

(** X24.  The status endpoint never writes to the ledger.  For a contribution on
    file it answers 403 exactly when the caller is logged in, the
    contribution has an owner, and the two differ; in every other case (the
    owner, any caller of a guest contribution, and any caller without a
    login) it answers 200 with the stored payment status and amount. *)
Theorem payment_status_access (lib : Library) (user : option User)
    (id : string) (k : Contribution) (w : World) :
  castable lib id = true ->
  findById contribution_id id (contributions w) = Some k ->
  let denied :=
    match user, userId k with
    | Some u, Some owner => negb (String.eqb owner (user_id u))
    | _, _ => false
    end in
  exists resp,
    checkMPESAPaymentStatus lib user id w = (w, inr resp) /\
    (denied = true -> statusCode resp = 403%Z) /\
    (denied = false ->
     exists transaction,
       resp = mkResponse 200
                (VObj [("success", VBool true);
                       ("data",
                        VObj [("contributionId", VStr (contribution_id k));
                              ("paymentStatus", VStr (PaymentStatus_name (paymentStatus k)));
                              ("amount", VNum (amount k));
                              ("mpesaReceiptNumber", contribution_mpesaReceiptNumber k);
                              ("transaction", transaction)])])).
Proof. eapply payment_status_run; eassumption. Qed.

Lemma payment_status_access_witness :
  let lib := mkLibrary (fun _ => true) (fun _ => true) (fun v => v) (fun s => s)
               (fun s => s) (fun _ => "") (fun s => s) (fun _ => "") in
  exists resp,
    checkMPESAPaymentStatus lib None "k1" (demo_world 1000 true)
    = (demo_world 1000 true, inr resp) /\ statusCode resp = 200%Z.
Proof.
  destruct (payment_status_access
              (mkLibrary (fun _ => true) (fun _ => true) (fun v => v) (fun s => s)
                 (fun s => s) (fun _ => "") (fun s => s) (fun _ => ""))
              None "k1" (demo_contribution true) (demo_world 1000 true)
              eq_refl eq_refl) as (resp & Hrun & _ & Hallowed).
  exists resp. split; [exact Hrun|].
  destruct (Hallowed eq_refl) as [transaction ->]. reflexivity.
Defined.

(** An id that is no ObjectId, or that matches no contribution, is answered
    500 respectively 404, again without a write. *)
Lemma payment_status_of_unknown (lib : Library) (user : option User)
    (id : string) (w : World) :
  (castable lib id = false \/
   findById contribution_id id (contributions w) = None) ->
  exists w' resp,
    checkMPESAPaymentStatus lib user id w = (w', inr resp) /\
    same_ledger w w' /\ emitted w' = emitted w /\
    statusCode resp = (if castable lib id then 404 else 500)%Z.
Proof.
  intros H. world w. open_action.
  destruct (castable lib id) eqn:Hcast; cbn.
  - destruct H as [H|H]; [discriminate|]. rewrite H. cbn.
    do 2 eexists. split; [reflexivity|]. cbn. repeat split.
  - do 2 eexists. split; [reflexivity|]. cbn. repeat split.
Qed.


(** ** Initiation of an M-Pesa payment *)

Lemma schema_accepts (lib : Library) (body : value) (v : MpesaInitiation) :
  initiateMPESAPaymentSchema lib body = Some v ->
  Qle_bool 10 (in_amount v) = true /\
  kenyan_phone (units (in_phoneNumber v)) = true /\
  String.eqb (in_campaignId v) "" = false.
Proof.
  unfold initiateMPESAPaymentSchema.
  destruct body as [| | | | | | |fields]; try discriminate.
  destruct (nonempty_string (assoc "campaignId" fields)) as [c|] eqn:Hc;
    [|discriminate].
  destruct (number_min_10 (assoc "amount" fields)) as [a|] eqn:Ha;
    [|discriminate].
  destruct (phone_string (assoc "phoneNumber" fields)) as [p|] eqn:Hp;
    [|discriminate].
  destruct (boolean_default_false (assoc "isAnonymous" fields)); [|discriminate].
  destruct (optional_of (email_string lib) (assoc "guestEmail" fields));
    [|discriminate].
  destruct (optional_of nonempty_string (assoc "guestName" fields));
    [|discriminate].
  intros [= <-]. cbn [in_amount in_phoneNumber in_campaignId].
  unfold nonempty_string, number_min_10, phone_string in *.
  destruct (assoc "campaignId" fields); try discriminate.
  destruct (assoc "amount" fields); try discriminate.
  destruct (assoc "phoneNumber" fields); try discriminate.
  destruct (String.eqb s "") eqn:Es; [discriminate|]. injection Hc as <-.
  destruct (Qle_bool 10 q) eqn:Eq; [|discriminate]. injection Ha as <-.
  destruct (kenyan_phone (units s0)) eqn:Ek; [|discriminate]. injection Hp as <-.
  auto.
Qed.

(** Every answer of the initiation handler is one of 200, 400, 404, 500,
    and an answer 400 or 404 means that nothing was written: the ledger and
    the broadcasts are as before. *)
Lemma initiation_answers (lib : Library) (settings : MpesaEnv) (at_ : Moment)
    (token_call : Http string) (push_call : STKPushBody -> Http STKPushResponse)
    (user : option User) (body : value) (w : World) :
  exists w' resp,
    initiateMPESAPayment lib settings at_ token_call push_call user body w
    = (w', inr resp) /\
    (statusCode resp = 200 \/ statusCode resp = 400 \/ statusCode resp = 404
     \/ statusCode resp = 500)%Z /\
    ((statusCode resp = 400 \/ statusCode resp = 404)%Z ->
     same_ledger w w' /\ emitted w' = emitted w).
Proof.
  world w. open_action. explore.
  all: do 2 eexists; (split; [reflexivity|]); cbn.
  all: split; [auto|].
  all: try (intros _; repeat split; reflexivity).
  all: intros [H|H]; discriminate.
Qed.

Lemma initiation_on_inactive_campaign (lib : Library) (settings : MpesaEnv)
    (at_ : Moment) (token_call : Http string)
    (push_call : STKPushBody -> Http STKPushResponse)
    (user : option User) (body : value) (w : World)
    (v : MpesaInitiation) (c : Campaign) :
  initiateMPESAPaymentSchema lib body = Some v ->
  guest_without_contact user v = false ->
  castable lib (in_campaignId v) = true ->
  findById campaign_id (in_campaignId v) (campaigns w) = Some c ->
  status c <> active ->
  initiateMPESAPayment lib settings at_ token_call push_call user body w
  = (w, inr (mkResponse 400 (VObj [("success", VBool false);
                                   ("message", VStr "Campaign is not active.")]))).
Proof.
  unfold guest_without_contact. intros Hparse Hguest Hcast Hc Hstatus.
  open_action. rewrite Hparse. cbn. rewrite Hguest. cbn. rewrite Hcast, Hc. cbn.
  destruct (status c); try reflexivity. now elim Hstatus.
Qed.

(** X26.  Initiation answers 200, 400, 404 or 500 and never throws.  An answer 400
    or 404 means nothing was written.  In particular a valid request for a
    campaign that is on file but not active is answered 400 and leaves no
    contribution behind. *)
Theorem initiation_rejections_write_nothing (lib : Library) (settings : MpesaEnv)
    (at_ : Moment) (token_call : Http string)
    (push_call : STKPushBody -> Http STKPushResponse)
    (user : option User) (body : value) (w : World) :
  (exists w' resp,
     initiateMPESAPayment lib settings at_ token_call push_call user body w
     = (w', inr resp) /\
     (statusCode resp = 200 \/ statusCode resp = 400 \/ statusCode resp = 404
      \/ statusCode resp = 500)%Z /\
     ((statusCode resp = 400 \/ statusCode resp = 404)%Z ->
      same_ledger w w' /\ emitted w' = emitted w)) /\
  (forall v c,
     initiateMPESAPaymentSchema lib body = Some v ->
     guest_without_contact user v = false ->
     castable lib (in_campaignId v) = true ->
     findById campaign_id (in_campaignId v) (campaigns w) = Some c ->
     status c <> active ->
     exists resp,
       initiateMPESAPayment lib settings at_ token_call push_call user body w
       = (w, inr resp) /\ statusCode resp = 400%Z).
Proof.
  split; [apply initiation_answers|].
  intros v c Hparse Hguest Hcast Hc Hstatus.
  rewrite (initiation_on_inactive_campaign lib settings at_ token_call push_call
             user body w v c Hparse Hguest Hcast Hc Hstatus).
  now eexists.
Qed.

Lemma initiation_rejections_write_nothing_witness :
  let w := mkWorld [] [] [mkCampaign "c1" "Roof fund" 1000 0 paused] [] true [] [] in
  exists resp,
    initiateMPESAPayment demo_library demo_settings demo_moment (Answered "token")
      demo_push None demo_initiation w
    = (w, inr resp) /\ statusCode resp = 400%Z.
Proof.
  refine (proj2 (initiation_rejections_write_nothing demo_library demo_settings
                   demo_moment (Answered "token") demo_push None demo_initiation
                   (mkWorld [] [] [mkCampaign "c1" "Roof fund" 1000 0 paused] []
                      true [] []))
            _ (mkCampaign "c1" "Roof fund" 1000 0 paused)
            eq_refl eq_refl eq_refl eq_refl _).
  discriminate.
Defined.

Section Appending.
Context {Doc : Type} (id_of : Doc -> ObjectId).

Lemma save_appended (docs : list Doc) (d d' : Doc) :
  List.existsb (fun x => String.eqb (id_of x) (id_of d)) docs = false ->
  id_of d' = id_of d ->
  save id_of d' (docs ++ [d])%list = (docs ++ [d'])%list.
Proof.
  intros Hfresh Hid. unfold save. rewrite List.map_app. cbn.
  rewrite Hid, String.eqb_refl. f_equal.
  induction docs as [|a docs IH]; [reflexivity|].
  cbn in Hfresh. apply orb_false_iff in Hfresh. destruct Hfresh as [Ha Hdocs].
  cbn. rewrite Ha. f_equal. now apply IH.
Qed.


Lemma findOne_before_append (p : Doc -> bool) (docs : list Doc) (d x : Doc) :
  findOne p docs = Some x -> findOne p (docs ++ [d])%list = Some x.
Proof.
  unfold findOne. induction docs as [|a docs IH]; cbn; [discriminate|].
  destruct (p a); auto.
Qed.
End Appending.

(** ** An accepted initiation

    A valid request for an active campaign, identifiers and references
    that are not on file yet, and a provider that answers the push with a
    non-empty checkout request id. *)

Section Accepted.
Variable lib : Library.
Variable settings : MpesaEnv.
Variable at_ : Moment.
Variable access_token : string.
Variable push_call : STKPushBody -> Http STKPushResponse.
Variable user : option User.
Variable body : value.
Variable w : World.
Variable v : MpesaInitiation.
Variable c : Campaign.
Variable r : STKPushResponse.

Hypothesis Hparse : initiateMPESAPaymentSchema lib body = Some v.
Hypothesis Hguest : guest_without_contact user v = false.
Hypothesis Hcast : castable lib (in_campaignId v) = true.
Hypothesis Hc : findById campaign_id (in_campaignId v) (campaigns w) = Some c.
Hypothesis Hactive : status c = active.
Hypothesis Hkid : has_contribution_id (contribution_oid at_) (contributions w) = false.
Hypothesis Hkref :
  has_paymentReference ("MPESA-" ++ toString (Date_now at_)) (contributions w) = false.
Hypothesis Hpush :
  push_call (stkPushBody lib settings (new_Date at_)
               (mkSTKPushRequest (in_phoneNumber v) (in_amount v) (contribution_oid at_)
                  ("Donation to " ++ title c))) = Answered r.
Hypothesis Href : String.eqb (CheckoutRequestID r) "" = false.
Hypothesis Htid : has_transaction_id (transaction_oid at_) (transactions w) = false.
Hypothesis Htref :
  has_transactionReference (CheckoutRequestID r) (transactions w) = false.
Hypothesis Hkref' : has_paymentReference (CheckoutRequestID r) (contributions w) = false.

Lemma initiation_accepted_run :
  exists out resp,
    initiateMPESAPayment lib settings at_ (Answered access_token) push_call user body w
    = (mkWorld (transactions w ++ [opened_transaction at_ v r])
         (contributions w ++ [opened_contribution lib at_ user v r]) (campaigns w)
         (users w) (io w) (emitted w) out, inr resp) /\
    statusCode resp = 200%Z.
Proof.
  unfold guest_without_contact in Hguest.
  destruct (schema_accepts lib body v Hparse) as (Hamount & _ & _).
  assert (Qle_bool 0 (in_amount v) = true) as Hpos.
  { apply Qle_bool_iff. apply Qle_bool_iff in Hamount.
    apply Qle_trans with 10; [discriminate|exact Hamount]. }
  revert Hc Hkid Hkref Htid Htref Hkref'. world w.
  intros Hc Hkid Hkref Htid Htref Hkref'. cbn in Hc, Hkid, Hkref, Htid, Htref, Hkref'.
  open_action. rewrite Hparse. cbn. rewrite Hguest. cbn.
  rewrite Hcast, Hc. cbn. rewrite Hactive. cbn.
  change (("MPESA-" ++ toString (Date_now at_) =? "")%string) with false. cbn.
  rewrite Hamount. cbn. rewrite Hkid, Hkref. cbn.
  rewrite Hpush. cbn. rewrite Href. cbn. rewrite Hpos. cbn.
  rewrite Htid, Htref. cbn.
  assert (List.existsb
            (fun other : Contribution =>
               (negb (String.eqb (contribution_id other) (contribution_oid at_))
                && String.eqb (paymentReference other) (CheckoutRequestID r))%bool)
            (ks ++ [mkContribution (contribution_oid at_) (option_map user_id user)
                      (in_campaignId v) (in_amount v) mpesa ps_pending
                      ("MPESA-" ++ toString (Date_now at_)) None VNull
                      (in_isAnonymous v)
                      (option_map (set_guestEmail lib) (in_guestEmail v))
                      (option_map (set_guestName lib) (in_guestName v))])%list
          = false) as Hothers.
  { rewrite List.existsb_app. apply orb_false_iff. split.
    - unfold has_paymentReference in Hkref'. clear - Hkref'.
      induction ks as [|a ks IH]; [reflexivity|].
      unfold List.existsb in *. fold (@List.existsb Contribution) in *.
      apply orb_false_iff in Hkref'. destruct Hkref' as [Ha Hks].
      rewrite Ha, andb_false_r. now apply IH.
    - unfold List.existsb. cbn. now rewrite String.eqb_refl. }
  rewrite Hothers. cbn.
  rewrite (save_appended contribution_id ks) by (exact Hkid || reflexivity).
  do 2 eexists. split; reflexivity.
Qed.

(** X27.  A valid initiation for an active campaign, with fresh identifiers and a
    provider that answers with an unused, non-empty checkout request id, is
    answered 200 and appends one pending contribution and one transaction
    that carry the same correlation token and refer to each other; the
    transaction is [pending] for response code 0 and [failed] otherwise;
    campaigns and broadcasts are untouched. *)
Theorem initiation_pairs_contribution_and_transaction :
  exists k t w' resp,
    initiateMPESAPayment lib settings at_ (Answered access_token) push_call user body w
    = (w', inr resp) /\
    statusCode resp = 200%Z /\
    transactions w' = (transactions w ++ [t])%list /\
    contributions w' = (contributions w ++ [k])%list /\
    campaigns w' = campaigns w /\ emitted w' = emitted w /\
    paymentReference k = CheckoutRequestID r /\
    transactionReference t = CheckoutRequestID r /\
    contributionId t = contribution_id k /\
    campaignId k = in_campaignId v /\ amount k = in_amount v /\
    transaction_amount t = in_amount v /\
    userId k = option_map user_id user /\
    paymentStatus k = ps_pending /\
    transaction_status t =
      (if String.eqb (ResponseCode r) "0" then ts_pending else ts_failed).
Proof.
  destruct initiation_accepted_run as (out & resp & Hrun & H200).
  exists (opened_contribution lib at_ user v r), (opened_transaction at_ v r). do 2 eexists.
  split; [exact Hrun|]. cbn. split; [exact H200|]. repeat split; reflexivity.
Qed.

End Accepted.

Lemma initiation_pairs_contribution_and_transaction_witness :
  exists k t w' resp,
    initiateMPESAPayment demo_library demo_settings demo_moment (Answered "token")
      demo_push None demo_initiation demo_open_world
    = (w', inr resp) /\
    statusCode resp = 200%Z /\
    transactions w' = (transactions demo_open_world ++ [t])%list /\
    contributions w' = (contributions demo_open_world ++ [k])%list /\
    campaigns w' = campaigns demo_open_world /\
    emitted w' = emitted demo_open_world /\
    paymentReference k = "ws_CO_9" /\
    transactionReference t = "ws_CO_9" /\
    contributionId t = contribution_id k /\
    campaignId k = "c1" /\ amount k = 500 /\
    transaction_amount t = 500 /\
    userId k = None /\
    paymentStatus k = ps_pending /\
    transaction_status t = ts_pending.
Proof.
  exact (initiation_pairs_contribution_and_transaction demo_library demo_settings
           demo_moment "token" demo_push None demo_initiation demo_open_world
           demo_validated (demo_campaign 1000) demo_response
           eq_refl eq_refl eq_refl eq_refl eq_refl eq_refl eq_refl eq_refl eq_refl
           eq_refl eq_refl eq_refl).
Defined.

(** ** A gateway that refuses *)

(** X29.  When the token call or the push is refused, the contribution created
    before the gateway was called stays on file, [pending], under its
    provisional reference [MPESA-<now>]; no transaction is written and the
    request is answered 500.  When it is the token call that was refused the
    answer carries the generic message, whatever the provider said. *)
Theorem gateway_failure_leaves_pending_contribution (lib : Library)
    (settings : MpesaEnv) (at_ : Moment) (token_call : Http string)
    (push_call : STKPushBody -> Http STKPushResponse)
    (user : option User) (body : value) (w : World)
    (v : MpesaInitiation) (c : Campaign) :
  initiateMPESAPaymentSchema lib body = Some v ->
  guest_without_contact user v = false ->
  castable lib (in_campaignId v) = true ->
  findById campaign_id (in_campaignId v) (campaigns w) = Some c ->
  status c = active ->
  has_contribution_id (contribution_oid at_) (contributions w) = false ->
  has_paymentReference ("MPESA-" ++ toString (Date_now at_)) (contributions w) = false ->
  (exists d m, token_call = Refused d m) \/
  (exists d m,
     push_call (stkPushBody lib settings (new_Date at_)
                  (mkSTKPushRequest (in_phoneNumber v) (in_amount v)
                     (contribution_oid at_) ("Donation to " ++ title c)))
     = Refused d m) ->
  exists k w' resp,
    initiateMPESAPayment lib settings at_ token_call push_call user body w
    = (w', inr resp) /\
    statusCode resp = 500%Z /\
    transactions w' = transactions w /\
    contributions w' = (contributions w ++ [k])%list /\
    campaigns w' = campaigns w /\ emitted w' = emitted w /\
    contribution_id k = contribution_oid at_ /\
    campaignId k = in_campaignId v /\ amount k = in_amount v /\
    paymentStatus k = ps_pending /\
    paymentReference k = "MPESA-" ++ toString (Date_now at_) /\
    ((exists d m, token_call = Refused d m) ->
     json resp = VObj [("success", VBool false);
                       ("message", VStr "Failed to initiate MPESA payment")]).
Proof.
  unfold guest_without_contact.
  intros Hparse Hguest Hcast Hc Hactive Hkid Hkref Hrefused.
  destruct (schema_accepts lib body v Hparse) as (Hamount & _ & _).
  world w. cbn in Hc, Hkid, Hkref.
  open_action. rewrite Hparse. cbn. rewrite Hguest. cbn.
  rewrite Hcast, Hc. cbn. rewrite Hactive. cbn.
  change (("MPESA-" ++ toString (Date_now at_) =? "")%string) with false. cbn.
  rewrite Hamount. cbn. rewrite Hkid, Hkref. cbn.
  destruct token_call as [token|d m]; cbn.
  - destruct Hrefused as [(d & m & Habs)|(d & m & Hpush)]; [discriminate|].
    rewrite Hpush. cbn.
    destruct (truthy (response_field (AxiosError d m) "errorMessage")); cbn.
    all: eexists; do 2 eexists; (split; [reflexivity|]); cbn.
    all: repeat (split; [reflexivity|]).
    all: intros (d' & m' & Habs); discriminate.
  - eexists; do 2 eexists. split; [reflexivity|]. cbn.
    repeat (split; [reflexivity|]). intros _. reflexivity.
Qed.

Lemma gateway_failure_leaves_pending_contribution_witness :
  exists k w' resp,
    initiateMPESAPayment demo_library demo_settings demo_moment
      (Refused None "Request failed with status code 503") demo_push None
      demo_initiation demo_open_world
    = (w', inr resp) /\
    statusCode resp = 500%Z /\
    transactions w' = transactions demo_open_world /\
    contributions w' = (contributions demo_open_world ++ [k])%list /\
    campaigns w' = campaigns demo_open_world /\
    emitted w' = emitted demo_open_world /\
    contribution_id k = "k9" /\
    campaignId k = "c1" /\ amount k = 500 /\
    paymentStatus k = ps_pending /\
    paymentReference k = "MPESA-" ++ toString 1767607387000 /\
    ((exists d m,
        Refused None "Request failed with status code 503" = Refused d m :> Http string) ->
     json resp = VObj [("success", VBool false);
                       ("message", VStr "Failed to initiate MPESA payment")]).
Proof.
  exact (gateway_failure_leaves_pending_contribution demo_library demo_settings
           demo_moment (Refused None "Request failed with status code 503")
           demo_push None demo_initiation demo_open_world demo_validated
           (demo_campaign 1000) eq_refl eq_refl eq_refl eq_refl eq_refl eq_refl
           eq_refl
           (or_introl (ex_intro _ None (ex_intro _ _ eq_refl)))).
Defined.

(** ** The request sent to the provider *)

(** X30.  For a request that passed the initiation schema the provider is asked
    to charge the donor's number in its twelve-digit form, as payer and as
    phone number alike, an integer amount of at least 10 that is the
    donation rounded to the nearest shilling (half up): the amount charged
    differs from the amount recorded by at most one half, and the two agree
    exactly when the donation is a whole number. *)
Theorem stk_request_charges_rounded_amount (lib : Library) (settings : MpesaEnv)
    (date : DateParts) (data : STKPushRequest) :
  kenyan_phone (units (stk_phoneNumber data)) = true ->
  Qle_bool 10 (stk_amount data) = true ->
  let b := stkPushBody lib settings date data in
  PartyA b = PhoneNumber b /\
  List.length (PhoneNumber b) = 12%nat /\
  List.forallb is_digit (PhoneNumber b) = true /\
  (10 <= Amount b)%Z /\
  inject_Z (Amount b) - (1 # 2) <= stk_amount data /\
  stk_amount data < inject_Z (Amount b) + (1 # 2) /\
  (inject_Z (Amount b) == stk_amount data <->
   exists z, stk_amount data == inject_Z z) /\
  AccountReference b = accountReference data.
Proof.
  intros Hphone Hmin b.
  destruct (kenyan_phone_normal_form _ Hphone) as (n & _ & _ & _ & Hlen & Hdigits).
  destruct (round_is_within_half (stk_amount data)) as (Hlo & Hhi).
  apply Qle_bool_iff in Hmin.
  subst b. unfold stkPushBody. cbn [PartyA PhoneNumber Amount AccountReference].
  split; [reflexivity|]. split; [exact Hlen|]. split; [exact Hdigits|].
  split.
  { unfold Math_round. apply floor_at_least. change (inject_Z 10) with 10. lra. }
  split; [exact Hlo|]. split; [exact Hhi|]. split; [|reflexivity].
  split.
  - intros H. exists (Math_round (stk_amount data)). now symmetry.
  - intros (z & Hz). unfold Math_round.
    assert (stk_amount data + (1 # 2) == inject_Z z + (1 # 2)) as E by lra.
    rewrite (Qfloor_comp _ _ E).
    assert (Qfloor (inject_Z z + (1 # 2)) = z) as ->; [|now symmetry].
    pose proof (Qfloor_le (inject_Z z + (1 # 2))) as Hle.
    pose proof (Qlt_floor (inject_Z z + (1 # 2))) as Hlt.
    assert (inject_Z z <= inject_Z z + (1 # 2)) as Hz' by lra.
    apply floor_at_least in Hz'.
    assert (inject_Z (Qfloor (inject_Z z + (1 # 2))) < inject_Z (z + 1)) as Hup.
    { rewrite inject_Z_plus. change (inject_Z 1) with 1. lra. }
    rewrite <- Zlt_Qlt in Hup. lia.
Qed.

Lemma stk_request_charges_rounded_amount_witness :
  let b := stkPushBody demo_library demo_settings (new_Date demo_moment)
             (mkSTKPushRequest "0703757369" (1001 # 2) "k9" "Donation to Roof fund") in
  PartyA b = PhoneNumber b /\
  List.length (PhoneNumber b) = 12%nat /\
  List.forallb is_digit (PhoneNumber b) = true /\
  (10 <= Amount b)%Z /\
  inject_Z (Amount b) - (1 # 2) <= 1001 # 2 /\
  1001 # 2 < inject_Z (Amount b) + (1 # 2) /\
  (inject_Z (Amount b) == 1001 # 2 <-> exists z, 1001 # 2 == inject_Z z) /\
  AccountReference b = "k9".
Proof.
  exact (stk_request_charges_rounded_amount demo_library demo_settings
           (new_Date demo_moment)
           (mkSTKPushRequest "0703757369" (1001 # 2) "k9" "Donation to Roof fund")
           eq_refl eq_refl).
Defined.

End Reconciliation.

(* ================================================================== *)
(** * Part XII. The properties at concrete ledgers *)
(* ================================================================== *)

(** The runs below involve string tokens, receipts and descriptions only,
    which Mongoose compares and stores as they are.  Such a run is the same
    under every object mapper, so the runs are taken at [strings_only]. *)
Lemma plain_runs_agree (m m' : Mongoose) (t : trigger) (w : World) :
  plain t = true -> reconcile m t w = reconcile m' t w.
Proof.
  destruct t as [body|f reference|div body]; cbn [plain reconcile].
  - unfold handleMPESACallback, try_catch, bind, lift, Transaction_findOne.
    destruct (processCallback body) as [e|r] eqn:Hparse; [reflexivity|].
    rewrite andb_true_iff. intros [Htoken Hvalues].
    destruct (checkoutRequestID r) as [| | | | |s| |] eqn:Hs; try discriminate.
    cbn [console_write fst snd]. rewrite !lookup_of_string.
    destruct (findOne _ _) as [tx|]; [|reflexivity].
    destruct (cb_success r) eqn:Hok; cbn [negb].
    + destruct (truthy (mpesaReceiptNumber r)) eqn:Hreceipt; [|reflexivity].
      cbn in Hvalues.
      destruct (mpesaReceiptNumber r) as [| | | | |s'| |]; try discriminate.
      unfold set_mpesaReceiptNumber, set_String, lift, rbind. reflexivity.
    + destruct (resultDescription r) as [| | | | |s'| |]; try discriminate.
      rewrite (failed_callback_has_no_receipt body r Hparse Hok).
      unfold set_errorMessage, set_String, lift, rbind. reflexivity.
  - reflexivity.
  - unfold handlePaystackWebhook, try_catch, bind, lift, Transaction_findOne.
    destruct (processWebhook div body) as [e|r]; [reflexivity|].
    cbn [console_write fst snd].
    destruct (strict_eq_str (wh_event r) "charge.success"); cbn [negb orb];
      [|reflexivity].
    intros Htoken.
    destruct (wh_reference r) as [| | | | |s| |]; try discriminate.
    reflexivity.
Qed.

(** All the notifications used below are plain. *)
Lemma demo_notifications_are_plain :
  List.forallb plain
    [ MpesaCallback (stk_callback "ws_CO_1" 0);
      MpesaCallback (stk_callback "ws_CO_1" 1032);
      MpesaCallback (stk_callback "ws_CO_unknown" 0);
      MpesaCallback (stk_callback "ws_CO_9" 0);
      MpesaCallback (VObj []);
      PaystackVerify (demo_verification "failed") "ws_CO_1";
      PaystackVerify (demo_verification "abandoned") "ws_CO_1";
      PaystackWebhook num_div (paystack_event "charge.success" "ws_CO_1" "success");
      PaystackWebhook num_div (paystack_event "charge.success" "ref_unknown" "success");
      PaystackWebhook num_div (paystack_event "charge.failed" "ref_unknown" "failed");
      PaystackWebhook num_div (paystack_event "charge.failed" "ws_CO_1" "failed") ]
  = true.
Proof. vm_compute. reflexivity. Qed.










Lemma completion_is_monotonic_witness :
  let done := mkCampaign "c1" "Roof fund" 1000 1000 completed in
  let w := mkWorld [demo_transaction] [demo_contribution true] [done] [] true [] [] in
  let calls :=
    [ MpesaCallback (stk_callback "ws_CO_1" 0);
      PaystackVerify (demo_verification "failed") "ws_CO_1";
      PaystackWebhook num_div (paystack_event "charge.success" "ws_CO_1" "success") ] in
  exists c',
    findById campaign_id "c1" (campaigns (reconcile_all strings_only calls w)) = Some c' /\
    status c' = completed.
Proof.
  exact (completion_is_monotonic strings_only
           [ MpesaCallback (stk_callback "ws_CO_1" 0);
             PaystackVerify (demo_verification "failed") "ws_CO_1";
             PaystackWebhook num_div (paystack_event "charge.success" "ws_CO_1" "success") ]
           (mkWorld [demo_transaction] [demo_contribution true]
              [mkCampaign "c1" "Roof fund" 1000 1000 completed] [] true [] [])
           "c1" (mkCampaign "c1" "Roof fund" 1000 1000 completed) eq_refl eq_refl).
Defined.




Lemma accumulated_amount_never_decreases_witness :
  let calls :=
    [ MpesaCallback (stk_callback "ws_CO_1" 1032);
      MpesaCallback (stk_callback "ws_CO_1" 0);
      PaystackVerify (demo_verification "failed") "ws_CO_1" ] in
  exists c',
    findById campaign_id "c1" (campaigns (reconcile_all strings_only calls (demo_world 5000 true)))
    = Some c' /\
    0 <= currentAmount c' /\ goalAmount c' = 5000.
Proof.
  refine (accumulated_amount_never_decreases strings_only
            [ MpesaCallback (stk_callback "ws_CO_1" 1032);
              MpesaCallback (stk_callback "ws_CO_1" 0);
              PaystackVerify (demo_verification "failed") "ws_CO_1" ]
            (demo_world 5000 true) "c1" (demo_campaign 5000) _ eq_refl).
  intros k [<-|[]]. discriminate.
Defined.




Lemma events_go_to_their_campaign_room_witness :
  match emitted (fst (reconcile strings_only (MpesaCallback (stk_callback "ws_CO_1" 0))
                        (demo_world 1000 true))) with
  | e :: _ => event_room e = roomName (event_campaign e)
  | [] => False
  end.
Proof.
  pose proof (proj1 (events_go_to_their_campaign_room strings_only
                       (MpesaCallback (stk_callback "ws_CO_1" 0))
                       (demo_world 1000 true))) as H.
  vm_compute in H |- *.
  destruct (H _ (or_introl eq_refl)) as [[]|E]. exact E.
Defined.




